(** * Verification of the After Effects project-graph core

    A shallow embedding of

    - [ae_project_graph_ingestion.py] (class [AEProjectGraphIngestion]):
      the ingestion pipeline, its statistics and its similarity pass;
    - [mcp_ae_graph_walker.py]: the traversal tools
      [walk_composition_hierarchy] and [walk_time_relationships], and with
      them the other tools of the server that keep to its state
      ([walk_related_by_name], which draws from numpy's generator, is left
      out).

    Python objects with effects are modelled by explicit state passing in a
    state-and-exception monad.  What the program reads from a JSON document
    or receives from the HelixDB client keeps its dynamic type ([json]): a
    node, an edge, an item of an answer may be any value, [None] included,
    and an operation on a value of the wrong type raises what Python raises.
    How an f-string prints a value other than a string is left to an
    interface ([PyStr]).  Everything the program does to the outside
    world goes through [logging]; the model keeps the sequence of logger
    calls, one structured record per f-string of the source.  numpy and the
    floating point scalars are an interface ([Numpy]): the theorems hold for
    every implementation of it; the threshold theorem asks in addition for
    one law of the order ([NumpyOrder]).  Two implementations are given,
    double precision floats, on which the model runs, and the reals. *)

From Stdlib Require Import ZArith QArith Reals Lra.
From Stdlib Require Floats.
From stdpp Require Import gmap strings list sorting pretty.

Local Open Scope Z_scope.

(** ** Python runtime *)

(** The exceptions the modelled code can raise.  An exception carries the
    text [str(e)] gives, but for [KeyError], which carries its key: a string
    or, for [d[0]], an integer. *)
Inductive exn :=
| KeyError (key : string)
| KeyErrorInt (key : Z)
| ValueError (message : string)
| AttributeError (message : string)
| TypeError (message : string)
| IndexError (message : string)
| OSError (message : string)
| JSONDecodeError (message : string)
| HelixError (message : string).

Inductive Result (A : Type) :=
| Ok (a : A)
| Raise (e : exn).
Arguments Ok {A} a.
Arguments Raise {A} e.

Definition is_ok {A} (r : Result A) : bool :=
  match r with Ok _ => true | Raise _ => false end.

Inductive Level := DEBUG | INFO | WARNING | ERROR.

#[global] Instance Level_eq_dec : EqDecision Level.
Proof. solve_decision. Defined.

(** Stateful code that may raise: a state-and-exception monad over the
    state [S] of the module at hand.  The state reached when an exception
    is raised is kept, as Python keeps the effects made before a raise. *)
Definition Py (S A : Type) : Type := S -> Result A * S.

#[global] Instance Py_ret {S} : MRet (Py S) := fun A a s => (Ok a, s).
#[global] Instance Py_bind {S} : MBind (Py S) := fun A B f m s =>
  match m s with
  | (Ok a, s') => f a s'
  | (Raise e, s') => (Raise e, s')
  end.

Definition raise {S A} (e : exn) : Py S A := fun s => (Raise e, s).

Definition lift {S A} (r : Result A) : Py S A := fun s => (r, s).

(** [try: body except Exception as e: handler] *)
Definition try_except {S A} (body : Py S A) (handler : exn -> Py S A) : Py S A :=
  fun s =>
    match body s with
    | (Ok a, s') => (Ok a, s')
    | (Raise e, s') => handler e s'
    end.

(** [d[key]] on a dict whose field [key] is absent ([None]) or present. *)
Definition getitem {S A} (key : string) (field : option A) : Py S A :=
  match field with
  | Some a => mret a
  | None => raise (KeyError key)
  end.

(** [for x in items: body(x)] *)
Fixpoint for_each {S A} (items : list A) (body : A -> Py S unit) : Py S unit :=
  match items with
  | [] => mret tt
  | x :: rest => body x;; for_each rest body
  end.

(** A [for] loop that updates a local variable [acc]. *)
Fixpoint for_fold {S A B} (items : list A) (acc : B) (body : B -> A -> Py S B)
  : Py S B :=
  match items with
  | [] => mret acc
  | x :: rest => acc' ← body acc x; for_fold rest acc' body
  end.

(** Values read by [json.load]: [None], booleans, integers, floats (by
    their value, a rational; NaN and the infinities, which [json.load] takes
    as an extension, are left out), strings, lists and dicts. *)
#[warnings="-register-all"]
Inductive json :=
| JNull
| JBool (b : bool)
| JInt (z : Z)
| JFloat (q : Q)
| JStr (s : string)
| JArr (items : list json)
| JObj (fields : list (string * json)).   (* the items of the dict, in order *)

(** [type(v).__name__], as the texts of [TypeError] and [AttributeError]
    quote it. *)
Definition type_name (v : json) : string :=
  match v with
  | JNull => "NoneType"
  | JBool _ => "bool"
  | JInt _ => "int"
  | JFloat _ => "float"
  | JStr _ => "str"
  | JArr _ => "list"
  | JObj _ => "dict"
  end.

(** The exception of [v.attr] on a value without that attribute. *)
Definition no_attribute (v : json) (attr : string) : exn :=
  AttributeError
    ("'" +:+ type_name v +:+ "' object has no attribute '" +:+ attr +:+ "'").

(** The exception of hashing a list or a dict. *)
Definition unhashable (v : json) : exn :=
  TypeError ("unhashable type: '" +:+ type_name v +:+ "'").

(** [d.get(key, default)] on a value that should be a dict. *)
Fixpoint assoc_get (key : string) (fields : list (string * json)) : option json :=
  match fields with
  | [] => None
  | (k, v) :: rest => if decide (k = key) then Some v else assoc_get key rest
  end.

Definition json_get (key : string) (dflt : json) (v : json) : Result json :=
  match v with
  | JObj fields => Ok (default dflt (assoc_get key fields))
  | _ => Raise (no_attribute v "get")
  end.

(** [v[key]] for a string [key]: the value of the key in a dict; the other
    values have no string keys. *)
Definition py_getitem (key : string) (v : json) : Result json :=
  match v with
  | JObj fields =>
      match assoc_get key fields with
      | Some x => Ok x
      | None => Raise (KeyError key)
      end
  | JArr _ => Raise (TypeError "list indices must be integers or slices, not str")
  | JStr _ => Raise (TypeError "string indices must be integers, not 'str'")
  | _ => Raise (TypeError ("'" +:+ type_name v +:+ "' object is not subscriptable"))
  end.

Definition is_dict (v : json) : bool :=
  match v with JObj _ => true | _ => false end.

(** The number a value stands for in a comparison: [True] is 1 and [False]
    is 0. *)
Definition number_of (v : json) : option Q :=
  match v with
  | JBool b => Some (if b then 1 else 0)%Q
  | JInt z => Some (inject_Z z)
  | JFloat q => Some q
  | _ => None
  end.

(** [a == b].  Numbers compare by value ([True == 1 == 1.0]), lists item by
    item, dicts key by key whatever the order of their keys. *)
Fixpoint py_eq (a b : json) {struct a} : bool :=
  match a, b with
  | JNull, JNull => true
  | JStr x, JStr y => bool_decide (x = y)
  | JArr xs, JArr ys =>
      (fix items_eq (xs ys : list json) {struct xs} : bool :=
         match xs, ys with
         | [], [] => true
         | x :: xs', y :: ys' => py_eq x y && items_eq xs' ys'
         | _, _ => false
         end) xs ys
  | JObj fa, JObj fb =>
      bool_decide (length fa = length fb)
      && (fix fields_eq (fa : list (string * json)) {struct fa} : bool :=
            match fa with
            | [] => true
            | (k, x) :: fa' =>
                match assoc_get k fb with
                | Some y => py_eq x y
                | None => false
                end && fields_eq fa'
            end) fa
  | _, _ =>
      match number_of a, number_of b with
      | Some p, Some q => Qeq_bool p q
      | _, _ => false
      end
  end.

(** [str(v)], as an f-string renders a value: the text itself for a string;
    how a number, a list or a dict is printed is left to the interpreter. *)
Class PyStr := {
  py_str : json -> string;
  py_str_JStr : forall s : string, py_str (JStr s) = s
}.

(** numpy and float scalars, as far as the program uses them.
    [np_dot] raises on arrays of different shapes; [np_random_rand k] is the
    array the [k]-th call of [np.random.rand(768)] returns. *)
Class Numpy := {
  npfloat : Type;
  ndarray : Type;
  f_zero : npfloat;                          (* 0.0 *)
  f_0_7 : npfloat;                           (* the literal 0.7 *)
  f_mul : npfloat -> npfloat -> npfloat;
  f_div : npfloat -> npfloat -> npfloat;
  f_eqb : npfloat -> npfloat -> bool;        (* == *)
  f_gtb : npfloat -> npfloat -> bool;        (* > *)
  f_leb : npfloat -> npfloat -> bool;        (* <= *)
  np_dot : ndarray -> ndarray -> Result npfloat;
  np_linalg_norm : ndarray -> npfloat;
  tolist : ndarray -> list npfloat;
  np_random_rand : nat -> ndarray
}.

(** The one fact about float comparison the threshold argument needs; it
    holds of IEEE comparison (NaN compares false) and of the reals. *)
Class NumpyOrder `{Numpy} : Prop :=
  f_gtb_leb_trans : forall x t1 t2 : npfloat,
    f_leb t1 t2 = true -> f_gtb x t2 = true -> f_gtb x t1 = true.

(** * The ingestion pipeline ([ae_project_graph_ingestion.py]) *)
Module Ingestion.

(** ** Input documents *)

(** The dicts of the exported document.  A field is [None] when the key is
    absent, so that [d['k']] raises [KeyError] and [d.get('k', v)] falls back
    to [v].  The items of [nodes] and of [edges] are JSON values as
    [json.load] read them: nothing says that they are dicts, or what their
    keys hold. *)
Record ContentItem := {
  c_id : option string;
  c_field : option string;
  c_content : option string;
  c_type : option string
}.

Record ProjectData := {
  d_embedding_content : option (list ContentItem);
  d_nodes : option (list json);
  d_edges : option (list json)
}.

Record ExportResult := {
  x_success : option bool;
  x_message : option string;
  x_data : option ProjectData
}.

(** [self.node_types] and [self.edge_types]: dicts that are iterated in
    insertion order by [_initialize_schema], hence association lists. *)
Definition node_types : list (string * string) :=
  [ ("Project", "ae_project"); ("Composition", "ae_composition");
    ("FootageItem", "ae_footage"); ("ProjectFolder", "ae_folder");
    ("AVLayer", "ae_layer"); ("TextLayer", "ae_text_layer");
    ("ShapeLayer", "ae_shape_layer"); ("CameraLayer", "ae_camera_layer");
    ("LightLayer", "ae_light_layer"); ("Property", "ae_property");
    ("PropertyGroup", "ae_property_group"); ("Effect", "ae_effect");
    ("Keyframe", "ae_keyframe"); ("Expression", "ae_expression");
    ("RenderQueueItem", "ae_render_item") ].

Definition edge_types : list (string * string) :=
  [ ("CONTAINS", "contains"); ("PARENTS_TO", "parents_to");
    ("USES_SOURCE", "uses_source");
    ("DRIVES_WITH_EXPRESSION", "drives_with_expression");
    ("HAS_KEYFRAME", "has_keyframe"); ("RENDERS", "renders");
    ("REFERENCES_IN_EXPRESSION", "references_in_expression");
    ("SIMILAR_NAME", "similar_name"); ("SIMILAR_FUNCTION", "similar_function") ].

Fixpoint dict_get (key : string) (dflt : string) (d : list (string * string)) : string :=
  match d with
  | [] => dflt
  | (k, v) :: rest => if decide (k = key) then v else dict_get key dflt rest
  end.

(** [self.node_types.get(key, dflt)] for any value [key]: the keys of the
    dict are strings, so that no other hashable value is one of them; a list
    or a dict cannot be hashed. *)
Definition types_get (key : json) (dflt : string) (d : list (string * string))
  : Result string :=
  match key with
  | JStr k => Ok (dict_get k dflt d)
  | JArr _ | JObj _ => Raise (unhashable key)
  | _ => Ok dflt
  end.

(** [v in {...}] for a set of strings. *)
Definition in_types (v : json) (types : list string) : Result bool :=
  match v with
  | JStr k => Ok (bool_decide (k ∈ types))
  | JArr _ | JObj _ => Raise (unhashable v)
  | _ => Ok false
  end.

(** [_should_compute_similarity]; [and] evaluates its second operand only
    when the first holds. *)
Definition layer_types : list string :=
  ["AVLayer"; "TextLayer"; "ShapeLayer"; "CameraLayer"; "LightLayer"].

Definition property_types : list string := ["Property"; "PropertyGroup"].

Definition both_in (type1 type2 : json) (types : list string) : Result bool :=
  match in_types type1 types with
  | Raise e => Raise e
  | Ok false => Ok false
  | Ok true => in_types type2 types
  end.

Definition _should_compute_similarity (type1 type2 : json) : Result bool :=
  if py_eq type1 type2 then Ok true
  else
    match both_in type1 type2 layer_types with
    | Raise e => Raise e
    | Ok true => Ok true
    | Ok false =>
        match both_in type1 type2 property_types with
        | Raise e => Raise e
        | Ok true => Ok true
        | Ok false => Ok false
        end
    end.

Section WithNumpy.
Context `{Numpy} `{PyStr}.

(** [_cosine_similarity] *)
Definition _cosine_similarity (a b : ndarray) : Result npfloat :=
  match np_dot a b with
  | Raise e => Raise e
  | Ok dot_product =>
      let norm_a := np_linalg_norm a in
      let norm_b := np_linalg_norm b in
      if f_eqb norm_a f_zero || f_eqb norm_b f_zero then Ok f_zero
      else Ok (f_div dot_product (f_mul norm_a norm_b))
  end.

(** ** Instance state, logging and the outside world *)

(** [GraphStats] *)
Record GraphStats := {
  nodes_created : Z;
  edges_created : Z;
  embeddings_generated : Z;
  errors : Z;
  start_time : npfloat;
  end_time : npfloat
}.

(** One constructor per logger f-string of the source, with the values the
    f-string formats. *)
Inductive Msg :=
| MsgLoading (path : string)
| MsgInitialized (connection_id : json)
| MsgWouldCreateSchema (helix_type : string)
| MsgWouldCreateEdgeSchema (helix_type : string)
| MsgSchemaWarning (e : exn)
| MsgGeneratingEmbeddings
| MsgGenerated (n : nat)
| MsgEmbeddingFailed (e : exn)
| MsgIngestingNodes
| MsgCreatedNodes (n : Z)
| MsgFailedNode (id : json) (e : exn)
| MsgCreatingNode (node_type : string) (id : json)
| MsgIngestingEdges
| MsgCreatedEdges (n : Z)
| MsgFailedEdge (from_id to_id : json) (e : exn)
| MsgCreatingEdge (edge_type : string) (from_id to_id : json)
| MsgComputingSimilarity
| MsgCreatedSimilarities (n : Z)
| MsgCompleted
| MsgNodesCreated (n : Z)
| MsgEdgesCreated (n : Z)
| MsgEmbeddingsGenerated (n : Z)
| MsgTimeTaken (start_t end_t : npfloat)
| MsgIngestionFailed (e : exn).

(** What the program cannot decide: the file system, the HelixDB client and
    the clock ([time_time k] is the value of the [k]-th call of
    [time.time()]).  [helix_query_init] is what
    [self.client.query(helix.init())] does: it raises, or returns a list
    with one item for each request sent, the item of a request that failed
    being [None]. *)
Record World := {
  open_json : string -> Result ExportResult;
  helix_query_init : Result (list json);
  time_time : nat -> npfloat
}.

(** The instance ([self.stats]) together with the logger calls made so far
    (newest first) and the number of calls of [np.random.rand] and
    [time.time]. *)
Record State := {
  stats : GraphStats;
  log : list (Level * Msg);
  rand_calls : nat;
  time_calls : nat
}.

Local Abbreviation M := (Py State).

Definition get_stats : M GraphStats := fun s => (Ok (stats s), s).

Definition set_stats (f : GraphStats -> GraphStats) : M unit := fun s =>
  (Ok tt, {| stats := f (stats s); log := log s;
             rand_calls := rand_calls s; time_calls := time_calls s |}).

Definition logger (level : Level) (msg : Msg) : M unit := fun s =>
  (Ok tt, {| stats := stats s; log := (level, msg) :: log s;
             rand_calls := rand_calls s; time_calls := time_calls s |}).

Definition random_rand : M ndarray := fun s =>
  (Ok (np_random_rand (rand_calls s)),
   {| stats := stats s; log := log s;
      rand_calls := S (rand_calls s); time_calls := time_calls s |}).

(** Field updates of [self.stats]. *)
Definition incr_nodes_created (g : GraphStats) : GraphStats :=
  {| nodes_created := nodes_created g + 1; edges_created := edges_created g;
     embeddings_generated := embeddings_generated g; errors := errors g;
     start_time := start_time g; end_time := end_time g |}.

Definition incr_edges_created (g : GraphStats) : GraphStats :=
  {| nodes_created := nodes_created g; edges_created := edges_created g + 1;
     embeddings_generated := embeddings_generated g; errors := errors g;
     start_time := start_time g; end_time := end_time g |}.

Definition incr_embeddings_generated (g : GraphStats) : GraphStats :=
  {| nodes_created := nodes_created g; edges_created := edges_created g;
     embeddings_generated := embeddings_generated g + 1; errors := errors g;
     start_time := start_time g; end_time := end_time g |}.

Definition incr_errors (g : GraphStats) : GraphStats :=
  {| nodes_created := nodes_created g; edges_created := edges_created g;
     embeddings_generated := embeddings_generated g; errors := errors g + 1;
     start_time := start_time g; end_time := end_time g |}.

Definition set_start_time (t : npfloat) (g : GraphStats) : GraphStats :=
  {| nodes_created := nodes_created g; edges_created := edges_created g;
     embeddings_generated := embeddings_generated g; errors := errors g;
     start_time := t; end_time := end_time g |}.

Definition set_end_time (t : npfloat) (g : GraphStats) : GraphStats :=
  {| nodes_created := nodes_created g; edges_created := edges_created g;
     embeddings_generated := embeddings_generated g; errors := errors g;
     start_time := start_time g; end_time := t |}.

(** [GraphStats()] and the state of a new instance after [__init__]. *)
Definition GraphStats_default : GraphStats :=
  {| nodes_created := 0; edges_created := 0; embeddings_generated := 0;
     errors := 0; start_time := f_zero; end_time := f_zero |}.

Definition __init__ : State :=
  {| stats := GraphStats_default; log := []; rand_calls := 0; time_calls := 0 |}.

Variable world : World.

Definition time_now : M npfloat := fun s =>
  (Ok (time_time world (time_calls s)),
   {| stats := stats s; log := log s;
      rand_calls := rand_calls s; time_calls := S (time_calls s) |}).

(** ** The pipeline *)

(** [_initialize_schema]: the schema queries are only logged. *)
Definition _initialize_schema : M unit :=
  try_except
    (response ← lift (helix_query_init world);
     connection_id ← match response with
                     | c :: _ => mret c
                     | [] => raise (IndexError "list index out of range")
                     end;
     logger INFO (MsgInitialized connection_id);;
     for_each node_types (fun '(ae_type, helix_type) =>
       logger DEBUG (MsgWouldCreateSchema helix_type));;
     for_each edge_types (fun '(ae_type, helix_type) =>
       logger DEBUG (MsgWouldCreateEdgeSchema helix_type)))
    (fun e => logger WARNING (MsgSchemaWarning e)).

(** An entry of [embeddings_map]. *)
Record Embedding := {
  emb_vector : ndarray;
  emb_text : string;
  emb_type : string;
  emb_node_id : string;
  emb_field : string
}.

(** Body of the loop of [_generate_embeddings]: one [content_item]. *)
Definition embed_content_item (embeddings_map : gmap string Embedding)
    (content_item : ContentItem) : M (gmap string Embedding) :=
  content_id ← getitem "id" (c_id content_item);
  field ← getitem "field" (c_field content_item);
  text ← getitem "content" (c_content content_item);
  content_type ← getitem "type" (c_type content_item);
  let embed_key := content_id +:+ "_" +:+ field in
  embedding ← random_rand;
  let embeddings_map :=
    <[embed_key := {| emb_vector := embedding; emb_text := text;
                      emb_type := content_type; emb_node_id := content_id;
                      emb_field := field |}]> embeddings_map in
  set_stats incr_embeddings_generated;;
  mret embeddings_map.

(** [_generate_embeddings]: one [try] around the whole loop. *)
Definition _generate_embeddings (embedding_content : list ContentItem)
  : M (gmap string Embedding) :=
  try_except
    (embeddings_map ← for_fold embedding_content ∅ embed_content_item;
     logger INFO (MsgGenerated (size embeddings_map));;
     mret embeddings_map)
    (fun e => logger ERROR (MsgEmbeddingFailed e);; mret ∅).

(** The dict handed to [_create_helix_node]. *)
Record NodeData := {
  nd_id : json;
  nd_name : json;
  nd_type : json;
  nd_properties : json;
  nd_embedding : option (list npfloat)
}.

(** [_create_helix_node]: a placeholder whose only effect is the debug
    record of the creation request. *)
Definition _create_helix_node (node_type : string) (node_data : NodeData) : M unit :=
  logger DEBUG (MsgCreatingNode node_type (nd_id node_data)).

(** Body of the loop of [_ingest_nodes]: one [node], inside its own [try].
    The handler formats [node.get('id', 'unknown')] before it logs, so that
    it raises itself when [node] is not a dict. *)
Definition ingest_node (embeddings_map : gmap string Embedding) (node : json) : M unit :=
  try_except
    (node_id ← lift (py_getitem "id" node);
     node_type ← lift (py_getitem "type" node);
     properties ← lift (json_get "properties" (JObj []) node);
     let embed_key := py_str node_id +:+ "_name" in
     let primary_embedding :=
       match embeddings_map !! embed_key with
       | Some entry => Some (tolist (emb_vector entry))
       | None => None
       end in
     helix_node_type ← lift (types_get node_type "ae_unknown" node_types);
     name ← lift (json_get "name" (JStr "") properties);
     let node_data :=
       {| nd_id := node_id; nd_name := name; nd_type := node_type;
          nd_properties := properties; nd_embedding := primary_embedding |} in
     _create_helix_node helix_node_type node_data;;
     set_stats incr_nodes_created;;
     g ← get_stats;
     if decide (nodes_created g `mod` 100 = 0)
     then logger INFO (MsgCreatedNodes (nodes_created g))
     else mret tt)
    (fun e =>
       id ← lift (json_get "id" (JStr "unknown") node);
       logger ERROR (MsgFailedNode id e);;
       set_stats incr_errors).

(** [_ingest_nodes] *)
Definition _ingest_nodes (nodes : list json) (embeddings_map : gmap string Embedding)
  : M unit :=
  for_each nodes (ingest_node embeddings_map).

(** The [properties] dict handed to [_create_helix_edge]: the one of the
    input edge, or the one the similarity pass builds. *)
Inductive EdgeProperties :=
| InputProperties (properties : json)
| SimilarityProperties (similarity_score : npfloat) (relationship : string).

(** [_create_helix_edge]: a placeholder as well. *)
Definition _create_helix_edge (from_id to_id : json) (edge_type : string)
    (properties : EdgeProperties) : M unit :=
  logger DEBUG (MsgCreatingEdge edge_type from_id to_id).

(** Body of the loop of [_ingest_edges]: one [edge], inside its own [try];
    the handler formats [edge.get('from', 'unknown')] and
    [edge.get('to', 'unknown')] before it logs. *)
Definition ingest_edge (edge : json) : M unit :=
  try_except
    (from_id ← lift (py_getitem "from" edge);
     to_id ← lift (py_getitem "to" edge);
     edge_type ← lift (py_getitem "type" edge);
     properties ← lift (json_get "properties" (JObj []) edge);
     helix_edge_type ← lift (types_get edge_type "unknown_relation" edge_types);
     _create_helix_edge from_id to_id helix_edge_type (InputProperties properties);;
     set_stats incr_edges_created;;
     g ← get_stats;
     if decide (edges_created g `mod` 500 = 0)
     then logger INFO (MsgCreatedEdges (edges_created g))
     else mret tt)
    (fun e =>
       from_id ← lift (json_get "from" (JStr "unknown") edge);
       to_id ← lift (json_get "to" (JStr "unknown") edge);
       logger ERROR (MsgFailedEdge from_id to_id e);;
       set_stats incr_errors).

(** [_ingest_edges] *)
Definition _ingest_edges (edges : list json) : M unit :=
  for_each edges ingest_edge.

(** An entry of [nodes_with_embeddings]. *)
Record EmbeddedNode := {
  en_id : json;
  en_type : json;
  en_name : json;
  en_embedding : ndarray
}.

(** Body of the first loop of [_compute_semantic_relationships]. *)
Definition collect_embedded_node (embeddings_map : gmap string Embedding)
    (nodes_with_embeddings : list EmbeddedNode) (node : json) : M (list EmbeddedNode) :=
  node_id ← lift (py_getitem "id" node);
  let embed_key := py_str node_id +:+ "_name" in
  match embeddings_map !! embed_key with
  | Some entry =>
      node_type ← lift (py_getitem "type" node);
      properties ← lift (json_get "properties" (JObj []) node);
      name ← lift (json_get "name" (JStr "") properties);
      mret (nodes_with_embeddings ++
            [ {| en_id := node_id; en_type := node_type; en_name := name;
                 en_embedding := emb_vector entry |} ])
  | None => mret nodes_with_embeddings
  end.

(** The first loop; no [try] guards it. *)
Definition nodes_with_embeddings (nodes : list json)
    (embeddings_map : gmap string Embedding) : M (list EmbeddedNode) :=
  for_fold nodes [] (collect_embedded_node embeddings_map).

(** Body of the inner loop: one pair [node1], [node2] with [node2] later in
    the list than [node1]. *)
Definition similarity_pair (similarity_threshold : npfloat)
    (node1 : EmbeddedNode) (similarities_created : Z) (node2 : EmbeddedNode) : M Z :=
  should ← lift (_should_compute_similarity (en_type node1) (en_type node2));
  if should : bool then
    similarity ← lift (_cosine_similarity (en_embedding node1) (en_embedding node2));
    if f_gtb similarity similarity_threshold then
      _create_helix_edge (en_id node1) (en_id node2) "similar_name"
        (SimilarityProperties similarity "semantic_similarity");;
      mret (similarities_created + 1)
    else mret similarities_created
  else mret similarities_created.

(** [for i, node1 in enumerate(l): for j, node2 in enumerate(l[i+1:], i+1)] *)
Fixpoint similarity_pairs (similarity_threshold : npfloat)
    (nodes_with_embeddings : list EmbeddedNode) (similarities_created : Z) : M Z :=
  match nodes_with_embeddings with
  | [] => mret similarities_created
  | node1 :: rest =>
      similarities_created ←
        for_fold rest similarities_created
          (similarity_pair similarity_threshold node1);
      similarity_pairs similarity_threshold rest similarities_created
  end.

(** [_compute_semantic_relationships], with the local constant
    [similarity_threshold] as an argument. *)
Definition compute_semantic_relationships_at (similarity_threshold : npfloat)
    (nodes : list json) (embeddings_map : gmap string Embedding) : M unit :=
  logger INFO MsgComputingSimilarity;;
  nodes_with_embeddings ← nodes_with_embeddings nodes embeddings_map;
  similarities_created ← similarity_pairs similarity_threshold nodes_with_embeddings 0;
  logger INFO (MsgCreatedSimilarities similarities_created).

Definition _compute_semantic_relationships
  : list json -> gmap string Embedding -> M unit :=
  compute_semantic_relationships_at f_0_7.

(** [ingest_project].  The Python method returns the object [self.stats]
    itself; the model returns its value at the time of the return. *)
Definition ingest_project (project_json_path : string) : M GraphStats :=
  t ← time_now;
  set_stats (set_start_time t);;
  try_except
    (logger INFO (MsgLoading project_json_path);;
     export_result ← lift (open_json world project_json_path);
     (if negb (default false (x_success export_result))
      then raise (ValueError ("Export failed: " +:+
                              default "Unknown error" (x_message export_result)))
      else mret tt);;
     project_data ← getitem "data" (x_data export_result);
     _initialize_schema;;
     logger INFO MsgGeneratingEmbeddings;;
     embedding_content ← getitem "embedding_content" (d_embedding_content project_data);
     embeddings_map ← _generate_embeddings embedding_content;
     logger INFO MsgIngestingNodes;;
     nodes ← getitem "nodes" (d_nodes project_data);
     _ingest_nodes nodes embeddings_map;;
     logger INFO MsgIngestingEdges;;
     edges ← getitem "edges" (d_edges project_data);
     _ingest_edges edges;;
     logger INFO MsgComputingSimilarity;;
     nodes ← getitem "nodes" (d_nodes project_data);
     _compute_semantic_relationships nodes embeddings_map;;
     t ← time_now;
     set_stats (set_end_time t);;
     logger INFO MsgCompleted;;
     g ← get_stats;
     logger INFO (MsgNodesCreated (nodes_created g));;
     logger INFO (MsgEdgesCreated (edges_created g));;
     logger INFO (MsgEmbeddingsGenerated (embeddings_generated g));;
     logger INFO (MsgTimeTaken (start_time g) (end_time g));;
     get_stats)
    (fun e =>
       set_stats incr_errors;;
       logger ERROR (MsgIngestionFailed e);;
       raise e).

(** ** Reading a log *)

(** The creation requests found in a log, oldest first: the records left by
    [_create_helix_edge] and [_create_helix_node]. *)
Definition as_edge_request (r : Level * Msg) : option (string * json * json) :=
  match r with
  | (DEBUG, MsgCreatingEdge edge_type from_id to_id) => Some (edge_type, from_id, to_id)
  | _ => None
  end.

Definition edge_requests (l : list (Level * Msg)) : list (string * json * json) :=
  omap as_edge_request (rev l).

Definition as_node_request (r : Level * Msg) : option (string * json) :=
  match r with
  | (DEBUG, MsgCreatingNode node_type id) => Some (node_type, id)
  | _ => None
  end.

Definition node_requests (l : list (Level * Msg)) : list (string * json) :=
  omap as_node_request (rev l).

Definition is_warning (r : Level * Msg) : bool :=
  match r with (WARNING, _) => true | _ => false end.

(** The items skipped with an ERROR record, oldest first: the records of
    the handlers of [_ingest_edges] and [_ingest_nodes]. *)
Definition as_edge_failure (r : Level * Msg) : option (json * json * exn) :=
  match r with
  | (ERROR, MsgFailedEdge from_id to_id e) => Some (from_id, to_id, e)
  | _ => None
  end.

Definition edge_failures (l : list (Level * Msg)) : list (json * json * exn) :=
  omap as_edge_failure (rev l).

Definition as_node_failure (r : Level * Msg) : option (json * exn) :=
  match r with
  | (ERROR, MsgFailedNode id e) => Some (id, e)
  | _ => None
  end.

Definition node_failures (l : list (Level * Msg)) : list (json * exn) :=
  omap as_node_failure (rev l).

Definition ok {A} (r : Result A) : option A :=
  match r with Ok a => Some a | Raise _ => None end.

(** A value that can be hashed: a key of a dict, a member of a set. *)
Definition hashable (v : json) : bool :=
  match v with JArr _ | JObj _ => false | _ => true end.

(** What the [try] of [_ingest_edges] comes to for one edge: the request it
    makes, or the exception that stops it. *)
Definition edge_request (edge : json) : Result (string * json * json) :=
  match py_getitem "from" edge with
  | Raise e => Raise e
  | Ok from_id =>
      match py_getitem "to" edge with
      | Raise e => Raise e
      | Ok to_id =>
          match py_getitem "type" edge with
          | Raise e => Raise e
          | Ok edge_type =>
              match json_get "properties" (JObj []) edge with
              | Raise e => Raise e
              | Ok properties =>
                  match types_get edge_type "unknown_relation" edge_types with
                  | Raise e => Raise e
                  | Ok helix_edge_type => Ok (helix_edge_type, from_id, to_id)
                  end
              end
          end
      end
  end.

(** The request [_ingest_edges] makes for an edge, if any, and what its
    handler logs for an edge dict that makes none. *)
Definition edge_request_of (edge : json) : option (string * json * json) :=
  ok (edge_request edge).

Definition edge_failure_of (edge : json) : option (json * json * exn) :=
  match edge_request edge, edge with
  | Raise e, JObj fields =>
      Some (default (JStr "unknown") (assoc_get "from" fields),
            default (JStr "unknown") (assoc_get "to" fields), e)
  | _, _ => None
  end.


(** The same for [_ingest_nodes]. *)
Definition node_request (node : json) : Result (string * json) :=
  match py_getitem "id" node with
  | Raise e => Raise e
  | Ok node_id =>
      match py_getitem "type" node with
      | Raise e => Raise e
      | Ok node_type =>
          match json_get "properties" (JObj []) node with
          | Raise e => Raise e
          | Ok properties =>
              match types_get node_type "ae_unknown" node_types with
              | Raise e => Raise e
              | Ok helix_node_type =>
                  match json_get "name" (JStr "") properties with
                  | Raise e => Raise e
                  | Ok name => Ok (helix_node_type, node_id)
                  end
              end
          end
      end
  end.

Definition node_request_of (node : json) : option (string * json) :=
  ok (node_request node).

Definition node_failure_of (node : json) : option (json * exn) :=
  match node_request node, node with
  | Raise e, JObj fields => Some (default (JStr "unknown") (assoc_get "id" fields), e)
  | _, _ => None
  end.

(** A node that [_ingest_nodes] requests: a dict with the keys [id] and
    [type], the type being hashable, whose [properties], if any, is a
    dict. *)
Definition well_formed_node (node : json) : Prop :=
  exists fields node_id node_type,
    node = JObj fields
    /\ assoc_get "id" fields = Some node_id
    /\ assoc_get "type" fields = Some node_type
    /\ hashable node_type = true
    /\ is_dict (default (JObj []) (assoc_get "properties" fields)) = true.

(** The items a loop of [_ingest_nodes] or [_ingest_edges] gets through: the
    dicts before the first item that is not a dict, on which the handler
    itself raises. *)
Fixpoint leading_dicts (items : list json) : list json :=
  match items with
  | JObj fields :: rest => JObj fields :: leading_dicts rest
  | _ => []
  end.

Fixpoint first_non_dict (items : list json) : option json :=
  match items with
  | [] => None
  | JObj _ :: rest => first_non_dict rest
  | item :: _ => Some item
  end.

(** How such a loop ends. *)
Definition loop_result (items : list json) : Result unit :=
  match first_non_dict items with
  | None => Ok tt
  | Some item => Raise (no_attribute item "get")
  end.

(** The four values [_generate_embeddings] reads from a content item: none
    when one of the keys [id], [field], [content], [type] is absent. *)
Definition content_item_keys (c : ContentItem)
  : option (string * string * string * string) :=
  match c_id c, c_field c, c_content c, c_type c with
  | Some content_id, Some field, Some text, Some content_type =>
      Some (content_id, field, text, content_type)
  | _, _, _, _ => None
  end.

(** The records a computation adds to the log of [s], newest first. *)
Definition emitted_by {A} (m : M A) (s : State) : list (Level * Msg) :=
  let s' := snd (m s) in
  take (length (log s') - length (log s)) (log s').

(** The similarity edges requested by the similarity pass run from [s]
    under a given threshold, oldest first. *)
Definition similarity_edges (similarity_threshold : npfloat) (nodes : list json)
    (embeddings_map : gmap string Embedding) (s : State)
  : list (string * json * json) :=
  edge_requests
    (emitted_by
       (compute_semantic_relationships_at similarity_threshold nodes embeddings_map) s).

(** The similarity-eligible classes, as the specification words them:
    types that are identical (equal, for Python), or both layer types, or
    both property types. *)
Definition both_among (types : list string) (type1 type2 : json) : Prop :=
  exists name1 name2,
    type1 = JStr name1 /\ type2 = JStr name2 /\ name1 ∈ types /\ name2 ∈ types.

Definition same_similarity_class (type1 type2 : json) : Prop :=
  py_eq type1 type2 = true
  \/ both_among layer_types type1 type2
  \/ both_among property_types type1 type2.

(** A request that joins two input nodes, the first earlier in the list than
    the second, both with a name embedding and with types of one class. *)
Definition joins_eligible_nodes (nodes : list json)
    (embeddings_map : gmap string Embedding) (r : string * json * json) : Prop :=
  exists node1 node2 type1 type2 from_id to_id,
    r = ("similar_name", from_id, to_id)
    /\ [node1; node2] `sublist_of` nodes
    /\ py_getitem "id" node1 = Ok from_id /\ py_getitem "type" node1 = Ok type1
    /\ py_getitem "id" node2 = Ok to_id /\ py_getitem "type" node2 = Ok type2
    /\ is_Some (embeddings_map !! (py_str from_id +:+ "_name"))
    /\ is_Some (embeddings_map !! (py_str to_id +:+ "_name"))
    /\ same_similarity_class type1 type2.

(** The phases of a run, and the phase a log record belongs to.  The banner
    records of [ingest_project] announce a phase; the record of
    [_create_helix_edge] is left out, as two phases write it. *)
Inductive Phase :=
| SchemaInit | EmbeddingGen | NodeMat | EdgeMat | SimilarityComp.

Definition phase_of (r : Level * Msg) : option Phase :=
  match snd r with
  | MsgInitialized _ | MsgWouldCreateSchema _ | MsgWouldCreateEdgeSchema _
  | MsgSchemaWarning _ => Some SchemaInit
  | MsgGeneratingEmbeddings | MsgGenerated _ | MsgEmbeddingFailed _ => Some EmbeddingGen
  | MsgIngestingNodes | MsgCreatedNodes _ | MsgFailedNode _ _ | MsgCreatingNode _ _ =>
      Some NodeMat
  | MsgIngestingEdges | MsgCreatedEdges _ | MsgFailedEdge _ _ _ => Some EdgeMat
  | MsgComputingSimilarity | MsgCreatedSimilarities _ => Some SimilarityComp
  | _ => None
  end.

(** The phases met in a log, oldest first. *)
Definition phases (l : list (Level * Msg)) : list Phase := omap phase_of (rev l).

(** The order of the phases in [ingest_project] ... *)
Definition code_order (p : Phase) : nat :=
  match p with
  | SchemaInit => 0 | EmbeddingGen => 1 | NodeMat => 2 | EdgeMat => 3
  | SimilarityComp => 4
  end.


(** No phase is met after a later one. *)
Definition in_order (rank : Phase -> nat) (ps : list Phase) : Prop :=
  StronglySorted (fun p q => (rank p <= rank q)%nat) ps.

(** The state [s] with its four counters put back to zero. *)
Definition reset_counters (s : State) : State :=
  {| stats := {| nodes_created := 0; edges_created := 0; embeddings_generated := 0;
                 errors := 0; start_time := start_time (stats s);
                 end_time := end_time (stats s) |};
     log := log s; rand_calls := rand_calls s; time_calls := time_calls s |}.

(** The four counters of [GraphStats] raised by given amounts. *)
Definition counters_add (dn de dg dx : Z) (g : GraphStats) : GraphStats :=
  {| nodes_created := nodes_created g + dn; edges_created := edges_created g + de;
     embeddings_generated := embeddings_generated g + dg; errors := errors g + dx;
     start_time := start_time g; end_time := end_time g |}.

(** ** Vocabulary of the proofs *)

(** How many items of a list a partial function accepts, and how many not. *)
Definition accepted {A B} (f : A -> option B) (l : list A) : Z :=
  Z.of_nat (length (omap f l)).

Definition rejected {A B} (f : A -> option B) (l : list A) : Z :=
  Z.of_nat (length l) - accepted f l.

(** The state after one more logger call. *)
Definition push (r : Level * Msg) (s : State) : State :=
  {| stats := stats s; log := r :: log s;
     rand_calls := rand_calls s; time_calls := time_calls s |}.

(** The record the similarity pass writes when it requests an edge. *)
Definition similar_record (node1 node2 : EmbeddedNode) : Level * Msg :=
  (DEBUG, MsgCreatingEdge "similar_name" (en_id node1) (en_id node2)).

(** What a run of one of the two loops leaves: records of eligible pairs
    only, as many as the counter was raised by, and untouched statistics. *)
Definition pass_outcome (P : Level * Msg -> Prop) (created : Z) (s : State)
    (x : Result Z * State) : Prop :=
  exists new,
    log (snd x) = new ++ log s
    /\ stats (snd x) = stats s
    /\ rand_calls (snd x) = rand_calls s /\ time_calls (snd x) = time_calls s
    /\ Forall P new
    /\ (fst x = Ok (created + Z.of_nat (length new)) \/ exists e, fst x = Raise e).

(** Records of the inner loop for [node1], and of the two loops together:
    requests for pairs that [_should_compute_similarity] accepts. *)
Definition row_record (node1 : EmbeddedNode) (rest : list EmbeddedNode)
    (r : Level * Msg) : Prop :=
  exists node2, node2 ∈ rest /\ r = similar_record node1 node2
    /\ _should_compute_similarity (en_type node1) (en_type node2) = Ok true.

Definition pair_record (nodes : list EmbeddedNode) (r : Level * Msg) : Prop :=
  exists node1 node2, [node1; node2] `sublist_of` nodes /\ r = similar_record node1 node2
    /\ _should_compute_similarity (en_type node1) (en_type node2) = Ok true.

(** The first loop of the pass, node by node. *)
Definition embedded_node_of (embeddings_map : gmap string Embedding) (node : json)
  : Result (option EmbeddedNode) :=
  match py_getitem "id" node with
  | Raise e => Raise e
  | Ok node_id =>
      match embeddings_map !! (py_str node_id +:+ "_name") with
      | None => Ok None
      | Some entry =>
          match py_getitem "type" node with
          | Raise e => Raise e
          | Ok node_type =>
              match json_get "properties" (JObj []) node with
              | Raise e => Raise e
              | Ok properties =>
                  match json_get "name" (JStr "") properties with
                  | Raise e => Raise e
                  | Ok name =>
                      Ok (Some {| en_id := node_id; en_type := node_type;
                                  en_name := name;
                                  en_embedding := emb_vector entry |})
                  end
              end
          end
      end
  end.

(** How many edges were requested so far. *)
Definition n_requests (s : State) : nat := length (edge_requests (log s)).

(** Two runs of a loop under thresholds [t1 <= t2]: they stop at the same
    place, and the run under [t2] requests no more edges. *)
Definition threshold_related (c1 c2 : Z) (s1 s2 : State)
    (x1 x2 : Result Z * State) : Prop :=
  exists k1 k2 : nat,
    (k2 <= k1)%nat
    /\ n_requests (snd x1) = (n_requests s1 + k1)%nat
    /\ n_requests (snd x2) = (n_requests s2 + k2)%nat
    /\ ((fst x1 = Ok (c1 + Z.of_nat k1) /\ fst x2 = Ok (c2 + Z.of_nat k2))
        \/ exists e, fst x1 = Raise e /\ fst x2 = Raise e).

(** The records [m] adds to the log meet the phases in the order of
    [code_order], and only phases ranked from [lo] to [hi]. *)
Definition staged (lo hi : nat) {A} (m : Py State A) : Prop :=
  forall s, exists new,
    log (snd (m s)) = new ++ log s
    /\ in_order code_order (phases new)
    /\ Forall (fun p => (lo <= code_order p <= hi)%nat) (phases new).

(** What [ingest_project] returns is [self.stats]. *)
Definition returns_stats (m : Py State GraphStats) : Prop :=
  forall s g, fst (m s) = Ok g -> g = stats (snd (m s)).

Section Shift.
Variables dn de dg dx : Z.

(** [s2] is [s1] with the four counters higher by [dn], [de], [dg], [dx]
    (the logs may differ). *)
Definition shifted (s1 s2 : State) : Prop :=
  stats s2 = counters_add dn de dg dx (stats s1)
  /\ rand_calls s2 = rand_calls s1 /\ time_calls s2 = time_calls s1.

(** Run from shifted states, [m1] and [m2] end in shifted states, with
    results related by [R] or with the same exception. *)
Definition sim {A} (R : A -> A -> Prop) (m1 m2 : Py State A) : Prop :=
  forall s1 s2, shifted s1 s2 ->
    shifted (snd (m1 s1)) (snd (m2 s2))
    /\ match fst (m1 s1), fst (m2 s2) with
       | Ok a1, Ok a2 => R a1 a2
       | Raise e1, Raise e2 => e1 = e2
       | _, _ => False
       end.

End Shift.

Section Times.
Variables (k : nat) (T : npfloat).

(** [time.time()] was called [k] times and [start_time] is [T]. *)
Definition at_time (s : State) : Prop :=
  time_calls s = k /\ start_time (stats s) = T.

(** [m] neither calls the clock nor touches [start_time]. *)
Definition stable {A} (m : Py State A) : Prop :=
  forall s, at_time s -> at_time (snd (m s)).

(** Run from a state [at_time], [m] leaves [start_time] alone and, when it
    returns, has set [end_time] to the next clock value. *)
Definition finishes {A} (m : Py State A) : Prop :=
  forall s, at_time s ->
    start_time (stats (snd (m s))) = T
    /\ (is_ok (fst (m s)) = true -> end_time (stats (snd (m s))) = time_time world k).

End Times.

(** ** The convenience function *)

(** [AEProjectGraphIngestion(helix_port=helix_port)]: the new instance has a
    [GraphStats()] of its own; the logger, the clock and numpy's generator
    are those of the process. *)
Definition new_instance : M unit := set_stats (fun _ => GraphStats_default).

(** [ingest_ae_project_from_json] *)
Definition ingest_ae_project_from_json (json_path : string) : M GraphStats :=
  new_instance;; ingest_project json_path.

(** ** Vocabulary of the further properties *)

(** The key under which [_generate_embeddings] files a content item, and the
    entry it files when the item is the one processed at the [k]-th call of
    [np.random.rand]. *)
Definition embed_key_of (c : ContentItem) : option string :=
  match content_item_keys c with
  | Some (content_id, field, _, _) => Some (content_id +:+ "_" +:+ field)
  | None => None
  end.

Definition embedding_of (k : nat) (c : ContentItem) : option Embedding :=
  match content_item_keys c with
  | Some (content_id, field, text, content_type) =>
      Some {| emb_vector := np_random_rand k; emb_text := text;
              emb_type := content_type; emb_node_id := content_id;
              emb_field := field |}
  | None => None
  end.

(** The map the loop of [_generate_embeddings] builds from [acc], the first
    item being processed at the [k]-th call of the generator. *)
Fixpoint embedded (k : nat) (items : list ContentItem) (acc : gmap string Embedding)
  : gmap string Embedding :=
  match items with
  | [] => acc
  | c :: rest =>
      match embed_key_of c, embedding_of k c with
      | Some key, Some entry => embedded (S k) rest (<[key := entry]> acc)
      | _, _ => acc
      end
  end.

(** How many items the loop processes before the first one that lacks a
    key. *)
Fixpoint leading_complete (items : list ContentItem) : nat :=
  match items with
  | [] => 0
  | c :: rest =>
      match content_item_keys c with
      | Some _ => S (leading_complete rest)
      | None => 0
      end
  end.


(** What [_initialize_schema] writes, oldest first, given the answer of the
    server to [helix.init()]. *)
Definition schema_records (response : Result (list json)) : list (Level * Msg) :=
  match response with
  | Ok (connection_id :: _) =>
      (INFO, MsgInitialized connection_id)
      :: map (fun kv => (DEBUG, MsgWouldCreateSchema kv.2)) node_types
      ++ map (fun kv => (DEBUG, MsgWouldCreateEdgeSchema kv.2)) edge_types
  | Ok [] => [(WARNING, MsgSchemaWarning (IndexError "list index out of range"))]
  | Raise e => [(WARNING, MsgSchemaWarning e)]
  end.

(** No counter of [g2] is below the one of [g1]. *)
Definition counters_le (g1 g2 : GraphStats) : Prop :=
  nodes_created g1 <= nodes_created g2 /\ edges_created g1 <= edges_created g2
  /\ embeddings_generated g1 <= embeddings_generated g2 /\ errors g1 <= errors g2.

(** [m] lowers no counter. *)
Definition grows {A} (m : Py State A) : Prop :=
  forall s, counters_le (stats s) (stats (snd (m s))).

(** How a run of [ingest_project] ends: in the handler, when [e] was raised
    in state [s], and after the similarity pass, in state [s]. *)
Definition run_failed (e : exn) (s : State) : Result GraphStats * State :=
  (Raise e,
   {| stats := incr_errors (stats s); log := (ERROR, MsgIngestionFailed e) :: log s;
      rand_calls := rand_calls s; time_calls := time_calls s |}).

Definition run_completed (s : State) : Result GraphStats * State :=
  let g := set_end_time (time_time world (time_calls s)) (stats s) in
  (Ok g,
   {| stats := g;
      log := [ (INFO, MsgTimeTaken (start_time g) (end_time g));
               (INFO, MsgEmbeddingsGenerated (embeddings_generated g));
               (INFO, MsgEdgesCreated (edges_created g));
               (INFO, MsgNodesCreated (nodes_created g));
               (INFO, MsgCompleted) ] ++ log s;
      rand_calls := rand_calls s; time_calls := S (time_calls s) |}).

(** The state in which the [try] of [ingest_project] is entered. *)
Definition run_started (s : State) : State :=
  {| stats := set_start_time (time_time world (time_calls s)) (stats s); log := log s;
     rand_calls := rand_calls s; time_calls := S (time_calls s) |}.

(** The ERROR records that come with an increment of [errors]: all but the
    one of a failed embedding generation. *)
Definition is_counted_error (r : Level * Msg) : bool :=
  match r with
  | (ERROR, MsgEmbeddingFailed _) => false
  | (ERROR, _) => true
  | _ => false
  end.

Definition counted_errors (l : list (Level * Msg)) : Z :=
  Z.of_nat (length (List.filter is_counted_error l)).

(** [m] raises [errors] by the number of such records it writes. *)
Definition audited {A} (m : Py State A) : Prop :=
  forall s, exists new,
    log (snd (m s)) = new ++ log s
    /\ errors (stats (snd (m s))) = errors (stats s) + counted_errors new.

(** The world [world] with another answer of the HelixDB server. *)
Definition with_helix (response : Result (list json)) : World :=
  {| open_json := open_json world; helix_query_init := response;
     time_time := time_time world |}.

End WithNumpy.

Arguments dict_get : simpl never.

End Ingestion.

(** * The traversal tools ([mcp_ae_graph_walker.py]) *)
Module Walker.

(** The argument of [helix.call_tool]. *)
Record ToolCall := {
  tool_name : string;
  edge_label : string;
  edge_type : string
}.

(** What is sent through [client.query]; the connection id of a tool call
    is whatever [get_connection] returned. *)
Inductive Query :=
| HelixInit
| CallTool (connection_id : json) (tool : ToolCall).

(** The HelixDB client and [json.loads] on a text.  [client_query] is what
    [client.query] does: it raises, or returns a list with one item for each
    request sent, the item of a request that failed being [None]. *)
Record World := {
  client_query : Query -> Result (list json);
  json_loads : string -> Result json
}.

Inductive Msg :=
| MsgInitialized (connection_id : json)
| MsgError (tool : string) (e : exn).

(** The module global [current_connection_id] ([JNull] is [None]), the
    logger calls and the queries sent to the server (both newest first). *)
Record State := {
  current_connection_id : json;
  log : list (Level * Msg);
  queries : list Query
}.

Definition initial : State :=
  {| current_connection_id := JNull; log := []; queries := [] |}.

Local Abbreviation M := (Py State).

Definition logger (level : Level) (msg : Msg) : M unit := fun s =>
  (Ok tt, {| current_connection_id := current_connection_id s;
             log := (level, msg) :: log s; queries := queries s |}).

Definition set_connection (c : json) : M unit := fun s =>
  (Ok tt, {| current_connection_id := c; log := log s; queries := queries s |}).

(** [str(e)]: the text of the exception; for a [KeyError], the [repr] of its
    key. *)
Definition exn_str (e : exn) : string :=
  match e with
  | KeyError key => "'" +:+ key +:+ "'"
  | KeyErrorInt key => pretty key
  | ValueError m | AttributeError m | TypeError m | IndexError m | OSError m
  | JSONDecodeError m | HelixError m => m
  end.

Fixpoint chars (s : string) : list json :=
  match s with
  | EmptyString => []
  | String c rest => JStr (String c EmptyString) :: chars rest
  end.

(** The items a [for] loop takes from a JSON value. *)
Definition py_iter (v : json) : Result (list json) :=
  match v with
  | JArr items => Ok items
  | JObj fields => Ok (map (fun kv => JStr (fst kv)) fields)
  | JStr s => Ok (chars s)
  | _ => Raise (TypeError ("'" +:+ type_name v +:+ "' object is not iterable"))
  end.

(** The simulated helpers: each returns a constant document. *)
Definition _get_layer_properties (connection_id : json) (layer_id : json) : json :=
  JArr [ JObj [("name", JStr "Transform"); ("type", JStr "PropertyGroup");
               ("properties", JArr [])];
         JObj [("name", JStr "Opacity"); ("type", JStr "Property");
               ("value", JInt 100); ("keyframes", JInt 0)] ].

Definition _get_layer_keyframes (connection_id : json) (layer_id : json) : json :=
  JArr [ JObj [("property", JStr "Position"); ("time", JFloat 0);
               ("value", JArr [JInt 960; JInt 540])];
         JObj [("property", JStr "Position"); ("time", JFloat 2);
               ("value", JArr [JInt 1200; JInt 540])] ].

Definition _find_layers_at_time (connection_id : json) (time_seconds : Q)
    (composition_id : option string) : json :=
  JArr [ JObj [("id", JStr "layer_1"); ("name", JStr "Active Layer");
               ("in_point", JInt 0); ("out_point", JInt 5)] ].

Definition _find_keyframes_at_time (connection_id : json) (time_seconds : Q) : json :=
  JArr [ JObj [("property_id", JStr "prop_1"); ("time", JFloat time_seconds);
               ("value", JArr [JInt 100; JInt 200])] ].

Definition _find_expressions_at_time (connection_id : json) (time_seconds : Q) : json :=
  JArr [ JObj [("expression_id", JStr "expr_1"); ("property", JStr "Position");
               ("active", JBool true)] ].

Definition _traverse_dependencies (connection_id : json) (node_id direction : string)
    (max_depth : Z) : json :=
  if decide (direction = "incoming")
  then JArr [ JObj [("id", JStr "dependency_1");
                    ("relationship", JStr "drives_with_expression")] ]
  else JArr [ JObj [("id", JStr "source_1"); ("relationship", JStr "uses_source")] ].

Definition _get_effect_properties (connection_id : json) (effect_id : json) : json :=
  JArr [ JObj [("name", JStr "Intensity"); ("value", JInt 50); ("keyframes", JInt 2)];
         JObj [("name", JStr "Color"); ("value", JArr [JInt 1; JInt 0; JInt 0]);
               ("keyframes", JInt 0)] ].

Definition _get_layer_full_context (connection_id : json) (layer_id : string) : json :=
  JObj [("id", JStr layer_id); ("name", JStr "Reference Layer");
        ("effects", JArr [JStr "Blur"; JStr "Color Correction"]);
        ("properties", JArr [JStr "Transform"; JStr "Opacity"])].

Definition _find_similar_layer_setups (connection_id : json) (reference_layer : json)
    (threshold : Q) : json :=
  JArr [ JObj [("id", JStr "similar_layer_1"); ("similarity", JFloat (85 # 100));
               ("matching_aspects", JArr [JStr "effects"; JStr "properties"])] ].

Definition _find_unused_footage (connection_id : json) : json :=
  JArr [ JObj [("id", JStr "footage_1"); ("name", JStr "Unused.mov");
               ("reason", JStr "no_layer_references")] ].

Definition _find_unused_compositions (connection_id : json) : json :=
  JArr [ JObj [("id", JStr "comp_1"); ("name", JStr "Unused Comp");
               ("reason", JStr "not_in_render_queue")] ].

Definition _find_disabled_effects (connection_id : json) : json :=
  JArr [ JObj [("id", JStr "effect_1"); ("name", JStr "Disabled Blur");
               ("layer", JStr "layer_1")] ].

Definition _find_orphaned_properties (connection_id : json) : json :=
  JArr [ JObj [("id", JStr "prop_1"); ("name", JStr "Static Property");
               ("reason", JStr "no_keyframes_or_expressions")] ].

Definition _trace_layer_render_path (connection_id : json) (layer_id : string) : json :=
  JArr [ JObj [("step", JInt 1); ("node", JStr layer_id); ("type", JStr "Layer")];
         JObj [("step", JInt 2); ("node", JStr "comp_1"); ("type", JStr "Composition")];
         JObj [("step", JInt 3); ("node", JStr "render_1");
               ("type", JStr "RenderQueueItem")] ].

Definition _find_keyframe_patterns (connection_id : json) (pattern_type : string)
    (time_range : option (Q * Q)) : json :=
  JArr [ JObj [("property_id", JStr "prop_1"); ("pattern", JStr pattern_type);
               ("confidence", JFloat (9 # 10)); ("keyframes", JInt 4)] ].

(** [needle in hay] on strings: [needle] occurs in [hay]. *)
Fixpoint occurs_in (needle hay : string) : bool :=
  String.prefix needle hay
  || match hay with
     | EmptyString => false
     | String _ rest => occurs_in needle rest
     end.

(** [needle in container] for a string [needle] and a JSON value: a
    substring test on a string, a membership test on a list, a key test on a
    dict; the other values are not containers. *)
Definition py_in (needle : string) (container : json) : Result bool :=
  match container with
  | JStr hay => Ok (occurs_in needle hay)
  | JArr items =>
      Ok (existsb (fun item => match item with
                               | JStr s => bool_decide (s = needle)
                               | _ => false
                               end) items)
  | JObj fields => Ok (existsb (fun kv => bool_decide (kv.1 = needle)) fields)
  | _ => Raise (TypeError ("argument of type '" +:+ type_name container
                           +:+ "' is not iterable"))
  end.

Definition layer_reference : json :=
  JObj [("type", JStr "layer_reference"); ("target", JStr "layer_name")].

Definition effect_reference : json :=
  JObj [("type", JStr "effect_reference"); ("target", JStr "effect_name")].

(** [_parse_expression_references] *)
Definition _parse_expression_references (connection_id : json) (expression_text : json)
  : Result json :=
  match py_in "thisComp.layer" expression_text with
  | Raise e => Raise e
  | Ok has_layer =>
      let references := if has_layer then [layer_reference] else [] in
      match py_in "effect(" expression_text with
      | Raise e => Raise e
      | Ok has_effect =>
          Ok (JArr (if has_effect then references ++ [effect_reference] else references))
      end
  end.

(** The truth value of a JSON value in an [if]. *)
Definition truthy (v : json) : bool :=
  match v with
  | JNull => false
  | JBool b => b
  | JInt z => negb (bool_decide (z = 0))
  | JFloat q => negb (Qeq_bool q 0)
  | JStr s => negb (bool_decide (s = ""))
  | JArr items => negb (bool_decide (items = []))
  | JObj fields => negb (bool_decide (fields = []))
  end.

(** [v[0]]: the first item of a list, the first character of a string; a
    dict read from JSON has no key 0, and the other values cannot be
    indexed. *)
Definition py_index0 (v : json) : Result json :=
  match v with
  | JArr (item :: _) => Ok item
  | JStr (String c _) => Ok (JStr (String c EmptyString))
  | JArr [] => Raise (IndexError "list index out of range")
  | JStr EmptyString => Raise (IndexError "string index out of range")
  | JObj _ => Raise (KeyErrorInt 0)
  | _ => Raise (TypeError ("'" +:+ type_name v +:+ "' object is not subscriptable"))
  end.

Section WithWorld.
Variable world : World.

Definition query (q : Query) : M (list json) := fun s =>
  (client_query world q,
   {| current_connection_id := current_connection_id s; log := log s;
      queries := q :: queries s |}).

(** [json.loads(r)] on an item of an answer: a text is parsed, anything else
    refused. *)
Definition loads (r : json) : Result json :=
  match r with
  | JStr text => json_loads world text
  | _ => Raise (TypeError ("the JSON object must be str, bytes or bytearray, not "
                           +:+ type_name r))
  end.

(** [get_connection]: the global is assigned the first item of the answer,
    whatever it is, and returned. *)
Definition get_connection : M json := fun s =>
  match current_connection_id s with
  | JNull =>
      (response ← query HelixInit;
       c ← match response with
           | c :: _ => mret c
           | [] => raise (IndexError "list index out of range")
           end;
       set_connection c;;
       logger INFO (MsgInitialized c);;
       mret c) s
  | c => (Ok c, s)
  end.

(** The dict [layer_info] built for one [layer] of the response;
    [layer.get] raises when [layer] is not a dict. *)
Definition layer_info (connection_id : json) (depth : Z) (layer : json)
  : Result json :=
  match layer with
  | JObj fields =>
      let get key dflt := default dflt (assoc_get key fields) in
      let info := [("id", get "id" JNull); ("name", get "name" JNull);
                   ("type", get "type" JNull);
                   ("properties", get "properties" (JObj []))] in
      Ok (JObj
        (if decide (2 <= depth) then
           let info :=
             info ++ [("property_groups",
                       _get_layer_properties connection_id (get "id" JNull))] in
           if decide (3 <= depth)
           then info ++ [("keyframes",
                          _get_layer_keyframes connection_id (get "id" JNull))]
           else info
         else info))
  | _ => Raise (no_attribute layer "get")
  end.

(** Body of the loop of [walk_composition_hierarchy]:
    [result["layers"].append(layer_info)]. *)
Definition append_layer_info (connection_id : json) (depth : Z)
    (result_layers : list json) (layer : json) : M (list json) :=
  info ← lift (layer_info connection_id depth layer);
  mret (result_layers ++ [info]).

(** [walk_composition_hierarchy]; the value returned is the document that
    [json.dumps] prints. *)
Definition walk_composition_hierarchy (composition_id : string) (depth : Z) : M json :=
  try_except
    (connection_id ← get_connection;
     let layers_query :=
       CallTool connection_id
         {| tool_name := "out_step"; edge_label := "contains"; edge_type := "ae_layer" |} in
     layers_response ← query layers_query;
     layers ← match layers_response with
              | r :: _ => lift (loads r)
              | [] => mret (JArr [])
              end;
     items ← lift (py_iter layers);
     result_layers ← for_fold items [] (append_layer_info connection_id depth);
     mret (JObj [("composition", JStr composition_id);
                 ("layers", JArr result_layers);
                 ("depth", JInt depth)]))
    (fun e =>
       logger ERROR (MsgError "walk_composition_hierarchy" e);;
       mret (JObj [("error", JStr (exn_str e))])).

(** [walk_time_relationships] *)
Definition walk_time_relationships (time_seconds : Q) (composition_id : option string)
  : M json :=
  try_except
    (connection_id ← get_connection;
     let active_layers := _find_layers_at_time connection_id time_seconds composition_id in
     let active_keyframes := _find_keyframes_at_time connection_id time_seconds in
     let active_expressions := _find_expressions_at_time connection_id time_seconds in
     mret (JObj [("time_seconds", JFloat time_seconds);
                 ("composition_id", match composition_id with
                                    | Some c => JStr c
                                    | None => JNull
                                    end);
                 ("active_layers", active_layers);
                 ("active_keyframes", active_keyframes);
                 ("active_expressions", active_expressions)]))
    (fun e =>
       logger ERROR (MsgError "walk_time_relationships" e);;
       mret (JObj [("error", JStr (exn_str e))])).

(** The items [walk_composition_hierarchy] iterates over, given the
    connection: the parsed first response of the [out_step] query. *)
Definition response_items (connection_id : json) : Result (list json) :=
  match client_query world
          (CallTool connection_id
             {| tool_name := "out_step"; edge_label := "contains";
                edge_type := "ae_layer" |}) with
  | Raise e => Raise e
  | Ok [] => Ok []
  | Ok (r :: _) =>
      match loads r with
      | Raise e => Raise e
      | Ok layers => py_iter layers
      end
  end.

(** [walk_dependencies] *)
Definition walk_dependencies (node_id direction : string) (max_depth : Z) : M json :=
  try_except
    (connection_id ← get_connection;
     let incoming :=
       if bool_decide (direction ∈ ["incoming"; "both"])
       then _traverse_dependencies connection_id node_id "incoming" max_depth
       else JArr [] in
     let outgoing :=
       if bool_decide (direction ∈ ["outgoing"; "both"])
       then _traverse_dependencies connection_id node_id "outgoing" max_depth
       else JArr [] in
     mret (JObj [("node_id", JStr node_id);
                 ("dependencies", JObj [("incoming", incoming);
                                        ("outgoing", outgoing)])]))
    (fun e =>
       logger ERROR (MsgError "walk_dependencies" e);;
       mret (JObj [("error", JStr (exn_str e))])).

(** The dict [effect_info] built for one [effect] of the response. *)
Definition effect_info (connection_id : json) (include_properties : bool)
    (effect : json) : Result json :=
  match effect with
  | JObj fields =>
      let get key dflt := default dflt (assoc_get key fields) in
      match get "properties" (JObj []) with
      | JObj properties =>
          let info := [("id", get "id" JNull); ("name", get "name" JNull);
                       ("match_name", default JNull (assoc_get "match_name" properties));
                       ("enabled", default JNull (assoc_get "enabled" properties));
                       ("category",
                        default JNull (assoc_get "effect_category" properties))] in
          Ok (JObj
            (if include_properties
             then info ++ [("properties",
                            _get_effect_properties connection_id (get "id" JNull))]
             else info))
      | properties => Raise (no_attribute properties "get")
      end
  | _ => Raise (no_attribute effect "get")
  end.

(** Body of the loop of [walk_effects_chain]. *)
Definition append_effect_info (connection_id : json) (include_properties : bool)
    (result_effects : list json) (effect : json) : M (list json) :=
  info ← lift (effect_info connection_id include_properties effect);
  mret (result_effects ++ [info]).

(** [walk_effects_chain] *)
Definition walk_effects_chain (layer_id : string) (include_properties : bool) : M json :=
  try_except
    (connection_id ← get_connection;
     let effects_query :=
       CallTool connection_id
         {| tool_name := "out_step"; edge_label := "contains";
            edge_type := "ae_effect" |} in
     effects_response ← query effects_query;
     effects ← match effects_response with
               | r :: _ => lift (loads r)
               | [] => mret (JArr [])
               end;
     items ← lift (py_iter effects);
     result_effects ←
       for_fold items [] (append_effect_info connection_id include_properties);
     mret (JObj [("layer_id", JStr layer_id); ("effects", JArr result_effects)]))
    (fun e =>
       logger ERROR (MsgError "walk_effects_chain" e);;
       mret (JObj [("error", JStr (exn_str e))])).

(** What [walk_expression_dependencies] reads from the first expression:
    the dict [result["expression"]] and the list [result["references"]]. *)
Definition expression_info (connection_id : json) (expression : json)
  : Result (json * json) :=
  match json_get "id" JNull expression with
  | Raise e => Raise e
  | Ok id =>
      match json_get "properties" (JObj []) expression with
      | Raise e => Raise e
      | Ok properties =>
          match json_get "expression_text" JNull properties,
                json_get "language" JNull properties,
                json_get "expression_text" (JStr "") properties with
          | Ok text, Ok language, Ok expr_text =>
              match _parse_expression_references connection_id expr_text with
              | Raise e => Raise e
              | Ok references =>
                  Ok (JObj [("id", id); ("text", text); ("language", language)],
                      references)
              end
          | Raise e, _, _ | _, Raise e, _ | _, _, Raise e => Raise e
          end
      end
  end.

(** [walk_expression_dependencies] *)
Definition walk_expression_dependencies (property_id : string) : M json :=
  try_except
    (connection_id ← get_connection;
     let expr_query :=
       CallTool connection_id
         {| tool_name := "in_step"; edge_label := "drives_with_expression";
            edge_type := "ae_expression" |} in
     expr_response ← query expr_query;
     expressions ← match expr_response with
                   | r :: _ => lift (loads r)
                   | [] => mret (JArr [])
                   end;
     if truthy expressions then
       expression ← lift (py_index0 expressions);
       '(info, references) ← lift (expression_info connection_id expression);
       mret (JObj [("property_id", JStr property_id); ("expression", info);
                   ("references", references)])
     else
       mret (JObj [("property_id", JStr property_id); ("expression", JNull);
                   ("references", JArr [])]))
    (fun e =>
       logger ERROR (MsgError "walk_expression_dependencies" e);;
       mret (JObj [("error", JStr (exn_str e))])).

(** [find_similar_setups] *)
Definition find_similar_setups (reference_layer_id : string) (similarity_threshold : Q)
  : M json :=
  try_except
    (connection_id ← get_connection;
     let reference_layer := _get_layer_full_context connection_id reference_layer_id in
     let similar_layers :=
       _find_similar_layer_setups connection_id reference_layer similarity_threshold in
     mret (JObj [("reference_layer", JStr reference_layer_id);
                 ("similarity_threshold", JFloat similarity_threshold);
                 ("similar_setups", similar_layers)]))
    (fun e =>
       logger ERROR (MsgError "find_similar_setups" e);;
       mret (JObj [("error", JStr (exn_str e))])).

(** [discover_unused_elements] *)
Definition discover_unused_elements (project_id : string) : M json :=
  try_except
    (connection_id ← get_connection;
     mret (JObj [("project_id", JStr project_id);
                 ("unused_footage", _find_unused_footage connection_id);
                 ("unused_compositions", _find_unused_compositions connection_id);
                 ("unused_effects", _find_disabled_effects connection_id);
                 ("orphaned_properties", _find_orphaned_properties connection_id)]))
    (fun e =>
       logger ERROR (MsgError "discover_unused_elements" e);;
       mret (JObj [("error", JStr (exn_str e))])).

(** [trace_render_path] *)
Definition trace_render_path (layer_id : string) : M json :=
  try_except
    (connection_id ← get_connection;
     mret (JObj [("layer_id", JStr layer_id);
                 ("render_path", _trace_layer_render_path connection_id layer_id)]))
    (fun e =>
       logger ERROR (MsgError "trace_render_path" e);;
       mret (JObj [("error", JStr (exn_str e))])).

(** [find_animation_patterns] *)
Definition find_animation_patterns (pattern_type : string) (time_range : option (Q * Q))
  : M json :=
  try_except
    (connection_id ← get_connection;
     mret (JObj [("pattern_type", JStr pattern_type);
                 ("time_range", match time_range with
                                | Some (t0, t1) => JArr [JFloat t0; JFloat t1]
                                | None => JNull
                                end);
                 ("matching_patterns",
                  _find_keyframe_patterns connection_id pattern_type time_range)]))
    (fun e =>
       logger ERROR (MsgError "find_animation_patterns" e);;
       mret (JObj [("error", JStr (exn_str e))])).

(** [project_graph_summary], a resource of the server: its handler does
    not log. *)
Definition project_graph_summary (project_id : string) : M json :=
  try_except
    (connection_id ← get_connection;
     mret (JObj [("project_id", JStr project_id);
                 ("node_counts",
                  JObj [("compositions", JInt 5); ("layers", JInt 25);
                        ("effects", JInt 18); ("properties", JInt 150);
                        ("keyframes", JInt 45)]);
                 ("edge_counts",
                  JObj [("contains", JInt 200); ("parents_to", JInt 8);
                        ("uses_source", JInt 20);
                        ("drives_with_expression", JInt 12)]);
                 ("top_level_compositions",
                  JArr [ JObj [("id", JStr "comp_1"); ("name", JStr "Main Comp");
                               ("layers", JInt 10)];
                         JObj [("id", JStr "comp_2"); ("name", JStr "Intro");
                               ("layers", JInt 5)] ])]))
    (fun e => mret (JObj [("error", JStr (exn_str e))])).

(** A call of one of the tools registered with [@mcp.tool()] that this
    development models, and the tool the server runs for it. *)
Inductive Request :=
| WalkCompositionHierarchy (composition_id : string) (depth : Z)
| WalkDependencies (node_id direction : string) (max_depth : Z)
| WalkEffectsChain (layer_id : string) (include_properties : bool)
| WalkExpressionDependencies (property_id : string)
| WalkTimeRelationships (time_seconds : Q) (composition_id : option string)
| FindSimilarSetups (reference_layer_id : string) (similarity_threshold : Q)
| DiscoverUnusedElements (project_id : string)
| TraceRenderPath (layer_id : string)
| FindAnimationPatterns (pattern_type : string) (time_range : option (Q * Q)).

Definition serve (request : Request) : M json :=
  match request with
  | WalkCompositionHierarchy composition_id depth =>
      walk_composition_hierarchy composition_id depth
  | WalkDependencies node_id direction max_depth =>
      walk_dependencies node_id direction max_depth
  | WalkEffectsChain layer_id include_properties =>
      walk_effects_chain layer_id include_properties
  | WalkExpressionDependencies property_id => walk_expression_dependencies property_id
  | WalkTimeRelationships time_seconds composition_id =>
      walk_time_relationships time_seconds composition_id
  | FindSimilarSetups reference_layer_id similarity_threshold =>
      find_similar_setups reference_layer_id similarity_threshold
  | DiscoverUnusedElements project_id => discover_unused_elements project_id
  | TraceRenderPath layer_id => trace_render_path layer_id
  | FindAnimationPatterns pattern_type time_range =>
      find_animation_patterns pattern_type time_range
  end.

End WithWorld.

(** ** Reading a result document *)

Definition document (x : Result json * State) : json :=
  match fst x with
  | Ok d => d
  | Raise _ => JNull
  end.

Definition field (key : string) (doc : json) : option json :=
  match doc with
  | JObj fields => assoc_get key fields
  | _ => None
  end.

Definition list_field (key : string) (doc : json) : list json :=
  match field key doc with
  | Some (JArr items) => items
  | _ => []
  end.

Definition number_field (key : string) (doc : json) : option Q :=
  match field key doc with
  | Some (JInt z) => Some (inject_Z z)
  | Some (JFloat q) => Some q
  | _ => None
  end.

Definition has_field (key : string) (doc : json) : bool :=
  match field key doc with
  | Some _ => true
  | None => false
  end.

(** How deep a hierarchy document goes: 1 = layers, 2 = properties,
    3 = keyframes, as the docstring of the tool counts. *)
Definition deepest_level (doc : json) : Z :=
  let layers := list_field "layers" doc in
  if existsb (has_field "keyframes") layers then 3
  else if existsb (has_field "property_groups") layers then 2
  else match layers with
       | [] => 0
       | _ :: _ => 1
       end.

(** A layer is inside its window at time [t]. *)
Definition in_window (t : Q) (layer : json) : Prop :=
  exists in_point out_point,
    number_field "in_point" layer = Some in_point
    /\ number_field "out_point" layer = Some out_point
    /\ (in_point <= t)%Q /\ (t <= out_point)%Q.

(** ** Vocabulary of the proofs *)

(** The documents of one response, item by item. *)
Fixpoint layer_infos (connection_id : json) (depth : Z) (items : list json)
  : Result (list json) :=
  match items with
  | [] => Ok []
  | layer :: rest =>
      match layer_info connection_id depth layer with
      | Raise e => Raise e
      | Ok info =>
          match layer_infos connection_id depth rest with
          | Raise e => Raise e
          | Ok infos => Ok (info :: infos)
          end
      end
  end.

Definition error_document (e : exn) : json := JObj [("error", JStr (exn_str e))].

Definition sent (q : Query) (s : State) : State :=
  {| current_connection_id := current_connection_id s; log := log s;
     queries := q :: queries s |}.

Definition failed (tool : string) (e : exn) (s : State) : Result json * State :=
  (Ok (error_document e),
   {| current_connection_id := current_connection_id s;
      log := (ERROR, MsgError tool e) :: log s; queries := queries s |}).

Definition layers_query (connection_id : json) : Query :=
  CallTool connection_id
    {| tool_name := "out_step"; edge_label := "contains"; edge_type := "ae_layer" |}.

(** A server that answers every traversal query with the given text, and a
    parser that reads it as the given value. *)
Definition world_of (response : list json) (parsed : json) : World :=
  {| client_query := fun q =>
       match q with
       | HelixInit => Ok [JStr "connection-1"]
       | CallTool _ _ => Ok response
       end;
     json_loads := fun _ => Ok parsed |}.

(** The one layer [_find_layers_at_time] reports. *)
Definition simulated_layer : json :=
  JObj [("id", JStr "layer_1"); ("name", JStr "Active Layer");
        ("in_point", JInt 0); ("out_point", JInt 5)].

Definition main_layer : json :=
  JObj [("id", JStr "layer_title"); ("name", JStr "Title"); ("type", JStr "TextLayer")].

(** ** Vocabulary of the further properties *)

(** The name under which a tool logs its failures. *)
Definition tool_of (request : Request) : string :=
  match request with
  | WalkCompositionHierarchy _ _ => "walk_composition_hierarchy"
  | WalkDependencies _ _ _ => "walk_dependencies"
  | WalkEffectsChain _ _ => "walk_effects_chain"
  | WalkExpressionDependencies _ => "walk_expression_dependencies"
  | WalkTimeRelationships _ _ => "walk_time_relationships"
  | FindSimilarSetups _ _ => "find_similar_setups"
  | DiscoverUnusedElements _ => "discover_unused_elements"
  | TraceRenderPath _ => "trace_render_path"
  | FindAnimationPatterns _ _ => "find_animation_patterns"
  end.

(** The tools whose helpers are all simulated: they send no traversal
    query. *)
Definition simulated (request : Request) : bool :=
  match request with
  | WalkCompositionHierarchy _ _ | WalkEffectsChain _ _
  | WalkExpressionDependencies _ => false
  | _ => true
  end.

(** An effect of which [walk_effects_chain] can build an entry: a dict whose
    [properties], when present, is a dict. *)
Definition well_formed_effect (effect : json) : bool :=
  is_dict effect && is_dict (default (JObj []) (field "properties" effect)).

(** The state after a sequence of calls, and the [init] queries among the
    queries sent so far. *)
Definition serve_all (world : World) (requests : list Request) (s : State) : State :=
  foldl (fun s request => snd (serve world request s)) s requests.

Definition is_init (q : Query) : bool :=
  match q with HelixInit => true | CallTool _ _ => false end.

Definition inits (s : State) : nat := length (List.filter is_init (queries s)).

Definition effects_query (connection_id : json) : Query :=
  CallTool connection_id
    {| tool_name := "out_step"; edge_label := "contains"; edge_type := "ae_effect" |}.

Definition expression_query (connection_id : json) : Query :=
  CallTool connection_id
    {| tool_name := "in_step"; edge_label := "drives_with_expression";
       edge_type := "ae_expression" |}.

(** [json.loads(response[0]) if response else []] for the answer of the
    server to the query [q]. *)
Definition loaded (world : World) (q : Query) : Result json :=
  match client_query world q with
  | Raise e => Raise e
  | Ok [] => Ok (JArr [])
  | Ok (r :: _) => loads world r
  end.

(** The entries of one response of effects, item by item. *)
Fixpoint effect_infos (connection_id : json) (include_properties : bool)
    (items : list json) : Result (list json) :=
  match items with
  | [] => Ok []
  | effect :: rest =>
      match effect_info connection_id include_properties effect with
      | Raise e => Raise e
      | Ok info =>
          match effect_infos connection_id include_properties rest with
          | Raise e => Raise e
          | Ok infos => Ok (info :: infos)
          end
      end
  end.

(** A world whose server answers the traversal queries with one text, read
    as the given value, and refuses connections when [online] is false. *)
Definition world_when (online : bool) (parsed : json) : World :=
  {| client_query := fun q =>
       match q with
       | HelixInit => if online then Ok [JStr "connection-1"]
                      else Raise (HelixError "connection refused")
       | CallTool _ _ => Ok [JStr "response"]
       end;
     json_loads := fun _ => Ok parsed |}.

(** A server that refuses every request: each answer holds [None] in the
    place of the response. *)
Definition world_refusing : World :=
  {| client_query := fun _ => Ok [JNull];
     json_loads := fun _ => Raise (JSONDecodeError "Expecting value") |}.

(** The module once a connection was made. *)
Definition connected : State :=
  {| current_connection_id := JStr "connection-1"; log := []; queries := [] |}.

(** An expression that refers to a layer and to an effect, and a blur
    effect. *)
Definition wiggle_expression : json :=
  JObj [("id", JStr "expr_wiggle");
        ("properties",
         JObj [("expression_text",
                JStr "thisComp.layer(1).effect(2)(3) + wiggle(2, 10)");
               ("language", JStr "javascript")])].

Definition blur_effect : json :=
  JObj [("id", JStr "effect_blur"); ("name", JStr "Gaussian Blur");
        ("properties", JObj [("match_name", JStr "ADBE Gaussian Blur 2");
                             ("enabled", JBool true)])].

End Walker.

(** * Idealised numpy: arrays of real numbers

    Exact arithmetic in the place of floating point: a second implementation
    of the interface, not the arithmetic of the program.  What holds of the
    reals only (a cosine of at most 1, say) need not hold of the floats that
    numpy computes. *)
Module RealNumpy.

Fixpoint dot (a b : list R) : R :=
  match a, b with
  | x :: a', y :: b' => (x * y + dot a' b')%R
  | _, _ => 0%R
  end.

Definition norm (a : list R) : R := sqrt (dot a a).

Definition numpy : Numpy := {|
  npfloat := R;
  ndarray := list R;
  f_zero := 0%R;
  f_0_7 := (7 / 10)%R;
  f_mul := Rmult;
  f_div := Rdiv;
  f_eqb := fun x y => if Req_dec_T x y then true else false;
  f_gtb := fun x y => if Rgt_dec x y then true else false;
  f_leb := fun x y => if Rle_dec x y then true else false;
  np_dot := fun a b =>
    if decide (length a = length b) then Ok (dot a b)
    else Raise (ValueError "shapes not aligned");
  np_linalg_norm := norm;
  tolist := fun a => a;
  np_random_rand := fun k => repeat (/ 2)%R 768
|}.

End RealNumpy.

(** * Executable numpy: arrays of binary64 floats

    The operations are IEEE 754 double precision, sums taken from the right;
    numpy's own order of summation and its single precision arrays are not
    fixed here, the interface [Numpy] covers them. *)
Module Float64.
Import Floats.

Fixpoint dot (a b : list float) : float :=
  match a, b with
  | x :: a', y :: b' => (x * y + dot a' b')%float
  | _, _ => 0%float
  end.

Definition norm (a : list float) : float := PrimFloat.sqrt (dot a a).

Definition numpy : Numpy := {|
  npfloat := float;
  ndarray := list float;
  f_zero := 0%float;
  f_0_7 := 0x1.6666666666666p-1%float;
  f_mul := PrimFloat.mul;
  f_div := PrimFloat.div;
  f_eqb := PrimFloat.eqb;
  f_gtb := fun x y => PrimFloat.ltb y x;
  f_leb := PrimFloat.leb;
  np_dot := fun a b =>
    if decide (length a = length b) then Ok (dot a b)
    else Raise (ValueError "shapes not aligned");
  np_linalg_norm := norm;
  tolist := fun a => a;
  np_random_rand := fun k => repeat 0.5%float 768
|}.

End Float64.

(** * An interpreter for the samples

    [str] as CPython prints [None], booleans, integers and strings, which is
    all that the samples format; the text of a float or of a container is
    not fixed here, the interface [PyStr] covers it. *)
Module Interpreter.

Definition str (v : json) : string :=
  match v with
  | JStr s => s
  | JNull => "None"
  | JBool true => "True"
  | JBool false => "False"
  | JInt z => pretty z
  | _ => "<" +:+ type_name v +:+ ">"
  end.

Definition pystr : PyStr := {| py_str := str; py_str_JStr := fun s => eq_refl |}.

End Interpreter.

(** * Sample inputs *)
Module Samples.
Import Floats.
Import Ingestion.
#[local] Existing Instance Float64.numpy.
#[local] Existing Instance Interpreter.pystr.

Definition export_of (data : ProjectData) : ExportResult :=
  {| x_success := Some true; x_message := None; x_data := Some data |}.

(** A world in which every path holds the given export, the HelixDB server
    answers, and the [k]-th call of the clock returns [k] seconds. *)
Definition world_of (export_result : ExportResult) : World (H:=Float64.numpy) :=
  {| open_json := fun _ => Ok export_result;
     helix_query_init := Ok [JStr "connection-1"];
     time_time := fun k => PrimFloat.of_uint63 (Uint63.of_Z (Z.of_nat k)) |}.

Definition title : ContentItem :=
  {| c_id := Some "layer_title"; c_field := Some "name";
     c_content := Some "Title"; c_type := Some "TextLayer" |}.

(** A content item without the key [content]. *)
Definition no_content : ContentItem :=
  {| c_id := Some "layer_copy"; c_field := Some "name";
     c_content := None; c_type := Some "TextLayer" |}.

Definition title_layer : json :=
  JObj [("id", JStr "layer_title"); ("type", JStr "TextLayer");
        ("properties", JObj [("name", JStr "Title")])].

Definition copy_layer : json :=
  JObj [("id", JStr "layer_copy"); ("type", JStr "TextLayer");
        ("properties", JObj [("name", JStr "Title Copy")])].

(** A node dict without the key [id]. *)
Definition nameless : json := JObj [("type", JStr "TextLayer")].


Definition contains_title : json :=
  JObj [("from", JStr "comp_main"); ("to", JStr "layer_title");
        ("type", JStr "CONTAINS")].

(** An effect and a keyframe, and an input edge of type [SIMILAR_NAME] from
    the one to the other. *)
Definition glow : json :=
  JObj [("id", JStr "effect_glow"); ("type", JStr "Effect");
        ("properties", JObj [("name", JStr "Glow")])].

Definition key_1 : json :=
  JObj [("id", JStr "keyframe_1"); ("type", JStr "Keyframe"); ("properties", JObj [])].

Definition glow_like_key : json :=
  JObj [("from", JStr "effect_glow"); ("to", JStr "keyframe_1");
        ("type", JStr "SIMILAR_NAME")].

Definition unrelated_pair : ProjectData :=
  {| d_embedding_content := Some []; d_nodes := Some [glow; key_1];
     d_edges := Some [glow_like_key] |}.


(** One embedded layer and one edge. *)
Definition one_layer : ProjectData :=
  {| d_embedding_content := Some [title]; d_nodes := Some [title_layer];
     d_edges := Some [contains_title] |}.

(** A single node, without [id]. *)
Definition nameless_only : ProjectData :=
  {| d_embedding_content := Some []; d_nodes := Some [nameless]; d_edges := Some [] |}.

(** An export that failed in After Effects. *)
Definition failed_export : ExportResult :=
  {| x_success := Some false; x_message := Some "No project open"; x_data := None |}.

(** One embedded layer, and no key [edges]. *)
Definition no_edges : ProjectData :=
  {| d_embedding_content := Some [title]; d_nodes := Some [title_layer];
     d_edges := None |}.

(** Two layers whose name embeddings are (3, 4) and (4, 3): the cosine
    similarity is 24/25, in double precision and over the reals. *)
Definition two_embeddings64 : gmap string (Embedding (H:=Float64.numpy)) :=
  <["layer_title_name" :=
      {| emb_vector := [3; 4]%float : ndarray (Numpy:=Float64.numpy);
         emb_text := "Title"; emb_type := "TextLayer";
         emb_node_id := "layer_title"; emb_field := "name" |}]>
    (<["layer_copy_name" :=
         {| emb_vector := [4; 3]%float : ndarray (Numpy:=Float64.numpy);
            emb_text := "Title Copy"; emb_type := "TextLayer";
            emb_node_id := "layer_copy"; emb_field := "name" |}]> ∅).

Definition v34 : list R := [3; 4]%R.
Definition v43 : list R := [4; 3]%R.

Definition two_embeddings : gmap string (Embedding (H:=RealNumpy.numpy)) :=
  <["layer_title_name" :=
      {| emb_vector := v34 : ndarray (Numpy:=RealNumpy.numpy);
         emb_text := "Title"; emb_type := "TextLayer";
         emb_node_id := "layer_title"; emb_field := "name" |}]>
    (<["layer_copy_name" :=
         {| emb_vector := v43 : ndarray (Numpy:=RealNumpy.numpy);
            emb_text := "Title Copy"; emb_type := "TextLayer";
            emb_node_id := "layer_copy"; emb_field := "name" |}]> ∅).

End Samples.


(** * Properties of the ingestion pipeline *)
Section IngestionFacts.
Import Ingestion.
Context `{Numpy} `{PyStr}.

Ltac py_unfold :=
  unfold mbind, mret, Py_bind, Py_ret, try_except, getitem, raise, lift,
    logger, set_stats, get_stats, _create_helix_edge, _create_helix_node in *.

Lemma edge_requests_app (new old : list (Level * Msg)) :
  edge_requests (new ++ old) = edge_requests old ++ edge_requests new.
Proof. unfold edge_requests. by rewrite rev_app_distr, omap_app. Qed.

Lemma node_requests_app (new old : list (Level * Msg)) :
  node_requests (new ++ old) = node_requests old ++ node_requests new.
Proof. unfold node_requests. by rewrite rev_app_distr, omap_app. Qed.

Lemma counters_add_0 (g : GraphStats) : counters_add 0 0 0 0 g = g.
Proof. destruct g. unfold counters_add. simpl. f_equal; lia. Qed.

Lemma counters_add_add (a b c d a' b' c' d' : Z) (g : GraphStats) :
  counters_add a b c d (counters_add a' b' c' d' g) =
  counters_add (a' + a) (b' + b) (c' + c) (d' + d) g.
Proof. destruct g. unfold counters_add. simpl. f_equal; lia. Qed.

Lemma incr_nodes_created_add g : incr_nodes_created g = counters_add 1 0 0 0 g.
Proof. destruct g. unfold counters_add, incr_nodes_created. simpl. f_equal; lia. Qed.

Lemma incr_edges_created_add g : incr_edges_created g = counters_add 0 1 0 0 g.
Proof. destruct g. unfold counters_add, incr_edges_created. simpl. f_equal; lia. Qed.

Lemma incr_embeddings_generated_add g :
  incr_embeddings_generated g = counters_add 0 0 1 0 g.
Proof. destruct g. unfold counters_add, incr_embeddings_generated. simpl. f_equal; lia. Qed.

Lemma incr_errors_add g : incr_errors g = counters_add 0 0 0 1 g.
Proof. destruct g. unfold counters_add, incr_errors. simpl. f_equal; lia. Qed.

Lemma accepted_cons {A B} (f : A -> option B) x l :
  accepted f (x :: l) = (match f x with Some _ => 1 | None => 0 end) + accepted f l.
Proof.
  unfold accepted.
  change (omap f (x :: l))
    with (match f x with Some y => y :: omap f l | None => omap f l end).
  destruct (f x); [rewrite length_cons |]; lia.
Qed.

Lemma rejected_cons {A B} (f : A -> option B) x l :
  rejected f (x :: l) = (match f x with Some _ => 0 | None => 1 end) + rejected f l.
Proof. unfold rejected. rewrite accepted_cons, length_cons. destruct (f x); lia. Qed.

Lemma omap_cons_eq {A B} (f : A -> option B) (x : A) (l : list A) :
  omap f (x :: l) = option_list (f x) ++ omap f l.
Proof. simpl. by destruct (f x). Qed.

Lemma edge_failures_app (new old : list (Level * Msg)) :
  edge_failures (new ++ old) = edge_failures old ++ edge_failures new.
Proof. unfold edge_failures. by rewrite rev_app_distr, omap_app. Qed.

Lemma node_failures_app (new old : list (Level * Msg)) :
  node_failures (new ++ old) = node_failures old ++ node_failures new.
Proof. unfold node_failures. by rewrite rev_app_distr, omap_app. Qed.

Lemma leading_dicts_all (items : list json) :
  first_non_dict items = None -> leading_dicts items = items.
Proof.
  induction items as [|item items IH]; [done |].
  destruct item; try done. simpl. intros Hnone. by rewrite IH.
Qed.

Lemma leading_dicts_forallb (items : list json) :
  forallb is_dict items = true <-> first_non_dict items = None.
Proof.
  induction items as [|item items IH]; [done |]. by destruct item.
Qed.

(** One edge that is a dict: the step of [_ingest_edges]. *)
Lemma ingest_edge_step (fields : list (string * json)) (s : State) :
  exists new,
    ingest_edge (JObj fields) s =
      (Ok tt,
       {| stats := match edge_request_of (JObj fields) with
                   | Some _ => incr_edges_created (stats s)
                   | None => incr_errors (stats s)
                   end;
          log := new ++ log s;
          rand_calls := rand_calls s; time_calls := time_calls s |})
    /\ edge_requests new = option_list (edge_request_of (JObj fields))
    /\ edge_failures new = option_list (edge_failure_of (JObj fields))
    /\ forallb (fun r => negb (is_warning r)) new = true
    /\ node_requests new = [].
Proof.
  unfold ingest_edge, edge_request_of, edge_failure_of, edge_request, py_getitem, json_get.
  py_unfold.
  destruct (assoc_get "from" fields) as [from_id|]; simpl;
    [| eexists [_]; split; [reflexivity | repeat split; reflexivity]].
  destruct (assoc_get "to" fields) as [to_id|]; simpl;
    [| eexists [_]; split; [reflexivity | repeat split; reflexivity]].
  destruct (assoc_get "type" fields) as [edge_type|]; simpl;
    [| eexists [_]; split; [reflexivity | repeat split; reflexivity]].
  destruct edge_type; simpl;
    first [ destruct (decide _);
            [ eexists [_; _]; split; [reflexivity | repeat split; reflexivity]
            | eexists [_]; split; [reflexivity | repeat split; reflexivity] ]
          | eexists [_]; split; [reflexivity | repeat split; reflexivity] ].
Qed.

(** An item that is not a dict: the handler raises, nothing is logged or
    counted. *)
Lemma ingest_edge_not_dict (edge : json) (s : State) :
  is_dict edge = false -> ingest_edge edge s = (Raise (no_attribute edge "get"), s).
Proof. by destruct edge. Qed.

(** [_ingest_edges] gets through the dicts that come before the first item
    that is not a dict: it requests each edge that has its three keys and a
    type that can be hashed, in order, and counts the others as errors. *)
Lemma ingest_edges_run (edges : list json) (s : State) :
  exists new,
    _ingest_edges edges s =
      (loop_result edges,
       {| stats := counters_add 0 (accepted edge_request_of (leading_dicts edges)) 0
                                (rejected edge_request_of (leading_dicts edges)) (stats s);
          log := new ++ log s;
          rand_calls := rand_calls s; time_calls := time_calls s |})
    /\ edge_requests new = omap edge_request_of (leading_dicts edges)
    /\ edge_failures new = omap edge_failure_of (leading_dicts edges)
    /\ forallb (fun r => negb (is_warning r)) new = true
    /\ node_requests new = [].
Proof.
  unfold _ingest_edges, loop_result. revert s.
  induction edges as [|edge edges IH]; intros s.
  - exists []. simpl. rewrite counters_add_0. destruct s; repeat split; reflexivity.
  - destruct (is_dict edge) eqn:Hdict.
    + destruct edge as [| | | | | |fields]; try discriminate Hdict.
      destruct (ingest_edge_step fields s) as (new1 & Hrun1 & Hreq1 & Hfail1 & Hw1 & Hn1).
      simpl for_each. unfold mbind at 1, Py_bind at 1. rewrite Hrun1.
      match goal with |- context [for_each edges ingest_edge ?s1] =>
        destruct (IH s1) as (new2 & Hrun2 & Hreq2 & Hfail2 & Hw2 & Hn2) end.
      rewrite Hrun2. cbn [leading_dicts first_non_dict stats log rand_calls time_calls].
      exists (new2 ++ new1). rewrite <- app_assoc.
      rewrite accepted_cons, rejected_cons, edge_requests_app, edge_failures_app,
        node_requests_app, forallb_app, Hreq1, Hreq2, Hfail1, Hfail2, Hw1, Hw2, Hn1, Hn2.
      split; [| split; [| split; [| done]]].
      * do 2 f_equal.
        destruct (edge_request_of (JObj fields));
          rewrite ?incr_edges_created_add, ?incr_errors_add, counters_add_add;
          f_equal; lia.
      * by rewrite omap_cons_eq.
      * by rewrite omap_cons_eq.
    + exists []. simpl for_each. unfold mbind at 1, Py_bind at 1.
      rewrite (ingest_edge_not_dict edge s Hdict).
      destruct edge; try discriminate Hdict; simpl; rewrite counters_add_0;
        destruct s; repeat split; reflexivity.
Qed.

(** One node that is a dict: the step of [_ingest_nodes]. *)
Lemma ingest_node_step (embeddings_map : gmap string Embedding)
    (fields : list (string * json)) (s : State) :
  exists new,
    ingest_node embeddings_map (JObj fields) s =
      (Ok tt,
       {| stats := match node_request_of (JObj fields) with
                   | Some _ => incr_nodes_created (stats s)
                   | None => incr_errors (stats s)
                   end;
          log := new ++ log s;
          rand_calls := rand_calls s; time_calls := time_calls s |})
    /\ node_requests new = option_list (node_request_of (JObj fields))
    /\ node_failures new = option_list (node_failure_of (JObj fields))
    /\ edge_requests new = [].
Proof.
  unfold ingest_node, node_request_of, node_failure_of, node_request, py_getitem.
  py_unfold. cbn [json_get].
  destruct (assoc_get "id" fields) as [node_id|]; simpl;
    [| eexists [_]; split; [reflexivity | repeat split; reflexivity]].
  destruct (assoc_get "type" fields) as [node_type|]; simpl;
    [| eexists [_]; split; [reflexivity | repeat split; reflexivity]].
  destruct node_type; simpl;
    try (eexists [_]; split; [reflexivity | repeat split; reflexivity]);
    (destruct (default (JObj []) (assoc_get "properties" fields)); simpl;
     first [ destruct (decide _);
             [ eexists [_; _]; split; [reflexivity | repeat split; reflexivity]
             | eexists [_]; split; [reflexivity | repeat split; reflexivity] ]
           | eexists [_]; split; [reflexivity | repeat split; reflexivity] ]).
Qed.

Lemma ingest_node_not_dict (embeddings_map : gmap string Embedding) (node : json)
    (s : State) :
  is_dict node = false ->
  ingest_node embeddings_map node s = (Raise (no_attribute node "get"), s).
Proof. by destruct node. Qed.

(** [_ingest_nodes] gets through the dicts that come before the first item
    that is not a dict: it requests every well-formed node, in order, and
    counts the others as errors. *)
Lemma ingest_nodes_run (embeddings_map : gmap string Embedding)
    (nodes : list json) (s : State) :
  exists new,
    _ingest_nodes nodes embeddings_map s =
      (loop_result nodes,
       {| stats := counters_add (accepted node_request_of (leading_dicts nodes)) 0 0
                                (rejected node_request_of (leading_dicts nodes)) (stats s);
          log := new ++ log s;
          rand_calls := rand_calls s; time_calls := time_calls s |})
    /\ node_requests new = omap node_request_of (leading_dicts nodes)
    /\ node_failures new = omap node_failure_of (leading_dicts nodes)
    /\ edge_requests new = [].
Proof.
  unfold _ingest_nodes, loop_result. revert s.
  induction nodes as [|node nodes IH]; intros s.
  - exists []. simpl. rewrite counters_add_0. destruct s; repeat split; reflexivity.
  - destruct (is_dict node) eqn:Hdict.
    + destruct node as [| | | | | |fields]; try discriminate Hdict.
      destruct (ingest_node_step embeddings_map fields s)
        as (new1 & Hrun1 & Hreq1 & Hfail1 & He1).
      simpl for_each. unfold mbind at 1, Py_bind at 1. rewrite Hrun1.
      match goal with |- context [for_each nodes _ ?s1] =>
        destruct (IH s1) as (new2 & Hrun2 & Hreq2 & Hfail2 & He2) end.
      rewrite Hrun2. cbn [leading_dicts first_non_dict stats log rand_calls time_calls].
      exists (new2 ++ new1). rewrite <- app_assoc.
      rewrite accepted_cons, rejected_cons, edge_requests_app, node_requests_app,
        node_failures_app, Hreq1, Hreq2, Hfail1, Hfail2, He1, He2.
      split; [| split; [| split; [| done]]].
      * do 2 f_equal.
        destruct (node_request_of (JObj fields));
          rewrite ?incr_nodes_created_add, ?incr_errors_add, counters_add_add;
          f_equal; lia.
      * by rewrite omap_cons_eq.
      * by rewrite omap_cons_eq.
    + exists []. simpl for_each. unfold mbind at 1, Py_bind at 1.
      rewrite (ingest_node_not_dict embeddings_map node s Hdict).
      destruct node; try discriminate Hdict; simpl; rewrite counters_add_0;
        destruct s; repeat split; reflexivity.
Qed.

(** One content item: the step of [_generate_embeddings]. *)
Lemma embed_content_item_complete (embeddings_map : gmap string Embedding)
    (c : ContentItem) (s : State) content_id field text content_type :
  content_item_keys c = Some (content_id, field, text, content_type) ->
  embed_content_item embeddings_map c s =
    (Ok (<[content_id +:+ "_" +:+ field :=
             {| emb_vector := np_random_rand (rand_calls s); emb_text := text;
                emb_type := content_type; emb_node_id := content_id;
                emb_field := field |}]> embeddings_map),
     {| stats := incr_embeddings_generated (stats s); log := log s;
        rand_calls := S (rand_calls s); time_calls := time_calls s |}).
Proof.
  unfold content_item_keys, embed_content_item.
  destruct c as [[?|] [?|] [?|] [?|]]; intros [=]; subst. reflexivity.
Qed.

Lemma embed_content_item_incomplete (embeddings_map : gmap string Embedding)
    (c : ContentItem) (s : State) :
  content_item_keys c = None ->
  exists key, embed_content_item embeddings_map c s = (Raise (KeyError key), s).
Proof.
  unfold content_item_keys, embed_content_item.
  destruct c as [[?|] [?|] [?|] [?|]]; intros [=]; eexists; reflexivity.
Qed.

(** The loop of [_generate_embeddings] on a list whose first incomplete item
    comes after [good]: it stops there, with one increment per item of
    [good]. *)
Lemma embed_loop_stops (good : list ContentItem) (bad : ContentItem)
    (rest : list ContentItem) (embeddings_map : gmap string Embedding) (s : State) :
  Forall (fun c => is_Some (content_item_keys c)) good ->
  content_item_keys bad = None ->
  exists key,
    for_fold (good ++ bad :: rest) embeddings_map embed_content_item s =
      (Raise (KeyError key),
       {| stats := counters_add 0 0 (Z.of_nat (length good)) 0 (stats s);
          log := log s;
          rand_calls := (rand_calls s + length good)%nat;
          time_calls := time_calls s |}).
Proof.
  intros Hgood Hbad. revert embeddings_map s.
  induction Hgood as [|c good [[[[content_id field] text] content_type] Hc] _ IH];
    intros embeddings_map s.
  - destruct (embed_content_item_incomplete embeddings_map bad s Hbad) as [key Hrun].
    exists key. simpl. unfold mbind, Py_bind. rewrite Hrun.
    rewrite counters_add_0, Nat.add_0_r. by destruct s.
  - simpl app. simpl for_fold. unfold mbind at 1, Py_bind at 1.
    rewrite (embed_content_item_complete _ _ _ _ _ _ _ Hc).
    match goal with |- context [for_fold _ ?m _ ?s1] =>
      destruct (IH m s1) as [key Hrun] end.
    exists key. rewrite Hrun. simpl. do 2 f_equal.
    + rewrite incr_embeddings_generated_add, counters_add_add. f_equal; lia.
    + lia.
Qed.

(** [_initialize_schema] always returns and touches the log only. *)
Lemma initialize_schema_run world (s : State) :
  _initialize_schema world s =
    (Ok tt,
     {| stats := stats s;
        log := rev (schema_records (helix_query_init world)) ++ log s;
        rand_calls := rand_calls s; time_calls := time_calls s |}).
Proof.
  unfold _initialize_schema, try_except, mbind, Py_bind, lift, schema_records.
  destruct (helix_query_init world) as [[|c response]|e]; reflexivity.
Qed.

(** ** The similarity pass *)

Lemma in_types_true (v : json) (types : list string) :
  in_types v types = Ok true <-> exists name, v = JStr name /\ name ∈ types.
Proof.
  destruct v; simpl; try (split; [done | by intros (name & [=] & _)]).
  split.
  - intros [= Hin]. apply bool_decide_eq_true in Hin. by eexists.
  - intros (name & [= <-] & Hin). by rewrite bool_decide_eq_true_2.
Qed.

Lemma both_in_true (type1 type2 : json) (types : list string) :
  both_in type1 type2 types = Ok true <-> both_among types type1 type2.
Proof.
  unfold both_in, both_among. split.
  - destruct (in_types type1 types) as [[|]|e] eqn:H1; try done.
    intros H2. apply in_types_true in H1 as (name1 & -> & ?).
    apply in_types_true in H2 as (name2 & -> & ?). by exists name1, name2.
  - intros (name1 & name2 & -> & -> & Hin1 & Hin2). simpl.
    by rewrite !bool_decide_eq_true_2.
Qed.

Lemma should_compute_similarity_class (type1 type2 : json) :
  _should_compute_similarity type1 type2 = Ok true <-> same_similarity_class type1 type2.
Proof.
  unfold _should_compute_similarity, same_similarity_class.
  rewrite <- !both_in_true.
  destruct (py_eq type1 type2); [by split; [left |] |].
  destruct (both_in type1 type2 layer_types) as [[|]|e1] eqn:Hl.
  - by split; [right; left |].
  - destruct (both_in type1 type2 property_types) as [[|]|e2].
    + by split; [right; right |].
    + split; [done | by intros [? | [? | ?]]].
    + split; [done | by intros [? | [? | ?]]].
  - split; [done |]. intros [? | [? | Hp]]; try done.
    unfold both_in in Hl, Hp.
    destruct type1, type2; simpl in *; repeat case_bool_decide; done.
Qed.

(** One pair. *)
Lemma similarity_pair_step t node1 node2 created (s : State) :
  similarity_pair t node1 created node2 s =
    match _should_compute_similarity (en_type node1) (en_type node2) with
    | Raise e => (Raise e, s)
    | Ok false => (Ok created, s)
    | Ok true =>
        match _cosine_similarity (en_embedding node1) (en_embedding node2) with
        | Raise e => (Raise e, s)
        | Ok similarity =>
            if f_gtb similarity t
            then (Ok (created + 1), push (similar_record node1 node2) s)
            else (Ok created, s)
        end
    end.
Proof.
  unfold similarity_pair. py_unfold.
  destruct (_should_compute_similarity _ _) as [[|]|e]; [| reflexivity ..].
  destruct (_cosine_similarity _ _); [| reflexivity].
  destruct (f_gtb _ _); reflexivity.
Qed.

Lemma pass_outcome_weaken (P Q : Level * Msg -> Prop) created s x :
  (forall r, P r -> Q r) -> pass_outcome P created s x -> pass_outcome Q created s x.
Proof.
  intros HPQ (new & ? & ? & ? & ? & HP & ?). exists new.
  repeat split; try done. eapply Forall_impl; eauto.
Qed.

Lemma similarity_row_outcome t node1 rest created (s : State) :
  pass_outcome (row_record node1 rest) created s
    (for_fold rest created (similarity_pair t node1) s).
Proof.
  revert created s. induction rest as [|node2 rest IH]; intros created s.
  - exists []. simpl. repeat split; try done; left; f_equal; lia.
  - simpl for_fold. unfold mbind, Py_bind. rewrite similarity_pair_step.
    assert (Hweak : forall c s',
      pass_outcome (row_record node1 (node2 :: rest)) c s'
        (for_fold rest c (similarity_pair t node1) s')).
    { intros c s'. eapply pass_outcome_weaken; [| apply IH].
      intros r (n & ? & ? & ?). exists n. split; [by right | done]. }
    destruct (_should_compute_similarity _ _) as [[|]|e] eqn:Hel; [| apply Hweak |].
    2:{ exists []. simpl. repeat split; try done; right; by exists e. }
    destruct (_cosine_similarity _ _) as [similarity|e].
    2:{ exists []. simpl. repeat split; try done; right; by exists e. }
    destruct (f_gtb similarity t); [| apply Hweak].
    destruct (Hweak (created + 1) (push (similar_record node1 node2) s))
      as (new & Hlog & Hst & Hr & Ht & Hall & Hres).
    exists (new ++ [similar_record node1 node2]).
    rewrite Hlog, Hst, Hr, Ht. simpl. rewrite <- app_assoc.
    repeat split; try done.
    + apply Forall_app. split; [done |]. constructor; [| done].
      exists node2. split; [left | done].
    + destruct Hres as [-> | ?]; [left | by right].
      f_equal. rewrite length_app. simpl. lia.
Qed.

Lemma similarity_pairs_outcome t nodes created (s : State) :
  pass_outcome (pair_record nodes) created s (similarity_pairs t nodes created s).
Proof.
  revert created s. induction nodes as [|node1 rest IH]; intros created s.
  - exists []. simpl. repeat split; try done; left; f_equal; lia.
  - simpl similarity_pairs. unfold mbind, Py_bind.
    destruct (similarity_row_outcome t node1 rest created s)
      as (new1 & Hlog1 & Hst1 & Hr1 & Ht1 & Hall1 & Hres1).
    assert (Hall1' : Forall (pair_record (node1 :: rest)) new1).
    { eapply Forall_impl; [exact Hall1 |].
      intros r (node2 & Hin & ? & ?). exists node1, node2. split; [| done].
      apply sublist_skip. by apply singleton_sublist_l. }
    destruct (for_fold rest created (similarity_pair t node1) s) as [[c1|e] s1];
      simpl in *.
    2:{ exists new1. repeat split; try done; right; by exists e. }
    destruct Hres1 as [[= ->] | [e [=]]].
    destruct (IH (created + Z.of_nat (length new1)) s1)
      as (new2 & Hlog2 & Hst2 & Hr2 & Ht2 & Hall2 & Hres2).
    exists (new2 ++ new1).
    rewrite Hlog2, Hst2, Hr2, Ht2, Hlog1, <- app_assoc.
    repeat split; try done.
    + apply Forall_app. split; [| done].
      eapply Forall_impl; [exact Hall2 |].
      intros r (n1 & n2 & ? & ?). exists n1, n2. split; [by apply sublist_cons | done].
    + destruct Hres2 as [-> | ?]; [left | by right].
      f_equal. rewrite length_app. lia.
Qed.

Lemma collect_embedded_node_step embeddings_map acc node (s : State) :
  collect_embedded_node embeddings_map acc node s =
    (match embedded_node_of embeddings_map node with
     | Raise e => Raise e
     | Ok None => Ok acc
     | Ok (Some en) => Ok (acc ++ [en])
     end, s).
Proof.
  unfold collect_embedded_node, embedded_node_of. py_unfold.
  destruct (py_getitem "id" node) as [node_id|?]; [| reflexivity].
  destruct (embeddings_map !! _); [| reflexivity].
  destruct (py_getitem "type" node); [| reflexivity].
  destruct (json_get "properties" _ node) as [properties|?]; [| reflexivity].
  destruct (json_get _ _ properties); reflexivity.
Qed.

(** The first loop leaves the state alone, and what it returns does not
    depend on the state: the embedded nodes, in the order of the input. *)
Lemma collect_loop_run embeddings_map nodes acc :
  exists r,
    (forall s : State, for_fold nodes acc (collect_embedded_node embeddings_map) s = (r, s))
    /\ forall ens, r = Ok ens ->
         exists picked added,
           ens = acc ++ added /\ picked `sublist_of` nodes
           /\ Forall2 (fun n en => embedded_node_of embeddings_map n = Ok (Some en))
                      picked added.
Proof.
  revert acc. induction nodes as [|node nodes IH]; intros acc.
  - exists (Ok acc). split; [done |]. intros ens [= <-].
    exists [], []. rewrite app_nil_r. repeat split; constructor.
  - simpl for_fold. unfold mbind, Py_bind.
    destruct (embedded_node_of embeddings_map node) as [[en|]|e] eqn:Hen.
    + destruct (IH (acc ++ [en])) as (r & Hrun & Hok). exists r. split.
      * intros s. rewrite collect_embedded_node_step, Hen. apply Hrun.
      * intros ens Hr. destruct (Hok ens Hr) as (picked & added & -> & Hsub & Hall).
        exists (node :: picked), (en :: added). rewrite <- app_assoc.
        repeat split; [by apply sublist_skip | by constructor].
    + destruct (IH acc) as (r & Hrun & Hok). exists r. split.
      * intros s. rewrite collect_embedded_node_step, Hen. apply Hrun.
      * intros ens Hr. destruct (Hok ens Hr) as (picked & added & -> & Hsub & Hall).
        exists picked, added. repeat split; [by apply sublist_cons | done].
    + exists (Raise e). split; [| done].
      intros s. by rewrite collect_embedded_node_step, Hen.
Qed.

Lemma Forall2_elem_of_right {A B} (R : A -> B -> Prop) (l : list A) (k : list B) y :
  Forall2 R l k -> y ∈ k -> exists x, x ∈ l /\ R x y.
Proof.
  induction 1 as [|x y' l k Hxy _ IH]; intros Hin.
  - by apply elem_of_nil in Hin.
  - apply elem_of_cons in Hin as [-> | Hin].
    + exists x. split; [left | done].
    + destruct (IH Hin) as (x' & ? & ?). exists x'. split; [by right | done].
Qed.

Lemma elem_of_rev {A} (x : A) (l : list A) : x ∈ rev l <-> x ∈ l.
Proof. rewrite !list_elem_of_In. symmetry. apply in_rev. Qed.

Lemma ordered_pair_Forall2 {A B} (R : A -> B -> Prop) (l : list A) (k : list B) e1 e2 :
  Forall2 R l k -> [e1; e2] `sublist_of` k ->
  exists n1 n2, [n1; n2] `sublist_of` l /\ R n1 e1 /\ R n2 e2.
Proof.
  induction 1 as [|n e l k Hne Hall IH]; intros Hsub.
  - by apply sublist_nil_r in Hsub.
  - apply sublist_cons_r in Hsub as [Hsub | (k' & [= <- <-] & Hsub)].
    + destruct (IH Hsub) as (n1 & n2 & ? & ? & ?).
      exists n1, n2. split; [by apply sublist_cons | done].
    + apply singleton_sublist_l in Hsub.
      destruct (Forall2_elem_of_right _ _ _ _ Hall Hsub) as (n2 & Hin & ?).
      exists n, n2. split; [| done].
      apply sublist_skip. by apply singleton_sublist_l.
Qed.

Lemma embedded_node_of_Some embeddings_map node en :
  embedded_node_of embeddings_map node = Ok (Some en) ->
  py_getitem "id" node = Ok (en_id en) /\ py_getitem "type" node = Ok (en_type en)
  /\ is_Some (embeddings_map !! (py_str (en_id en) +:+ "_name")).
Proof.
  unfold embedded_node_of.
  destruct (py_getitem "id" node) as [node_id|?]; [| done].
  destruct (embeddings_map !! _) eqn:Hemb; [| done].
  destruct (py_getitem "type" node); [| done].
  destruct (json_get "properties" _ node) as [properties|?]; [| done].
  destruct (json_get _ _ properties); [| done].
  intros [= <-]. simpl. rewrite Hemb. eauto.
Qed.

Lemma emitted_by_new {A} (m : Py State A) (s : State) new :
  log (snd (m s)) = new ++ log s -> emitted_by m s = new.
Proof.
  intros Hlog. unfold emitted_by. rewrite Hlog, length_app.
  replace (length new + length (log s) - length (log s))%nat with (length new) by lia.
  apply take_app_length.
Qed.

(** The pass, phase by phase. *)
Lemma compute_semantic_relationships_at_unfold t nodes embeddings_map (s : State) :
  compute_semantic_relationships_at t nodes embeddings_map s =
    let (r, s1) := for_fold nodes [] (collect_embedded_node embeddings_map)
                     (push (INFO, MsgComputingSimilarity) s) in
    match r with
    | Raise e => (Raise e, s1)
    | Ok ens =>
        let (r, s2) := similarity_pairs t ens 0 s1 in
        match r with
        | Raise e => (Raise e, s2)
        | Ok created => (Ok tt, push (INFO, MsgCreatedSimilarities created) s2)
        end
    end.
Proof. reflexivity. Qed.

Lemma pair_records_requests nodes embeddings_map picked ens new :
  picked `sublist_of` nodes ->
  Forall2 (fun n en => embedded_node_of embeddings_map n = Ok (Some en)) picked ens ->
  Forall (pair_record ens) new ->
  Forall (joins_eligible_nodes nodes embeddings_map) (edge_requests new)
  /\ node_requests new = [].
Proof.
  intros Hsub Hall Hrec. split.
  - apply Forall_forall. intros q Hq.
    apply list_elem_of_omap in Hq as (r & Hr & Hq). apply (proj1 (elem_of_rev _ _)) in Hr.
    rewrite Forall_forall in Hrec.
    destruct (Hrec r Hr) as (e1 & e2 & Hpair & -> & Hclass).
    injection Hq as <-.
    destruct (ordered_pair_Forall2 _ _ _ _ _ Hall Hpair) as (n1 & n2 & Hsub2 & H1 & H2).
    apply embedded_node_of_Some in H1 as (? & ? & ?).
    apply embedded_node_of_Some in H2 as (? & ? & ?).
    exists n1, n2, (en_type e1), (en_type e2), (en_id e1), (en_id e2).
    repeat split; try done; [by etrans | by apply should_compute_similarity_class].
  - induction Hrec as [|r new' (e1 & e2 & _ & -> & _) _ IH]; [done |].
    change (node_requests ([similar_record e1 e2] ++ new') = []).
    rewrite node_requests_app, IH. reflexivity.
Qed.

(** What the whole pass leaves in the log. *)
Lemma compute_semantic_relationships_outcome t nodes embeddings_map (s : State) :
  exists new,
    log (snd (compute_semantic_relationships_at t nodes embeddings_map s)) = new ++ log s
    /\ stats (snd (compute_semantic_relationships_at t nodes embeddings_map s)) = stats s
    /\ rand_calls (snd (compute_semantic_relationships_at t nodes embeddings_map s))
       = rand_calls s
    /\ time_calls (snd (compute_semantic_relationships_at t nodes embeddings_map s))
       = time_calls s
    /\ Forall (joins_eligible_nodes nodes embeddings_map) (edge_requests new)
    /\ node_requests new = [].
Proof.
  rewrite compute_semantic_relationships_at_unfold.
  destruct (collect_loop_run embeddings_map nodes []) as (r & Hrun & Hok).
  rewrite Hrun. destruct r as [ens|e].
  2:{ exists [(INFO, MsgComputingSimilarity)]. simpl. repeat split; constructor. }
  destruct (Hok ens eq_refl) as (picked & added & -> & Hsub & Hall).
  simpl app.
  pose proof (similarity_pairs_outcome t added 0 (push (INFO, MsgComputingSimilarity) s))
    as (new & Hlog & Hst & Hr & Ht & Hrec & Hres).
  destruct (pair_records_requests _ _ _ _ _ Hsub Hall Hrec) as [Hreq Hnode].
  destruct (similarity_pairs t added 0 _) as [[created|e] s2]; simpl in *.
  - exists ((INFO, MsgCreatedSimilarities created) :: new ++ [(INFO, MsgComputingSimilarity)]).
    rewrite Hlog, Hst, Hr, Ht. simpl. rewrite <- app_assoc. repeat split; try done.
    + change (Forall (joins_eligible_nodes nodes embeddings_map)
                (edge_requests ([(INFO, MsgCreatedSimilarities created)]
                                ++ new ++ [(INFO, MsgComputingSimilarity)]))).
      rewrite !edge_requests_app. by rewrite app_nil_r.
    + change (node_requests ([(INFO, MsgCreatedSimilarities created)]
                             ++ new ++ [(INFO, MsgComputingSimilarity)]) = []).
      by rewrite !node_requests_app, Hnode.
  - exists (new ++ [(INFO, MsgComputingSimilarity)]).
    rewrite Hlog, Hst, Hr, Ht. simpl. rewrite <- app_assoc. repeat split; try done.
    + by rewrite edge_requests_app.
    + by rewrite node_requests_app, Hnode.
Qed.

(** ** Raising the threshold *)

Lemma n_requests_push_similar node1 node2 (s : State) :
  n_requests (push (similar_record node1 node2) s) = S (n_requests s).
Proof.
  unfold n_requests, edge_requests. simpl.
  rewrite omap_app, length_app. simpl. lia.
Qed.

Section Threshold.
Context `{!NumpyOrder}.
Variables t1 t2 : npfloat.
Hypothesis t1_le_t2 : f_leb t1 t2 = true.

Lemma similarity_row_threshold node1 rest c1 c2 (s1 s2 : State) :
  threshold_related c1 c2 s1 s2
    (for_fold rest c1 (similarity_pair t1 node1) s1)
    (for_fold rest c2 (similarity_pair t2 node1) s2).
Proof.
  revert c1 c2 s1 s2. induction rest as [|node2 rest IH]; intros c1 c2 s1 s2.
  - exists 0%nat, 0%nat. simpl. repeat split; try lia; left; split; f_equal; lia.
  - simpl for_fold. unfold mbind, Py_bind. rewrite !similarity_pair_step.
    destruct (_should_compute_similarity _ _) as [[|]|e]; [| apply IH |].
    2:{ exists 0%nat, 0%nat. simpl. repeat split; try lia; right; by exists e. }
    destruct (_cosine_similarity _ _) as [similarity|e].
    2:{ exists 0%nat, 0%nat. simpl. repeat split; try lia; right; by exists e. }
    destruct (f_gtb similarity t2) eqn:H2.
    + rewrite (f_gtb_leb_trans _ _ _ t1_le_t2 H2).
      destruct (IH (c1 + 1) (c2 + 1) (push (similar_record node1 node2) s1)
                   (push (similar_record node1 node2) s2))
        as (k1 & k2 & Hk & Hn1 & Hn2 & Hres).
      exists (S k1), (S k2). rewrite Hn1, Hn2, !n_requests_push_similar.
      repeat split; try lia.
      destruct Hres as [[-> ->] | ?]; [left | by right]. split; f_equal; lia.
    + destruct (f_gtb similarity t1); [| apply IH].
      destruct (IH (c1 + 1) c2 (push (similar_record node1 node2) s1) s2)
        as (k1 & k2 & Hk & Hn1 & Hn2 & Hres).
      exists (S k1), k2. rewrite Hn1, Hn2, !n_requests_push_similar.
      repeat split; try lia.
      destruct Hres as [[-> ->] | ?]; [left | by right]. split; f_equal; lia.
Qed.

Lemma similarity_pairs_threshold nodes c1 c2 (s1 s2 : State) :
  threshold_related c1 c2 s1 s2
    (similarity_pairs t1 nodes c1 s1) (similarity_pairs t2 nodes c2 s2).
Proof.
  revert c1 c2 s1 s2. induction nodes as [|node1 rest IH]; intros c1 c2 s1 s2.
  - exists 0%nat, 0%nat. simpl. repeat split; try lia; left; split; f_equal; lia.
  - simpl similarity_pairs. unfold mbind, Py_bind.
    destruct (similarity_row_threshold node1 rest c1 c2 s1 s2)
      as (k1 & k2 & Hk & Hn1 & Hn2 & Hres).
    destruct (for_fold rest c1 (similarity_pair t1 node1) s1) as [r1 s1'],
             (for_fold rest c2 (similarity_pair t2 node1) s2) as [r2 s2'].
    simpl in *. destruct Hres as [[-> ->] | (e & -> & ->)].
    + destruct (IH (c1 + Z.of_nat k1) (c2 + Z.of_nat k2) s1' s2')
        as (j1 & j2 & Hj & Hm1 & Hm2 & Hres).
      exists (k1 + j1)%nat, (k2 + j2)%nat. rewrite Hm1, Hm2, Hn1, Hn2.
      repeat split; try lia.
      destruct Hres as [[-> ->] | ?]; [left | by right]. split; f_equal; lia.
    + exists k1, k2. simpl. repeat split; try done; right; by exists e.
Qed.

Lemma compute_semantic_relationships_threshold nodes embeddings_map (s : State) :
  (n_requests (snd (compute_semantic_relationships_at t2 nodes embeddings_map s))
   <= n_requests (snd (compute_semantic_relationships_at t1 nodes embeddings_map s)))%nat.
Proof.
  rewrite !compute_semantic_relationships_at_unfold.
  destruct (collect_loop_run embeddings_map nodes []) as (r & Hrun & _).
  rewrite Hrun. destruct r as [ens|e]; [| done].
  destruct (similarity_pairs_threshold ens 0 0
              (push (INFO, MsgComputingSimilarity) s)
              (push (INFO, MsgComputingSimilarity) s))
    as (k1 & k2 & Hk & Hn1 & Hn2 & Hres).
  destruct (similarity_pairs t1 ens 0 _) as [r1 s1],
           (similarity_pairs t2 ens 0 _) as [r2 s2].
  simpl in *. destruct Hres as [[-> ->] | (e & -> & ->)]; simpl.
  - unfold n_requests in *. unfold push. simpl.
    change (length (edge_requests ([(INFO, MsgCreatedSimilarities (0 + Z.of_nat k2))]
                                   ++ log s2))
            <= length (edge_requests ([(INFO, MsgCreatedSimilarities (0 + Z.of_nat k1))]
                                      ++ log s1)))%nat.
    rewrite !edge_requests_app, !length_app. simpl. lia.
  - lia.
Qed.

End Threshold.

(** ** Counters that start higher

    Two runs of the same code from states that differ only in the log and in
    the four counters, the second having them higher by fixed amounts, end in
    states that differ in the same way, and stop with the same exception. *)
Section Shift.
Variables dn de dg dx : Z.

Local Abbreviation shifted := (Ingestion.shifted dn de dg dx).
Local Abbreviation sim := (Ingestion.sim dn de dg dx).

Lemma sim_ret {A} (R : A -> A -> Prop) a1 a2 : R a1 a2 -> sim R (mret a1) (mret a2).
Proof. intros HR s1 s2 Hs. split; assumption. Qed.

Lemma sim_raise {A} (R : A -> A -> Prop) e : sim R (raise e) (raise e).
Proof. intros s1 s2 Hs. split; [assumption | reflexivity]. Qed.

Lemma sim_lift {A} (r : Result A) : sim eq (lift r) (lift r).
Proof. intros s1 s2 Hs. split; [assumption | by destruct r]. Qed.

Lemma sim_getitem {A} key (field : option A) : sim eq (getitem key field) (getitem key field).
Proof. destruct field; [by apply sim_ret | apply sim_raise]. Qed.

Lemma sim_bind {A B} (Q : A -> A -> Prop) (R : B -> B -> Prop) m1 m2 f1 f2 :
  sim Q m1 m2 -> (forall a1 a2, Q a1 a2 -> sim R (f1 a1) (f2 a2)) ->
  sim R (m1 ≫= f1) (m2 ≫= f2).
Proof.
  intros Hm Hf s1 s2 Hs. unfold mbind, Py_bind.
  destruct (Hm s1 s2 Hs) as [Hs' Hr].
  destruct (m1 s1) as [[a1|e1] s1'], (m2 s2) as [[a2|e2] s2']; simpl in *; try done.
  by apply Hf.
Qed.

Lemma sim_try {A} (R : A -> A -> Prop) m1 m2 h1 h2 :
  sim R m1 m2 -> (forall e, sim R (h1 e) (h2 e)) ->
  sim R (try_except m1 h1) (try_except m2 h2).
Proof.
  intros Hm Hh s1 s2 Hs. unfold try_except.
  destruct (Hm s1 s2 Hs) as [Hs' Hr].
  destruct (m1 s1) as [[a1|e1] s1'], (m2 s2) as [[a2|e2] s2']; simpl in *; try done.
  subst e2. by apply Hh.
Qed.

Lemma sim_logger level1 msg1 level2 msg2 :
  sim eq (logger level1 msg1) (logger level2 msg2).
Proof. intros s1 s2 Hs. split; [exact Hs | reflexivity]. Qed.

(** A logger call on one side only. *)
Lemma sim_logger_l level msg : sim eq (logger level msg) (mret tt).
Proof. intros s1 s2 Hs. split; [exact Hs | reflexivity]. Qed.

Lemma sim_logger_r level msg : sim eq (mret tt) (logger level msg).
Proof. intros s1 s2 Hs. split; [exact Hs | reflexivity]. Qed.

Lemma sim_get_stats :
  sim (fun g1 g2 => g2 = counters_add dn de dg dx g1) get_stats get_stats.
Proof. intros s1 s2 Hs. split; [exact Hs | apply Hs]. Qed.

Lemma sim_set_stats (f : GraphStats -> GraphStats) :
  (forall g, f (counters_add dn de dg dx g) = counters_add dn de dg dx (f g)) ->
  sim eq (set_stats f) (set_stats f).
Proof.
  intros Hf s1 s2 (Hst & Hr & Ht). split; [| reflexivity].
  unfold Ingestion.shifted. simpl. by rewrite Hst, Hf.
Qed.

Lemma sim_random_rand : sim eq random_rand random_rand.
Proof.
  intros s1 s2 (Hst & Hr & Ht). unfold Ingestion.shifted. simpl. rewrite Hr. repeat split; done.
Qed.

Lemma sim_time_now world : sim eq (time_now world) (time_now world).
Proof.
  intros s1 s2 (Hst & Hr & Ht). unfold Ingestion.shifted. simpl. rewrite Ht. repeat split; done.
Qed.

Lemma sim_for_each {A} (items : list A) body1 body2 :
  (forall x, sim eq (body1 x) (body2 x)) ->
  sim eq (for_each items body1) (for_each items body2).
Proof.
  intros Hbody. induction items as [|x items IH]; simpl.
  - by apply sim_ret.
  - eapply sim_bind; [apply Hbody | intros; apply IH].
Qed.

Lemma sim_for_fold {A B} (items : list A) (acc : B) body1 body2 :
  (forall acc x, sim eq (body1 acc x) (body2 acc x)) ->
  sim eq (for_fold items acc body1) (for_fold items acc body2).
Proof.
  intros Hbody. revert acc. induction items as [|x items IH]; intros acc; simpl.
  - by apply sim_ret.
  - eapply sim_bind; [apply Hbody | intros ? ? <-; apply IH].
Qed.

Lemma sim_if_logger (b1 b2 : bool) level1 msg1 level2 msg2 :
  sim eq (if b1 then logger level1 msg1 else mret tt)
         (if b2 then logger level2 msg2 else mret tt).
Proof.
  destruct b1, b2;
    [apply sim_logger | apply sim_logger_l | apply sim_logger_r | by apply sim_ret].
Qed.

Lemma incr_nodes_created_shift g :
  incr_nodes_created (counters_add dn de dg dx g)
  = counters_add dn de dg dx (incr_nodes_created g).
Proof. rewrite !incr_nodes_created_add, !counters_add_add. f_equal; lia. Qed.

Lemma incr_edges_created_shift g :
  incr_edges_created (counters_add dn de dg dx g)
  = counters_add dn de dg dx (incr_edges_created g).
Proof. rewrite !incr_edges_created_add, !counters_add_add. f_equal; lia. Qed.

Lemma incr_embeddings_generated_shift g :
  incr_embeddings_generated (counters_add dn de dg dx g)
  = counters_add dn de dg dx (incr_embeddings_generated g).
Proof. rewrite !incr_embeddings_generated_add, !counters_add_add. f_equal; lia. Qed.

Lemma incr_errors_shift g :
  incr_errors (counters_add dn de dg dx g) = counters_add dn de dg dx (incr_errors g).
Proof. rewrite !incr_errors_add, !counters_add_add. f_equal; lia. Qed.

Lemma sim_if_decide_logger {P1 P2 : Prop} (d1 : Decision P1) (d2 : Decision P2)
    level1 msg1 level2 msg2 :
  sim eq (if d1 then logger level1 msg1 else mret tt)
         (if d2 then logger level2 msg2 else mret tt).
Proof.
  destruct d1, d2;
    [apply sim_logger | apply sim_logger_l | apply sim_logger_r | by apply sim_ret].
Qed.

Ltac sim_step :=
  first
    [ apply sim_raise | apply sim_lift | apply sim_getitem | apply sim_logger
    | apply sim_random_rand | apply sim_time_now
    | apply sim_if_decide_logger
    | apply sim_ret; reflexivity
    | apply sim_set_stats; intros;
      first [ apply incr_nodes_created_shift | apply incr_edges_created_shift
            | apply incr_embeddings_generated_shift | apply incr_errors_shift
            | reflexivity ]
    | apply sim_try; [| intros ?]
    | eapply sim_bind; [apply sim_get_stats | intros ? ? ->]
    | eapply (sim_bind eq); [| intros ? ? <-] ].

Lemma sim_ingest_edge edge : sim eq (ingest_edge edge) (ingest_edge edge).
Proof. unfold ingest_edge, _create_helix_edge. repeat sim_step. Qed.

Lemma sim_ingest_edges edges : sim eq (_ingest_edges edges) (_ingest_edges edges).
Proof. apply sim_for_each, sim_ingest_edge. Qed.

Lemma sim_ingest_node embeddings_map node :
  sim eq (ingest_node embeddings_map node) (ingest_node embeddings_map node).
Proof. unfold ingest_node, _create_helix_node. repeat sim_step. Qed.

Lemma sim_ingest_nodes nodes embeddings_map :
  sim eq (_ingest_nodes nodes embeddings_map) (_ingest_nodes nodes embeddings_map).
Proof. apply sim_for_each, sim_ingest_node. Qed.

Lemma sim_generate_embeddings items :
  sim eq (_generate_embeddings items) (_generate_embeddings items).
Proof.
  unfold _generate_embeddings. apply sim_try; [| intros e; repeat sim_step].
  eapply (sim_bind eq); [| intros ? ? <-; repeat sim_step].
  apply sim_for_fold. intros acc c. unfold embed_content_item. repeat sim_step.
Qed.

Lemma sim_initialize_schema world :
  sim eq (_initialize_schema world) (_initialize_schema world).
Proof.
  unfold _initialize_schema. apply sim_try; [| intros e; repeat sim_step].
  eapply (sim_bind eq); [apply sim_lift | intros response ? <-].
  eapply (sim_bind eq); [destruct response; sim_step | intros ? ? <-].
  eapply (sim_bind eq); [sim_step | intros ? ? <-].
  eapply (sim_bind eq); [| intros ? ? <-];
    apply sim_for_each; intros [? ?]; sim_step.
Qed.

Lemma sim_compute_semantic_relationships t nodes embeddings_map :
  sim eq (compute_semantic_relationships_at t nodes embeddings_map)
         (compute_semantic_relationships_at t nodes embeddings_map).
Proof.
  unfold compute_semantic_relationships_at.
  eapply (sim_bind eq); [sim_step | intros ? ? <-].
  eapply (sim_bind eq); [| intros ens ? <-].
  { apply sim_for_fold. intros acc node. unfold collect_embedded_node.
    eapply (sim_bind eq); [sim_step | intros ? ? <-].
    destruct (embeddings_map !! _); repeat sim_step. }
  eapply (sim_bind eq); [| intros ? ? <-; sim_step].
  generalize 0. induction ens as [|node1 rest IH]; intros created; simpl.
  - sim_step.
  - eapply (sim_bind eq); [| intros ? ? <-; apply IH].
    apply sim_for_fold. intros acc node2. unfold similarity_pair.
    eapply (sim_bind eq); [sim_step | intros should ? <-].
    destruct should; [| sim_step].
    eapply (sim_bind eq); [sim_step | intros similarity ? <-].
    unfold _create_helix_edge. destruct (f_gtb _ _); repeat sim_step.
Qed.

(** [ingest_project] from counters that start higher. *)
Lemma sim_ingest_project world path :
  sim (fun g1 g2 => g2 = counters_add dn de dg dx g1)
      (ingest_project world path) (ingest_project world path).
Proof.
  unfold ingest_project.
  eapply (sim_bind eq); [sim_step | intros ? ? <-].
  eapply (sim_bind eq); [sim_step | intros ? ? <-].
  apply sim_try; [| intros e; repeat sim_step].
  eapply (sim_bind eq); [sim_step | intros ? ? <-].
  eapply (sim_bind eq); [sim_step | intros export_result ? <-].
  eapply (sim_bind eq); [destruct (negb _); sim_step | intros ? ? <-].
  eapply (sim_bind eq); [sim_step | intros ? ? <-].
  eapply (sim_bind eq); [apply sim_initialize_schema | intros ? ? <-].
  eapply (sim_bind eq); [sim_step | intros ? ? <-].
  eapply (sim_bind eq); [sim_step | intros ? ? <-].
  eapply (sim_bind eq); [apply sim_generate_embeddings | intros ? ? <-].
  eapply (sim_bind eq); [sim_step | intros ? ? <-].
  eapply (sim_bind eq); [sim_step | intros ? ? <-].
  eapply (sim_bind eq); [apply sim_ingest_nodes | intros ? ? <-].
  eapply (sim_bind eq); [sim_step | intros ? ? <-].
  eapply (sim_bind eq); [sim_step | intros ? ? <-].
  eapply (sim_bind eq); [apply sim_ingest_edges | intros ? ? <-].
  eapply (sim_bind eq); [sim_step | intros ? ? <-].
  eapply (sim_bind eq); [sim_step | intros ? ? <-].
  eapply (sim_bind eq); [apply sim_compute_semantic_relationships | intros ? ? <-].
  eapply (sim_bind eq); [sim_step | intros ? ? <-].
  eapply (sim_bind eq); [sim_step | intros ? ? <-].
  eapply (sim_bind eq); [sim_step | intros ? ? <-].
  eapply sim_bind; [apply sim_get_stats | intros g1 g2 ->].
  eapply (sim_bind eq); [sim_step | intros ? ? <-].
  eapply (sim_bind eq); [sim_step | intros ? ? <-].
  eapply (sim_bind eq); [sim_step | intros ? ? <-].
  eapply (sim_bind eq); [sim_step | intros ? ? <-].
  apply sim_get_stats.
Qed.

(** The answer of the HelixDB server changes the log only. *)
Lemma sim_initialize_schema_any world1 world2 :
  sim eq (_initialize_schema world1) (_initialize_schema world2).
Proof.
  intros s1 s2 Hs. rewrite !initialize_schema_run. split; [exact Hs | reflexivity].
Qed.

Lemma sim_ingest_project_with_helix world response path :
  sim (fun g1 g2 => g2 = counters_add dn de dg dx g1)
      (ingest_project world path) (ingest_project (with_helix world response) path).
Proof.
  unfold ingest_project.
  eapply (sim_bind eq); [apply (sim_time_now world) | intros ? ? <-].
  eapply (sim_bind eq); [sim_step | intros ? ? <-].
  apply sim_try; [| intros e; repeat sim_step].
  eapply (sim_bind eq); [sim_step | intros ? ? <-].
  eapply (sim_bind eq); [apply (sim_lift (open_json world path)) | intros export_result ? <-].
  eapply (sim_bind eq); [destruct (negb _); sim_step | intros ? ? <-].
  eapply (sim_bind eq); [sim_step | intros ? ? <-].
  eapply (sim_bind eq); [apply sim_initialize_schema_any | intros ? ? <-].
  eapply (sim_bind eq); [sim_step | intros ? ? <-].
  eapply (sim_bind eq); [sim_step | intros ? ? <-].
  eapply (sim_bind eq); [apply sim_generate_embeddings | intros ? ? <-].
  eapply (sim_bind eq); [sim_step | intros ? ? <-].
  eapply (sim_bind eq); [sim_step | intros ? ? <-].
  eapply (sim_bind eq); [apply sim_ingest_nodes | intros ? ? <-].
  eapply (sim_bind eq); [sim_step | intros ? ? <-].
  eapply (sim_bind eq); [sim_step | intros ? ? <-].
  eapply (sim_bind eq); [apply sim_ingest_edges | intros ? ? <-].
  eapply (sim_bind eq); [sim_step | intros ? ? <-].
  eapply (sim_bind eq); [sim_step | intros ? ? <-].
  eapply (sim_bind eq); [apply sim_compute_semantic_relationships | intros ? ? <-].
  eapply (sim_bind eq); [apply (sim_time_now world) | intros ? ? <-].
  eapply (sim_bind eq); [sim_step | intros ? ? <-].
  eapply (sim_bind eq); [sim_step | intros ? ? <-].
  eapply sim_bind; [apply sim_get_stats | intros g1 g2 ->].
  eapply (sim_bind eq); [sim_step | intros ? ? <-].
  eapply (sim_bind eq); [sim_step | intros ? ? <-].
  eapply (sim_bind eq); [sim_step | intros ? ? <-].
  eapply (sim_bind eq); [sim_step | intros ? ? <-].
  apply sim_get_stats.
Qed.

End Shift.












Lemma staged_weaken lo hi lo' hi' {A} (m : Py State A) :
  (lo' <= lo)%nat -> (hi <= hi')%nat -> staged lo hi m -> staged lo' hi' m.
Proof.
  intros Hlo Hhi Hm s. destruct (Hm s) as (new & Hlog & Hord & Hall).
  exists new. repeat split; try done.
  eapply Forall_impl; [exact Hall |]. simpl. lia.
Qed.













(** ** The two time stamps

    The phases do not call the clock and leave [start_time] alone. *)
Section Times.
Variable world : World.
Variables (k : nat) (T : npfloat).

Local Abbreviation at_time := (Ingestion.at_time k T).
Local Abbreviation stable := (Ingestion.stable k T).
Local Abbreviation finishes := (Ingestion.finishes world k T).

Lemma stable_ret {A} (a : A) : stable (mret a).
Proof. by intros s Hs. Qed.

Lemma stable_raise {A} e : stable (raise (A:=A) e).
Proof. by intros s Hs. Qed.

Lemma stable_lift {A} (r : Result A) : stable (lift r).
Proof. by intros s Hs. Qed.

Lemma stable_getitem {A} key (field : option A) : stable (getitem key field).
Proof. destruct field; by intros s Hs. Qed.

Lemma stable_get_stats : stable get_stats.
Proof. by intros s Hs. Qed.

Lemma stable_logger level msg : stable (logger level msg).
Proof. by intros s Hs. Qed.

Lemma stable_random_rand : stable random_rand.
Proof. by intros s Hs. Qed.

Lemma stable_set_stats f :
  (forall g, start_time (f g) = start_time g) -> stable (set_stats f).
Proof. intros Hf s [Hk HT]. split; [done |]. simpl. by rewrite Hf. Qed.

Lemma stable_bind {A B} (m : Py State A) (f : A -> Py State B) :
  stable m -> (forall a, stable (f a)) -> stable (m ≫= f).
Proof.
  intros Hm Hf s Hs. unfold mbind, Py_bind. specialize (Hm s Hs).
  destruct (m s) as [[a|e] s1]; simpl in *; [by apply Hf | done].
Qed.

Lemma stable_try {A} (m : Py State A) (h : exn -> Py State A) :
  stable m -> (forall e, stable (h e)) -> stable (try_except m h).
Proof.
  intros Hm Hh s Hs. unfold try_except. specialize (Hm s Hs).
  destruct (m s) as [[a|e] s1]; simpl in *; [done | by apply Hh].
Qed.

Lemma stable_for_each {A} (items : list A) (body : A -> Py State unit) :
  (forall x, stable (body x)) -> stable (for_each items body).
Proof.
  intros Hbody. induction items as [|x items IH]; simpl.
  - apply stable_ret.
  - apply stable_bind; [apply Hbody | intros; apply IH].
Qed.

Lemma stable_for_fold {A B} (items : list A) (acc : B) (body : B -> A -> Py State B) :
  (forall acc x, stable (body acc x)) -> stable (for_fold items acc body).
Proof.
  intros Hbody. revert acc. induction items as [|x items IH]; intros acc; simpl.
  - apply stable_ret.
  - apply stable_bind; [apply Hbody | intros; apply IH].
Qed.

Ltac stable_step :=
  first
    [ apply stable_ret | apply stable_raise | apply stable_lift | apply stable_getitem
    | apply stable_get_stats | apply stable_logger | apply stable_random_rand
    | apply stable_set_stats; reflexivity
    | apply stable_try; [| intros ?]
    | apply stable_bind; [| intros ?] ].

Lemma stable_initialize_schema : stable (_initialize_schema world).
Proof.
  unfold _initialize_schema. apply stable_try; [| intros e; stable_step].
  apply stable_bind; [stable_step | intros response].
  apply stable_bind; [destruct response; stable_step | intros c].
  apply stable_bind; [stable_step | intros _].
  apply stable_bind; [| intros _]; apply stable_for_each; intros [? ?]; stable_step.
Qed.

Lemma stable_generate_embeddings items : stable (_generate_embeddings items).
Proof.
  unfold _generate_embeddings. apply stable_try; [| intros e; repeat stable_step].
  apply stable_bind; [| intros ?; repeat stable_step].
  apply stable_for_fold. intros acc c. unfold embed_content_item. repeat stable_step.
Qed.

Lemma stable_ingest_nodes nodes embeddings_map :
  stable (_ingest_nodes nodes embeddings_map).
Proof.
  apply stable_for_each. intros node. unfold ingest_node, _create_helix_node.
  repeat stable_step. destruct (decide _); stable_step.
Qed.

Lemma stable_ingest_edges edges : stable (_ingest_edges edges).
Proof.
  apply stable_for_each. intros edge. unfold ingest_edge, _create_helix_edge.
  repeat stable_step. destruct (decide _); stable_step.
Qed.

Lemma stable_compute_semantic_relationships t nodes embeddings_map :
  stable (compute_semantic_relationships_at t nodes embeddings_map).
Proof.
  intros s [Hk HT].
  destruct (compute_semantic_relationships_outcome t nodes embeddings_map s)
    as (new & _ & Hst & _ & Ht & _).
  split; [by rewrite Ht | by rewrite Hst].
Qed.

Lemma finishes_bind {A B} (m : Py State A) (f : A -> Py State B) :
  stable m -> (forall a, finishes (f a)) -> finishes (m ≫= f).
Proof.
  intros Hm Hf s Hs. unfold mbind, Py_bind. specialize (Hm s Hs).
  destruct (m s) as [[a|e] s1]; simpl in *; [by apply Hf |].
  split; [apply Hm | done].
Qed.

End Times.

(** [ingest_project] overwrites [start_time] with the clock value read when
    it is entered and, when it returns, [end_time] with the next one. *)
Lemma ingest_project_times world path (s : State) :
  start_time (stats (snd (ingest_project world path s))) = time_time world (time_calls s)
  /\ (is_ok (fst (ingest_project world path s)) = true ->
      end_time (stats (snd (ingest_project world path s)))
      = time_time world (S (time_calls s))).
Proof.
  remember (ingest_project world path s) as x eqn:Hx.
  unfold ingest_project in Hx. unfold mbind at 1 2, Py_bind at 1 2 in Hx.
  cbn [time_now set_stats] in Hx.
  match type of Hx with _ = try_except ?b ?h ?s0 =>
    assert (Hb : finishes world (S (time_calls s)) (time_time world (time_calls s)) b);
    [| assert (Hs0 : at_time (S (time_calls s)) (time_time world (time_calls s)) s0)
         by (by split);
       destruct (Hb s0 Hs0) as [Hstart Hend]; unfold try_except in Hx;
       destruct (b s0) as [[g|e] s1]; subst x ]
  end.
  2:{ simpl in *. split; [exact Hstart | intros _; by apply Hend]. }
  2:{ simpl in *. split; [exact Hstart | done]. }
  repeat (apply finishes_bind;
    [ first [ apply stable_initialize_schema | apply stable_generate_embeddings
            | apply stable_ingest_nodes | apply stable_ingest_edges
            | apply stable_compute_semantic_relationships
            | destruct (negb _); apply stable_raise || apply stable_ret
            | apply stable_logger | apply stable_lift | apply stable_getitem ]
    | intros ? ]).
  intros s0 [Hk HT]. simpl. by rewrite Hk.
Qed.

Lemma returns_stats_bind {A} (m : Py State A) (f : A -> Py State GraphStats) :
  (forall a, returns_stats (f a)) -> returns_stats (m ≫= f).
Proof.
  intros Hf s g. unfold mbind, Py_bind.
  destruct (m s) as [[a|e] s1]; simpl; [apply Hf | done].
Qed.

Lemma ingest_project_returns_stats world path :
  returns_stats (ingest_project world path).
Proof.
  unfold ingest_project. do 2 (apply returns_stats_bind; intros ?).
  intros s g. unfold try_except.
  match goal with |- context [?b s] =>
    assert (Hb : returns_stats b);
    [| specialize (Hb s); destruct (b s) as [[g'|e] s1]; simpl in *; [by apply Hb | done] ]
  end.
  repeat (apply returns_stats_bind; intros ?). by intros s' g' [= <-].
Qed.

(** ** The claims *)





(** C3.  For fixed nodes and embeddings, the similarity pass requests no more
    edges under a threshold [t2] than under a threshold [t1 <= t2]. *)
Theorem similarity_threshold_monotone `{!NumpyOrder} (t1 t2 : npfloat)
    (nodes : list json) (embeddings_map : gmap string Embedding) (s : State) :
  f_leb t1 t2 = true ->
  (length (similarity_edges t2 nodes embeddings_map s)
   <= length (similarity_edges t1 nodes embeddings_map s))%nat.
Proof.
  intros Hle.
  pose proof (compute_semantic_relationships_threshold t1 t2 Hle nodes embeddings_map s)
    as Hmono.
  destruct (compute_semantic_relationships_outcome t1 nodes embeddings_map s)
    as (new1 & Hlog1 & _).
  destruct (compute_semantic_relationships_outcome t2 nodes embeddings_map s)
    as (new2 & Hlog2 & _).
  unfold similarity_edges.
  rewrite (emitted_by_new _ _ _ Hlog1), (emitted_by_new _ _ _ Hlog2).
  unfold n_requests in Hmono.
  rewrite Hlog1, Hlog2, !edge_requests_app, !length_app in Hmono. lia.
Qed.

(** C4.  When [np.dot] is defined on [a] and [b], [_cosine_similarity]
    returns [dot(a,b) / (||a|| * ||b||)] if neither norm compares equal to
    zero, and exactly zero if one of them does. *)
Theorem cosine_similarity_formula (a b : ndarray) (dot_product : npfloat) :
  np_dot a b = Ok dot_product ->
  (f_eqb (np_linalg_norm a) f_zero = false ->
   f_eqb (np_linalg_norm b) f_zero = false ->
   _cosine_similarity a b
   = Ok (f_div dot_product (f_mul (np_linalg_norm a) (np_linalg_norm b))))
  /\ (f_eqb (np_linalg_norm a) f_zero = true \/ f_eqb (np_linalg_norm b) f_zero = true ->
      _cosine_similarity a b = Ok f_zero).
Proof.
  intros Hdot. unfold _cosine_similarity. rewrite Hdot. split.
  - by intros -> ->.
  - intros [-> | ->]; [done | by rewrite orb_true_r].
Qed.

(** C5, as amended.  Every edge the similarity pass requests is a
    [similar_name] edge between two input nodes, the first earlier in the
    list, that both have a name embedding and whose types are equal, or both
    layer types, or both property types.  Edge materialization looks at no
    type of a node: for an input edge of type [SIMILAR_NAME] it requests a
    [similar_name] edge between the two ids the edge names, whatever they
    are. *)
Theorem similarity_edges_join_same_class (t : npfloat) (nodes : list json)
    (embeddings_map : gmap string Embedding) (s : State) :
  Forall (joins_eligible_nodes nodes embeddings_map)
         (similarity_edges t nodes embeddings_map s)
  /\ forall from_id to_id : json,
       edge_requests
         (emitted_by (_ingest_edges [JObj [("from", from_id); ("to", to_id);
                                           ("type", JStr "SIMILAR_NAME")]]) s)
       = [("similar_name", from_id, to_id)].
Proof.
  split.
  - destruct (compute_semantic_relationships_outcome t nodes embeddings_map s)
      as (new & Hlog & _ & _ & _ & Hall & _).
    unfold similarity_edges. by rewrite (emitted_by_new _ _ _ Hlog).
  - intros from_id to_id.
    match goal with |- context [_ingest_edges ?edges] =>
      destruct (ingest_edges_run edges s) as (new & Hrun & Hreq & _) end.
    rewrite (emitted_by_new _ _ new) by (by rewrite Hrun). by rewrite Hreq.
Qed.

(** C9.  The counters are never reset: after a second call of
    [ingest_project] on an instance, each counter is the sum of what the
    first call left and of what the second call counts by itself (that is,
    run with the counters put back to zero); the value returned is
    [self.stats]; [start_time] and, on return, [end_time] are overwritten
    with the clock values of the second call. *)
Theorem stats_accumulate_over_runs world (path1 path2 : string) :
  let s1 := snd (ingest_project world path1 __init__) in
  let second := ingest_project world path2 s1 in
  let alone := stats (snd (ingest_project world path2 (reset_counters s1))) in
  nodes_created (stats (snd second)) = nodes_created (stats s1) + nodes_created alone
  /\ edges_created (stats (snd second)) = edges_created (stats s1) + edges_created alone
  /\ embeddings_generated (stats (snd second))
     = embeddings_generated (stats s1) + embeddings_generated alone
  /\ errors (stats (snd second)) = errors (stats s1) + errors alone
  /\ (forall g, fst second = Ok g -> g = stats (snd second))
  /\ start_time (stats (snd second)) = time_time world (time_calls s1)
  /\ (is_ok (fst second) = true ->
      end_time (stats (snd second)) = time_time world (S (time_calls s1))).
Proof.
  intros s1 second alone.
  assert (Hshift : shifted (nodes_created (stats s1)) (edges_created (stats s1))
                     (embeddings_generated (stats s1)) (errors (stats s1))
                     (reset_counters s1) s1).
  { split; [| done]. unfold counters_add, reset_counters. simpl.
    destruct (stats s1). simpl. f_equal; lia. }
  destruct (sim_ingest_project _ _ _ _ world path2 _ _ Hshift) as [(Hst & _ & _) _].
  fold second in Hst. fold alone in Hst.
  destruct (ingest_project_times world path2 s1) as [Hstart Hend].
  fold second in Hstart, Hend.
  pose proof (ingest_project_returns_stats world path2 s1) as Hret.
  fold second in Hret.
  repeat split; try done; rewrite Hst; simpl; lia.
Qed.

(** C10.  When an entry of [embedding_content] lacks one of its keys,
    [_generate_embeddings] returns the empty map and logs the error, while
    [embeddings_generated] keeps one increment for each entry before the
    first incomplete one. *)
Theorem generate_embeddings_discards_on_failure (good : list ContentItem)
    (bad : ContentItem) (rest : list ContentItem) (s : State) :
  Forall (fun c => is_Some (content_item_keys c)) good ->
  content_item_keys bad = None ->
  exists key,
    fst (_generate_embeddings (good ++ bad :: rest) s) = Ok ∅
    /\ embeddings_generated (stats (snd (_generate_embeddings (good ++ bad :: rest) s)))
       = embeddings_generated (stats s) + Z.of_nat (length good)
    /\ log (snd (_generate_embeddings (good ++ bad :: rest) s))
       = (ERROR, MsgEmbeddingFailed (KeyError key)) :: log s.
Proof.
  intros Hgood Hbad.
  destruct (embed_loop_stops good bad rest ∅ s Hgood Hbad) as [key Hrun].
  exists key. unfold _generate_embeddings, try_except, mbind, Py_bind.
  rewrite Hrun. simpl. repeat split; done.
Qed.

(** * Further properties of the ingestion pipeline *)

(** ** Phase by phase *)

(** The loop of [_generate_embeddings]: it processes the leading complete
    items and stops at the first incomplete one. *)
Lemma embed_loop_run (items : list ContentItem) (acc : gmap string Embedding) (s : State) :
  exists r,
    for_fold items acc embed_content_item s =
      (r, {| stats := counters_add 0 0 (Z.of_nat (leading_complete items)) 0 (stats s);
             log := log s;
             rand_calls := (rand_calls s + leading_complete items)%nat;
             time_calls := time_calls s |})
    /\ ((r = Ok (embedded (rand_calls s) items acc)
         /\ leading_complete items = length items)
        \/ ((exists key, r = Raise (KeyError key))
            /\ (leading_complete items < length items)%nat)).
Proof.
  revert acc s. induction items as [|c items IH]; intros acc s.
  - exists (Ok acc). simpl. rewrite counters_add_0, Nat.add_0_r.
    split; [by destruct s | by left].
  - simpl for_fold. unfold mbind at 1, Py_bind at 1.
    destruct (content_item_keys c) as [[[[content_id field] text] content_type]|] eqn:Hc.
    + rewrite (embed_content_item_complete _ _ _ _ _ _ _ Hc).
      match goal with |- context [for_fold items ?m _ ?s1] =>
        destruct (IH m s1) as (r & Hrun & Hr) end.
      exists r. rewrite Hrun. simpl. rewrite Hc. split.
      * do 2 f_equal; [| lia].
        rewrite incr_embeddings_generated_add, counters_add_add. f_equal; lia.
      * unfold embed_key_of, embedding_of. rewrite Hc.
        destruct Hr as [[-> Hlen] | [Hkey Hlen]]; [left | right]; (split; [done | lia]).
    + destruct (embed_content_item_incomplete acc c s Hc) as [key Hrun].
      exists (Raise (KeyError key)). rewrite Hrun. simpl. rewrite Hc.
      rewrite counters_add_0, Nat.add_0_r.
      split; [by destruct s | right; split; [by exists key | lia]].
Qed.

(** [_generate_embeddings] always returns a map; it counts the leading
    complete items and calls the generator once for each. *)
Lemma generate_embeddings_run (items : list ContentItem) (s : State) :
  exists embeddings_map record,
    _generate_embeddings items s =
      (Ok embeddings_map,
       {| stats := counters_add 0 0 (Z.of_nat (leading_complete items)) 0 (stats s);
          log := record :: log s;
          rand_calls := (rand_calls s + leading_complete items)%nat;
          time_calls := time_calls s |})
    /\ ((embeddings_map = embedded (rand_calls s) items ∅
         /\ record = (INFO, MsgGenerated (size embeddings_map))
         /\ leading_complete items = length items)
        \/ (embeddings_map = ∅
            /\ (exists key, record = (ERROR, MsgEmbeddingFailed (KeyError key)))
            /\ (leading_complete items < length items)%nat)).
Proof.
  destruct (embed_loop_run items ∅ s) as (r & Hrun & [[-> Hlen] | [[key ->] Hlen]]);
    unfold _generate_embeddings, try_except, mbind, Py_bind; rewrite Hrun.
  - eexists _, _. split; [reflexivity | left; done].
  - eexists _, _. split; [reflexivity | right; split; [done | split; [by exists key | done]]].
Qed.

(** ** What the loop of [_generate_embeddings] files *)

Lemma embedded_lookup_other (k : nat) (items : list ContentItem)
    (acc : gmap string Embedding) (key : string) :
  (forall c, c ∈ items -> embed_key_of c <> Some key) ->
  embedded k items acc !! key = acc !! key.
Proof.
  revert k acc. induction items as [|c items IH]; intros k acc Hother; [done |].
  simpl. destruct (embed_key_of c) as [key'|] eqn:Hkey; [| done].
  destruct (embedding_of k c); [| done].
  rewrite IH.
  - apply lookup_insert_ne. intros ->. by apply (Hother c); [left |].
  - intros c' Hin. apply Hother. by right.
Qed.

Lemma embedding_of_complete (k : nat) (c : ContentItem) :
  is_Some (content_item_keys c) ->
  is_Some (embed_key_of c) /\ is_Some (embedding_of k c).
Proof.
  unfold embed_key_of, embedding_of.
  intros [[[[content_id field] text] content_type] ->]. split; by eexists.
Qed.

(** The entry of a key is that of the last item filed under it. *)
Lemma embedded_lookup_last (k : nat) (items : list ContentItem)
    (acc : gmap string Embedding) (i : nat) (c : ContentItem) (key : string) :
  Forall (fun c => is_Some (content_item_keys c)) items ->
  items !! i = Some c ->
  embed_key_of c = Some key ->
  (forall j c', (i < j)%nat -> items !! j = Some c' -> embed_key_of c' <> Some key) ->
  embedded k items acc !! key = embedding_of (k + i) c.
Proof.
  intros Hall. revert k acc i.
  induction Hall as [|c0 items Hc0 _ IH]; intros k acc i Hi Hkey Hlast; [done |].
  destruct (embedding_of_complete k c0 Hc0) as [[key0 Hkey0] [entry0 Hentry0]].
  simpl. rewrite Hkey0, Hentry0. destruct i as [|i]; simpl in Hi.
  - injection Hi as ->. rewrite Nat.add_0_r.
    rewrite embedded_lookup_other.
    + rewrite Hkey in Hkey0. injection Hkey0 as <-.
      by rewrite lookup_insert_eq, Hentry0.
    + intros c' Hin. apply list_elem_of_lookup in Hin as [j Hj].
      apply (Hlast (S j)); [lia | done].
  - replace (k + S i)%nat with (S k + i)%nat by lia.
    apply IH; [done | done |].
    intros j c' Hij Hj. apply (Hlast (S j)); [lia | done].
Qed.

(** The keys of the map are those of the items. *)
Lemma embedded_lookup_is_Some (k : nat) (items : list ContentItem)
    (acc : gmap string Embedding) (key : string) :
  Forall (fun c => is_Some (content_item_keys c)) items ->
  is_Some (embedded k items acc !! key)
  <-> is_Some (acc !! key) \/ exists c, c ∈ items /\ embed_key_of c = Some key.
Proof.
  intros Hall. revert k acc.
  induction Hall as [|c0 items Hc0 _ IH]; intros k acc.
  - simpl. split; [by left |]. intros [? | (c & Hin & _)]; [done |].
    by apply elem_of_nil in Hin.
  - destruct (embedding_of_complete k c0 Hc0) as [[key0 Hkey0] [entry0 Hentry0]].
    simpl. rewrite Hkey0, Hentry0, IH. destruct (decide (key0 = key)) as [-> | Hne].
    + rewrite lookup_insert_eq. split; [| by intros; left; eexists].
      intros _. right. exists c0. split; [left | done].
    + rewrite lookup_insert_ne by done. split.
      * intros [? | (c & Hin & Hkey)]; [by left |].
        right. exists c. split; [by right | done].
      * intros [? | (c & Hin & Hkey)]; [by left |].
        apply elem_of_cons in Hin as [-> | Hin]; [congruence |].
        right. by exists c.
Qed.

Lemma embedded_size (k : nat) (items : list ContentItem) (acc : gmap string Embedding) :
  (size (embedded k items acc) <= size acc + length items)%nat.
Proof.
  revert k acc. induction items as [|c items IH]; intros k acc; simpl; [lia |].
  destruct (embed_key_of c) as [key|]; [| lia].
  destruct (embedding_of k c) as [entry|]; [| lia].
  specialize (IH (S k) (<[key := entry]> acc)).
  rewrite map_size_insert in IH. destruct (acc !! key); simpl in IH; lia.
Qed.

(** ** Counters only go up *)

Lemma accepted_bounds {A B} (f : A -> option B) (l : list A) :
  0 <= accepted f l <= Z.of_nat (length l).
Proof.
  induction l as [|x l IH]; [done |].
  rewrite accepted_cons, length_cons. destruct (f x); lia.
Qed.

Lemma rejected_bounds {A B} (f : A -> option B) (l : list A) :
  0 <= rejected f l <= Z.of_nat (length l).
Proof. pose proof (accepted_bounds f l). unfold rejected. lia. Qed.

Lemma counters_le_refl (g : GraphStats) : counters_le g g.
Proof. unfold counters_le. lia. Qed.

Lemma counters_le_trans (g1 g2 g3 : GraphStats) :
  counters_le g1 g2 -> counters_le g2 g3 -> counters_le g1 g3.
Proof. unfold counters_le. lia. Qed.

Lemma counters_le_add (dn de dg dx : Z) (g : GraphStats) :
  0 <= dn -> 0 <= de -> 0 <= dg -> 0 <= dx ->
  counters_le g (counters_add dn de dg dx g).
Proof. unfold counters_le, counters_add. simpl. lia. Qed.

Lemma grows_quiet {A} (m : Py State A) :
  (forall s, stats (snd (m s)) = stats s) -> grows m.
Proof. intros Hq s. rewrite Hq. apply counters_le_refl. Qed.

Lemma grows_ret {A} (a : A) : grows (mret a).
Proof. by apply grows_quiet. Qed.

Lemma grows_raise {A} e : grows (raise (A:=A) e).
Proof. by apply grows_quiet. Qed.

Lemma grows_lift {A} (r : Result A) : grows (lift r).
Proof. by apply grows_quiet. Qed.

Lemma grows_getitem {A} key (field : option A) : grows (getitem key field).
Proof. destruct field; by apply grows_quiet. Qed.

Lemma grows_get_stats : grows get_stats.
Proof. by apply grows_quiet. Qed.

Lemma grows_logger level msg : grows (logger level msg).
Proof. by apply grows_quiet. Qed.

Lemma grows_time_now world : grows (time_now world).
Proof. by apply grows_quiet. Qed.

Lemma grows_set_stats (f : GraphStats -> GraphStats) :
  (forall g, counters_le g (f g)) -> grows (set_stats f).
Proof. intros Hf s. apply Hf. Qed.

Lemma grows_bind {A B} (m : Py State A) (f : A -> Py State B) :
  grows m -> (forall a, grows (f a)) -> grows (m ≫= f).
Proof.
  intros Hm Hf s. unfold mbind, Py_bind. specialize (Hm s).
  destruct (m s) as [[a|e] s1]; simpl in *; [| done].
  eapply counters_le_trans; [exact Hm | apply Hf].
Qed.

Lemma grows_try {A} (m : Py State A) (h : exn -> Py State A) :
  grows m -> (forall e, grows (h e)) -> grows (try_except m h).
Proof.
  intros Hm Hh s. unfold try_except. specialize (Hm s).
  destruct (m s) as [[a|e] s1]; simpl in *; [done |].
  eapply counters_le_trans; [exact Hm | apply Hh].
Qed.

Lemma grows_initialize_schema world : grows (_initialize_schema world).
Proof. apply grows_quiet. intros s. by rewrite initialize_schema_run. Qed.

Lemma grows_generate_embeddings items : grows (_generate_embeddings items).
Proof.
  intros s. destruct (generate_embeddings_run items s) as (m & record & -> & _).
  apply counters_le_add; lia.
Qed.

Lemma grows_ingest_nodes nodes embeddings_map : grows (_ingest_nodes nodes embeddings_map).
Proof.
  intros s. destruct (ingest_nodes_run embeddings_map nodes s) as (new & -> & _).
  pose proof (accepted_bounds node_request_of (leading_dicts nodes)).
  pose proof (rejected_bounds node_request_of (leading_dicts nodes)).
  apply counters_le_add; lia.
Qed.

Lemma grows_ingest_edges edges : grows (_ingest_edges edges).
Proof.
  intros s. destruct (ingest_edges_run edges s) as (new & -> & _).
  pose proof (accepted_bounds edge_request_of (leading_dicts edges)).
  pose proof (rejected_bounds edge_request_of (leading_dicts edges)).
  apply counters_le_add; lia.
Qed.

Lemma grows_compute_semantic_relationships t nodes embeddings_map :
  grows (compute_semantic_relationships_at t nodes embeddings_map).
Proof.
  apply grows_quiet. intros s.
  by destruct (compute_semantic_relationships_outcome t nodes embeddings_map s)
    as (new & _ & Hst & _).
Qed.

Lemma counters_le_incr_errors (g : GraphStats) : counters_le g (incr_errors g).
Proof. unfold counters_le. simpl. lia. Qed.

(** The body of the [try] of [ingest_project], and the whole method. *)
Lemma grows_ingest_project world path : grows (ingest_project world path).
Proof.
  unfold ingest_project.
  apply grows_bind; [apply grows_time_now | intros t].
  apply grows_bind;
    [apply grows_set_stats; intros g; unfold counters_le; simpl; lia | intros _].
  apply grows_try.
  2:{ intros e. apply grows_bind; [| intros _].
      - apply grows_set_stats, counters_le_incr_errors.
      - apply grows_bind; [apply grows_logger | intros _; apply grows_raise]. }
  repeat (apply grows_bind;
    [ first [ apply grows_initialize_schema | apply grows_generate_embeddings
            | apply grows_ingest_nodes | apply grows_ingest_edges
            | apply grows_compute_semantic_relationships
            | destruct (negb _); apply grows_raise || apply grows_ret
            | apply grows_logger | apply grows_lift | apply grows_getitem
            | apply grows_time_now | apply grows_get_stats
            | apply grows_set_stats; intros g; unfold counters_le; simpl; lia ]
    | intros ? ]).
  apply grows_get_stats.
Qed.

(** ** The run, step by step *)

Lemma try_bind {S A B} (m : Py S A) (f : A -> Py S B) (h : exn -> Py S B) (s : S) :
  try_except (m ≫= f) h s =
    match m s with
    | (Ok a, s') => try_except (f a) h s'
    | (Raise e, s') => h e s'
    end.
Proof. unfold try_except, mbind, Py_bind. by destruct (m s) as [[a|e] s']. Qed.

Ltac run_norm := cbn [push run_started snd stats log rand_calls time_calls].

Lemma ingest_project_unfold world path (s : State) :
  ingest_project world path s =
    let s0 := push (INFO, MsgLoading path) (run_started world s) in
    match open_json world path with
    | Raise e => run_failed e s0
    | Ok export_result =>
    if negb (default false (x_success export_result))
    then run_failed (ValueError ("Export failed: " +:+
                                 default "Unknown error" (x_message export_result))) s0
    else
    match x_data export_result with
    | None => run_failed (KeyError "data") s0
    | Some project_data =>
    let s1 := push (INFO, MsgGeneratingEmbeddings) (snd (_initialize_schema world s0)) in
    match d_embedding_content project_data with
    | None => run_failed (KeyError "embedding_content") s1
    | Some embedding_content =>
    let (r2, s2) := _generate_embeddings embedding_content s1 in
    match r2 with
    | Raise e => run_failed e s2
    | Ok embeddings_map =>
    match d_nodes project_data with
    | None => run_failed (KeyError "nodes") (push (INFO, MsgIngestingNodes) s2)
    | Some nodes =>
    let (r3, s3) := _ingest_nodes nodes embeddings_map (push (INFO, MsgIngestingNodes) s2) in
    match r3 with
    | Raise e => run_failed e s3
    | Ok _ =>
    match d_edges project_data with
    | None => run_failed (KeyError "edges") (push (INFO, MsgIngestingEdges) s3)
    | Some edges =>
    let (r4, s4) := _ingest_edges edges (push (INFO, MsgIngestingEdges) s3) in
    match r4 with
    | Raise e => run_failed e s4
    | Ok _ =>
    let (r5, s5) :=
      _compute_semantic_relationships nodes embeddings_map
        (push (INFO, MsgComputingSimilarity) s4) in
    match r5 with
    | Raise e => run_failed e s5
    | Ok _ => run_completed world s5
    end end end end end end end end end.
Proof.
  unfold ingest_project.
  unfold mbind at 1 2, Py_bind at 1 2. cbn [time_now set_stats]. cbv zeta.
  rewrite initialize_schema_run.
  rewrite try_bind. unfold logger at 1. run_norm.
  rewrite try_bind. unfold lift at 1.
  destruct (open_json world path) as [export_result|e]; [| reflexivity].
  rewrite try_bind.
  destruct (negb (default false (x_success export_result))); [reflexivity |].
  unfold mret at 1, Py_ret at 1. run_norm.
  rewrite try_bind. destruct (x_data export_result) as [project_data|]; [| reflexivity].
  unfold getitem at 1, mret at 1, Py_ret at 1. run_norm.
  rewrite try_bind, initialize_schema_run. run_norm.
  rewrite try_bind. unfold logger at 1. run_norm.
  rewrite try_bind.
  destruct (d_embedding_content project_data) as [embedding_content|]; [| reflexivity].
  unfold getitem at 1, mret at 1, Py_ret at 1. run_norm.
  rewrite try_bind.
  destruct (_generate_embeddings embedding_content _) as [[embeddings_map|e] s2];
    [| reflexivity].
  rewrite try_bind. unfold logger at 1. run_norm.
  rewrite try_bind. destruct (d_nodes project_data) as [nodes|]; [| reflexivity].
  unfold getitem at 1, mret at 1, Py_ret at 1. run_norm.
  rewrite try_bind.
  destruct (_ingest_nodes nodes embeddings_map _) as [[[]|e] s3]; [| reflexivity].
  rewrite try_bind. unfold logger at 1. run_norm.
  rewrite try_bind. destruct (d_edges project_data) as [edges|]; [| reflexivity].
  unfold getitem at 1, mret at 1, Py_ret at 1. run_norm.
  rewrite try_bind.
  destruct (_ingest_edges edges _) as [[[]|e] s4]; [| reflexivity].
  rewrite try_bind. unfold logger at 1. run_norm.
  rewrite try_bind. unfold getitem at 1, mret at 1, Py_ret at 1. run_norm.
  rewrite try_bind.
  destruct (_compute_semantic_relationships nodes embeddings_map _) as [[[]|e] s5];
    reflexivity.
Qed.

(** A loop over items returns exactly when all of them are dicts. *)
Lemma loop_result_Ok (items : list json) :
  loop_result items = Ok tt -> leading_dicts items = items /\ forallb is_dict items = true.
Proof.
  unfold loop_result. destruct (first_non_dict items) eqn:Hfirst; [done |]. intros _.
  split; [by apply leading_dicts_all | by apply leading_dicts_forallb].
Qed.

(** How a run ends: with the statistics of what it did, or in the handler
    of [ingest_project]. *)
Lemma ingest_project_ends world path (s : State) :
  match fst (ingest_project world path s) with
  | Ok g =>
      stats (snd (ingest_project world path s)) = g
      /\ exists export_result project_data embedding_content nodes edges,
           open_json world path = Ok export_result
           /\ x_success export_result = Some true
           /\ x_data export_result = Some project_data
           /\ d_embedding_content project_data = Some embedding_content
           /\ d_nodes project_data = Some nodes
           /\ d_edges project_data = Some edges
           /\ forallb is_dict nodes = true
           /\ forallb is_dict edges = true
           /\ g = set_end_time (time_time world (S (time_calls s)))
                    (counters_add (accepted node_request_of nodes)
                       (accepted edge_request_of edges)
                       (Z.of_nat (leading_complete embedding_content))
                       (rejected node_request_of nodes + rejected edge_request_of edges)
                       (set_start_time (time_time world (time_calls s)) (stats s)))
  | Raise e =>
      (exists older,
         log (snd (ingest_project world path s)) = (ERROR, MsgIngestionFailed e) :: older)
      /\ errors (stats s) < errors (stats (snd (ingest_project world path s)))
  end.
Proof.
  rewrite ingest_project_unfold. cbv zeta.
  destruct (open_json world path) as [export_result|e];
    [| split; [by eexists | simpl; lia]].
  destruct (x_success export_result) as [[|]|] eqn:Hsuccess; simpl negb; cbv iota;
    [| split; [by eexists | simpl; lia] ..].
  destruct (x_data export_result) as [project_data|] eqn:Hdata;
    [| split; [by eexists | simpl; lia]].
  rewrite initialize_schema_run. run_norm.
  destruct (d_embedding_content project_data) as [embedding_content|] eqn:Hcontent;
    [| split; [by eexists | simpl; lia]].
  match goal with |- context [_generate_embeddings ?c ?st] =>
    destruct (generate_embeddings_run c st) as (embeddings_map & record & -> & _) end.
  run_norm.
  destruct (d_nodes project_data) as [nodes|] eqn:Hnodes;
    [| split; [by eexists | simpl; lia]].
  match goal with |- context [_ingest_nodes ?n ?m ?st] =>
    destruct (ingest_nodes_run m n st) as (new3 & -> & _) end.
  run_norm.
  pose proof (accepted_bounds node_request_of (leading_dicts nodes)).
  pose proof (rejected_bounds node_request_of (leading_dicts nodes)).
  destruct (loop_result nodes) as [[]|e3] eqn:Hloop3;
    [| split; [by eexists | simpl; lia]].
  apply loop_result_Ok in Hloop3 as [Hlead3 Hdicts3]. rewrite Hlead3 in *.
  destruct (d_edges project_data) as [edges|] eqn:Hedges;
    [| split; [by eexists | simpl; lia]].
  match goal with |- context [_ingest_edges ?n ?st] =>
    destruct (ingest_edges_run n st) as (new4 & -> & _) end.
  run_norm.
  pose proof (accepted_bounds edge_request_of (leading_dicts edges)).
  pose proof (rejected_bounds edge_request_of (leading_dicts edges)).
  destruct (loop_result edges) as [[]|e4] eqn:Hloop4;
    [| split; [by eexists | simpl; lia]].
  apply loop_result_Ok in Hloop4 as [Hlead4 Hdicts4]. rewrite Hlead4 in *.
  unfold _compute_semantic_relationships.
  match goal with |- context [compute_semantic_relationships_at ?t ?n ?m ?st] =>
    destruct (compute_semantic_relationships_outcome t n m st)
      as (new5 & _ & Hstats & _ & Htime & _);
    destruct (compute_semantic_relationships_at t n m st) as [[[]|e] s5]
  end; simpl in Hstats, Htime.
  - unfold run_completed. simpl. rewrite Hstats, Htime. split; [reflexivity |].
    exists export_result, project_data, embedding_content, nodes, edges.
    repeat split; try done.
    f_equal. rewrite !counters_add_add. f_equal; lia.
  - split; [by eexists |]. simpl. rewrite Hstats. simpl. lia.
Qed.

(** ** Requests of the similarity pass *)

Lemma edge_requests_length (new : list (Level * Msg)) :
  (length (edge_requests new) <= length new)%nat.
Proof.
  unfold edge_requests. pose proof (accepted_bounds as_edge_request (rev new)) as Hb.
  unfold accepted in Hb. rewrite length_rev in Hb. lia.
Qed.

Lemma pair_records_all_requests (ens : list EmbeddedNode) (new : list (Level * Msg)) :
  Forall (pair_record ens) new -> length (edge_requests new) = length new.
Proof.
  induction 1 as [|r new (node1 & node2 & _ & -> & _) _ IH]; [done |].
  change (length (edge_requests ([similar_record node1 node2] ++ new)) = S (length new)).
  rewrite edge_requests_app, length_app, IH. simpl. lia.
Qed.

(** The inner loop writes at most one record for each item, the two loops
    together at most one for each pair. *)
Lemma similarity_row_bound t node1 rest created (s : State) :
  exists new,
    log (snd (for_fold rest created (similarity_pair t node1) s)) = new ++ log s
    /\ (length new <= length rest)%nat.
Proof.
  revert created s. induction rest as [|node2 rest IH]; intros created s.
  - exists []. split; [done | simpl; lia].
  - simpl for_fold. unfold mbind, Py_bind. rewrite similarity_pair_step.
    assert (Hskip : forall c, exists new,
      log (snd (for_fold rest c (similarity_pair t node1) s)) = new ++ log s
      /\ (length new <= length (node2 :: rest))%nat).
    { intros c. destruct (IH c s) as (new & Hlog & Hlen).
      exists new. split; [done | simpl; lia]. }
    destruct (_should_compute_similarity _ _) as [[|]|e];
      [| apply Hskip | exists []; split; [done | simpl; lia]].
    destruct (_cosine_similarity _ _) as [similarity|e];
      [| exists []; split; [done | simpl; lia]].
    destruct (f_gtb similarity t); [| apply Hskip].
    destruct (IH (created + 1) (push (similar_record node1 node2) s))
      as (new & Hlog & Hlen).
    exists (new ++ [similar_record node1 node2]). rewrite Hlog, <- app_assoc.
    split; [done |]. rewrite length_app. simpl. lia.
Qed.

Lemma similarity_pairs_bound t ens created (s : State) :
  exists new,
    log (snd (similarity_pairs t ens created s)) = new ++ log s
    /\ (2 * length new <= length ens * (length ens - 1))%nat.
Proof.
  revert created s. induction ens as [|node1 rest IH]; intros created s.
  - exists []. split; [done | simpl; lia].
  - simpl similarity_pairs. unfold mbind, Py_bind.
    destruct (similarity_row_bound t node1 rest created s) as (new1 & Hlog1 & Hlen1).
    destruct (for_fold rest created (similarity_pair t node1) s) as [[c1|e] s1];
      simpl in Hlog1.
    + destruct (IH c1 s1) as (new2 & Hlog2 & Hlen2).
      exists (new2 ++ new1). rewrite Hlog2, Hlog1, app_assoc. split; [done |].
      rewrite length_app, length_cons. nia.
    + exists new1. split; [done |]. rewrite length_cons. nia.
Qed.

(** The pass as a whole: what it adds to the log, oldest record last. *)
Lemma compute_semantic_relationships_log t nodes embeddings_map (s : State) :
  exists pairs,
    (2 * length pairs <= length nodes * (length nodes - 1))%nat
    /\ length (edge_requests pairs) = length pairs
    /\ match fst (compute_semantic_relationships_at t nodes embeddings_map s) with
       | Ok _ =>
           log (snd (compute_semantic_relationships_at t nodes embeddings_map s))
           = ((INFO, MsgCreatedSimilarities (Z.of_nat (length pairs)))
              :: pairs ++ [(INFO, MsgComputingSimilarity)]) ++ log s
       | Raise _ =>
           log (snd (compute_semantic_relationships_at t nodes embeddings_map s))
           = (pairs ++ [(INFO, MsgComputingSimilarity)]) ++ log s
       end.
Proof.
  rewrite compute_semantic_relationships_at_unfold.
  destruct (collect_loop_run embeddings_map nodes []) as (r & Hrun & Hok).
  rewrite Hrun. destruct r as [ens|e].
  2:{ exists []. split; [simpl; lia | done]. }
  destruct (Hok ens eq_refl) as (picked & added & -> & Hsub & Hall). simpl app.
  assert (Hlen : (length added <= length nodes)%nat).
  { apply Forall2_length in Hall. apply sublist_length in Hsub. lia. }
  pose proof (similarity_pairs_outcome t added 0 (push (INFO, MsgComputingSimilarity) s))
    as (new & Hlog & _ & _ & _ & Hrec & Hres).
  destruct (similarity_pairs_bound t added 0 (push (INFO, MsgComputingSimilarity) s))
    as (new' & Hlog' & Hbound).
  assert (new' = new) as ->.
  { rewrite Hlog in Hlog'. by apply app_inv_tail in Hlog'. }
  exists new. split; [nia |]. split; [by eapply pair_records_all_requests |].
  destruct (similarity_pairs t added 0 _) as [[created|e] s2]; simpl in *.
  - destruct Hres as [[= ->] | [e [=]]]. rewrite Hlog, Z.add_0_l.
    by rewrite <- app_assoc.
  - rewrite Hlog. by rewrite <- app_assoc.
Qed.

(** ** The similarity classes *)

Lemma layer_property_disjoint (type : string) :
  type ∈ layer_types -> type ∈ property_types -> False.
Proof.
  unfold layer_types, property_types. rewrite !elem_of_cons, !elem_of_nil.
  intros Hlayer [-> | [-> | []]];
    repeat (destruct Hlayer as [Hlayer | Hlayer]; [discriminate Hlayer |]); done.
Qed.

Lemma schema_records_requests (response : Result (list json)) :
  node_requests (rev (schema_records response)) = []
  /\ edge_requests (rev (schema_records response)) = [].
Proof. destruct response as [[|c response]|e]; split; reflexivity. Qed.

(** ** The further properties *)

(** X1.  Schema initialization is never fatal: whatever the client does
    on [helix.init()] (it answers, with items or with none, or raises),
    [_initialize_schema] returns normally and changes no statistic.  It
    writes a WARNING record, and then nothing else, exactly when the client
    raises or answers with an empty list.  On any other answer it writes the
    INFO record of the connection and the debug records of the schema: the
    answer [[None]] of a request that failed is taken for a connection, and
    no warning is written. *)
Theorem initialize_schema_never_fatal world (s : State) :
  let run := _initialize_schema world s in
  let new := emitted_by (_initialize_schema world) s in
  fst run = Ok tt
  /\ stats (snd run) = stats s
  /\ rev new = schema_records (helix_query_init world)
  /\ (existsb is_warning new = true
      <-> forall c rest, helix_query_init world <> Ok (c :: rest))
  /\ (existsb is_warning new = true -> length new = 1%nat)
  /\ (forall rest, helix_query_init world = Ok (JNull :: rest) ->
        existsb is_warning new = false /\ (INFO, MsgInitialized JNull) ∈ new).
Proof.
  cbv zeta.
  rewrite (emitted_by_new (_initialize_schema world) s
             (rev (schema_records (helix_query_init world))))
    by (by rewrite initialize_schema_run).
  rewrite initialize_schema_run, rev_involutive.
  destruct (helix_query_init world) as [[|c response]|e];
    (split; [done | split; [done | split; [done | split; [split | split]]]]);
    first [ done
          | intros Hw; by vm_compute in Hw
          | intros Hno; exfalso; by apply (Hno c response)
          | intros rest [= -> ->]; split; [reflexivity |];
            apply elem_of_rev; left ].
Qed.

(** X2.  The HelixDB server has no influence on a run: with any other answer
    of the server to [helix.init()], [ingest_project] returns the same
    statistics or raises the same exception, and leaves the same counters. *)
Theorem ingest_project_result_ignores_helix world (response : Result (list json))
    (path : string) (s : State) :
  fst (ingest_project (with_helix world response) path s)
  = fst (ingest_project world path s)
  /\ stats (snd (ingest_project (with_helix world response) path s))
     = stats (snd (ingest_project world path s)).
Proof.
  assert (Hs : shifted 0 0 0 0 s s).
  { split; [by rewrite counters_add_0 | done]. }
  destruct (sim_ingest_project_with_helix 0 0 0 0 world response path s s Hs)
    as [(Hst & _ & _) Hres].
  rewrite counters_add_0 in Hst. split; [| done].
  destruct (fst (ingest_project world path s)) as [g1|e1],
           (fst (ingest_project (with_helix world response) path s)) as [g2|e2];
    try done.
  - by rewrite Hres, counters_add_0.
  - by rewrite Hres.
Qed.

(** X3.  When every content item has its four keys, [_generate_embeddings]
    returns a map whose keys are exactly the keys [id_field] of the items;
    the entry of a key is built from the last item filed under it, with the
    vector drawn for that item; the counter rises by the number of items,
    which the size of the map (what the log reports) does not exceed. *)
Theorem generate_embeddings_files_every_item (items : list ContentItem) (s : State) :
  Forall (fun c => is_Some (content_item_keys c)) items ->
  exists embeddings_map,
    fst (_generate_embeddings items s) = Ok embeddings_map
    /\ (forall key, is_Some (embeddings_map !! key)
                    <-> exists c, c ∈ items /\ embed_key_of c = Some key)
    /\ (forall i c key,
          items !! i = Some c -> embed_key_of c = Some key ->
          (forall j c', (i < j)%nat -> items !! j = Some c' -> embed_key_of c' <> Some key) ->
          embeddings_map !! key = embedding_of (rand_calls s + i) c)
    /\ embeddings_generated (stats (snd (_generate_embeddings items s)))
       = embeddings_generated (stats s) + Z.of_nat (length items)
    /\ (size embeddings_map <= length items)%nat
    /\ log (snd (_generate_embeddings items s))
       = (INFO, MsgGenerated (size embeddings_map)) :: log s.
Proof.
  intros Hall.
  assert (Hlead : leading_complete items = length items).
  { induction Hall as [|c items [keys Hc] _ IH]; [done |]. simpl. by rewrite Hc, IH. }
  destruct (generate_embeddings_run items s)
    as (embeddings_map & record & -> & [(-> & -> & _) | (_ & _ & Hlt)]); [| lia].
  eexists. split; [reflexivity |]. repeat split.
  - intros Hsome. apply embedded_lookup_is_Some in Hsome as [Hempty | ?]; [| done | done].
    rewrite lookup_empty in Hempty. by destruct Hempty.
  - intros Hc. apply embedded_lookup_is_Some; [done | by right].
  - intros i c key Hi Hkey Hlast. by apply embedded_lookup_last.
  - simpl. rewrite Hlead. lia.
  - pose proof (embedded_size (rand_calls s) items ∅) as Hsize.
    rewrite map_size_empty in Hsize. lia.
Qed.

(** X4.  A failure of embedding generation is not an error of the run:
    [_generate_embeddings] never raises and never touches [errors]; it
    counts and draws a vector for each item before the first one that lacks
    a key, writes exactly one record, and returns the empty map unless every
    item was complete. *)
Theorem generate_embeddings_never_raises (items : list ContentItem) (s : State) :
  let run := _generate_embeddings items s in
  exists embeddings_map,
    fst run = Ok embeddings_map
    /\ errors (stats (snd run)) = errors (stats s)
    /\ embeddings_generated (stats (snd run))
       = embeddings_generated (stats s) + Z.of_nat (leading_complete items)
    /\ rand_calls (snd run) = (rand_calls s + leading_complete items)%nat
    /\ length (emitted_by (_generate_embeddings items) s) = 1%nat
    /\ (embeddings_map = ∅ \/ Forall (fun c => is_Some (content_item_keys c)) items).
Proof.
  cbv zeta.
  destruct (generate_embeddings_run items s) as (embeddings_map & record & Hrun & Hcase).
  rewrite (emitted_by_new (_generate_embeddings items) s [record])
    by (by rewrite Hrun).
  rewrite Hrun. exists embeddings_map. repeat split; try done; try (simpl; lia).
  destruct Hcase as [(_ & _ & Hlead) | (-> & _)]; [right | by left].
  clear Hrun. induction items as [|c items IH]; [constructor |].
  simpl in Hlead. destruct (content_item_keys c) eqn:Hc; [| done].
  constructor; [by eexists | apply IH; lia].
Qed.

Lemma node_request_of_well_formed (node : json) :
  is_Some (node_request_of node) <-> well_formed_node node.
Proof.
  unfold node_request_of, node_request, well_formed_node, py_getitem. split.
  - destruct node as [| | | | | |fields]; try by intros [? [=]].
    destruct (assoc_get "id" fields) as [node_id|] eqn:Hid; [| by intros [? [=]]].
    destruct (assoc_get "type" fields) as [node_type|] eqn:Htype; [| by intros [? [=]]].
    cbn [json_get]. intros Hsome. exists fields, node_id, node_type.
    repeat split; try done.
    + by destruct node_type; try done; destruct Hsome as [? [=]].
    + destruct node_type; simpl in Hsome; try (by destruct Hsome as [? [=]]);
        by destruct (default (JObj []) (assoc_get "properties" fields));
          try done; destruct Hsome as [? [=]].
  - intros (fields & node_id & node_type & -> & -> & -> & Hhash & Hdict). cbn [json_get].
    destruct (default (JObj []) (assoc_get "properties" fields)); try done.
    by destruct node_type; try done; eexists.
Qed.

Lemma node_failure_of_skipped (fields : list (string * json)) :
  node_request_of (JObj fields) = None -> is_Some (node_failure_of (JObj fields)).
Proof.
  unfold node_request_of, node_failure_of.
  destruct (node_request (JObj fields)); [done | by eexists].
Qed.

(** X5.  Node materialization goes through the input nodes in order, up to
    the first item that is not a dict.  A node dict with [id] and [type],
    the type being hashable, whose [properties], if any, is a dict, is
    requested from the store and counted in [nodes_created]; every other
    node dict is skipped, with an ERROR record, and counted in [errors]; the
    other two counters are left alone.  An item that is not a dict makes the
    phase raise [AttributeError], with nothing logged or counted for it;
    without one it returns. *)
Theorem ingest_nodes_counts_every_node (nodes : list json)
    (embeddings_map : gmap string Embedding) (s : State) :
  let run := _ingest_nodes nodes embeddings_map s in
  let new := emitted_by (_ingest_nodes nodes embeddings_map) s in
  let dicts := leading_dicts nodes in
  fst run = loop_result nodes
  /\ node_requests new = omap node_request_of dicts
  /\ node_failures new = omap node_failure_of dicts
  /\ edge_requests new = []
  /\ nodes_created (stats (snd run))
     = nodes_created (stats s) + accepted node_request_of dicts
  /\ errors (stats (snd run)) = errors (stats s) + rejected node_request_of dicts
  /\ edges_created (stats (snd run)) = edges_created (stats s)
  /\ embeddings_generated (stats (snd run)) = embeddings_generated (stats s)
  /\ accepted node_request_of dicts + rejected node_request_of dicts
     = Z.of_nat (length dicts)
  /\ (forall node, is_Some (node_request_of node) <-> well_formed_node node)
  /\ (forall fields, node_request_of (JObj fields) = None ->
                     is_Some (node_failure_of (JObj fields)))
  /\ (forallb is_dict nodes = true -> dicts = nodes).
Proof.
  cbv zeta.
  destruct (ingest_nodes_run embeddings_map nodes s)
    as (new & Hrun & Hnodes & Hfail & Hedges).
  rewrite (emitted_by_new (_ingest_nodes nodes embeddings_map) s new)
    by (by rewrite Hrun).
  rewrite Hrun. simpl. repeat split; try done; try lia.
  - unfold rejected. lia.
  - apply node_request_of_well_formed.
  - apply node_request_of_well_formed.
  - apply node_failure_of_skipped.
  - intros Hall. by apply leading_dicts_all, leading_dicts_forallb.
Qed.

(** X6.  The similarity pass changes no statistic (the edges it requests are
    not counted in [edges_created]), and when it returns, the number in its
    last record is the number of edges it requested. *)
Theorem similarity_pass_counts_nothing (t : npfloat) (nodes : list json)
    (embeddings_map : gmap string Embedding) (s : State) :
  let run := compute_semantic_relationships_at t nodes embeddings_map s in
  stats (snd run) = stats s
  /\ (is_ok (fst run) = true ->
      head (log (snd run))
      = Some (INFO, MsgCreatedSimilarities
                      (Z.of_nat (length (similarity_edges t nodes embeddings_map s))))).
Proof.
  cbv zeta. split.
  - by destruct (compute_semantic_relationships_outcome t nodes embeddings_map s)
      as (new & _ & Hst & _).
  - destruct (compute_semantic_relationships_log t nodes embeddings_map s)
      as (pairs & _ & Hlen & Hlog).
    unfold similarity_edges.
    destruct (fst (compute_semantic_relationships_at t nodes embeddings_map s)); [| done].
    intros _. rewrite (emitted_by_new _ _ _ Hlog), Hlog. simpl. do 4 f_equal.
    change (length pairs
            = length (edge_requests ([(INFO, MsgCreatedSimilarities (Z.of_nat (length pairs)))]
                                     ++ pairs ++ [(INFO, MsgComputingSimilarity)]))).
    rewrite !edge_requests_app, !length_app, Hlen. simpl. lia.
Qed.


Lemma should_compute_similarity_names (type1 type2 : string) :
  _should_compute_similarity (JStr type1) (JStr type2)
  = Ok (bool_decide (type1 = type2)
        || bool_decide (type1 ∈ layer_types) && bool_decide (type2 ∈ layer_types)
        || bool_decide (type1 ∈ property_types) && bool_decide (type2 ∈ property_types)).
Proof.
  unfold _should_compute_similarity, both_in, in_types. cbn [py_eq].
  repeat case_bool_decide; reflexivity.
Qed.

(** X8.  [_should_compute_similarity] is an equivalence relation on type
    names: reflexive, symmetric (so the order of two nodes in the input does
    not decide whether they are compared) and transitive. *)
Theorem should_compute_similarity_is_equivalence :
  (forall type1 : string, _should_compute_similarity (JStr type1) (JStr type1) = Ok true)
  /\ (forall type1 type2 : string,
        _should_compute_similarity (JStr type1) (JStr type2)
        = _should_compute_similarity (JStr type2) (JStr type1))
  /\ (forall type1 type2 type3 : string,
        _should_compute_similarity (JStr type1) (JStr type2) = Ok true ->
        _should_compute_similarity (JStr type2) (JStr type3) = Ok true ->
        _should_compute_similarity (JStr type1) (JStr type3) = Ok true).
Proof.
  split; [| split].
  - intros type1. rewrite should_compute_similarity_names.
    by rewrite bool_decide_eq_true_2.
  - intros type1 type2. rewrite !should_compute_similarity_names. f_equal.
    rewrite (andb_comm (bool_decide (type1 ∈ layer_types))),
            (andb_comm (bool_decide (type1 ∈ property_types))).
    do 2 f_equal. apply bool_decide_ext. by split.
  - intros type1 type2 type3. rewrite !should_compute_similarity_names.
    intros [= H12] [= H23]. f_equal.
    repeat case_bool_decide; simpl in *; try done; subst; try done;
      by destruct (layer_property_disjoint type2).
Qed.

(** X9.  A document that cannot be read, that is not marked successful, or
    that has no [data] is refused before any phase starts: the run raises
    (the exception of the reader, [ValueError] with the message of the
    export, or [KeyError]), counts exactly one error, writes the record of the
    failure after the one of the loading, and draws no vector. *)
Theorem ingest_project_refuses_bad_document world (path : string) (s : State) (e : exn) :
  (open_json world path = Raise e
   \/ exists export_result,
        open_json world path = Ok export_result
        /\ ((x_success export_result <> Some true
             /\ e = ValueError ("Export failed: " +:+
                                default "Unknown error" (x_message export_result)))
            \/ (x_success export_result = Some true
                /\ x_data export_result = None /\ e = KeyError "data"))) ->
  let run := ingest_project world path s in
  fst run = Raise e
  /\ emitted_by (ingest_project world path) s
     = [(ERROR, MsgIngestionFailed e); (INFO, MsgLoading path)]
  /\ stats (snd run)
     = incr_errors (set_start_time (time_time world (time_calls s)) (stats s))
  /\ rand_calls (snd run) = rand_calls s.
Proof.
  intros Hbad. cbv zeta.
  assert (Hrun : ingest_project world path s
                 = run_failed e (push (INFO, MsgLoading path) (run_started world s))).
  { rewrite ingest_project_unfold. cbv zeta.
    destruct Hbad as [-> | (export_result & -> & [[Hno ->] | (Hyes & Hdata & ->)])].
    - reflexivity.
    - by destruct (x_success export_result) as [[|]|].
    - by rewrite Hyes, Hdata. }
  rewrite (emitted_by_new (ingest_project world path) s
             [(ERROR, MsgIngestionFailed e); (INFO, MsgLoading path)])
    by (by rewrite Hrun).
  by rewrite Hrun.
Qed.

(** X10.  A run that returns has read a document marked successful, and its
    statistics say what it did: each counter rose by the number of nodes and
    of edges requested, of content items processed before the first
    incomplete one, and of nodes and edges skipped.  Neither a failure of
    embedding generation nor the edges of the similarity pass are counted. *)
Theorem ingest_project_reports_what_it_did world (path : string) (s : State)
    (g : GraphStats) :
  fst (ingest_project world path s) = Ok g ->
  exists export_result project_data embedding_content nodes edges,
    open_json world path = Ok export_result
    /\ x_success export_result = Some true
    /\ x_data export_result = Some project_data
    /\ d_embedding_content project_data = Some embedding_content
    /\ d_nodes project_data = Some nodes
    /\ d_edges project_data = Some edges
    /\ nodes_created g = nodes_created (stats s) + accepted node_request_of nodes
    /\ edges_created g = edges_created (stats s) + accepted edge_request_of edges
    /\ embeddings_generated g
       = embeddings_generated (stats s) + Z.of_nat (leading_complete embedding_content)
    /\ errors g
       = errors (stats s) + rejected node_request_of nodes + rejected edge_request_of edges.
Proof.
  intros Hok. pose proof (ingest_project_ends world path s) as Hend.
  rewrite Hok in Hend.
  destruct Hend as (_ & export_result & project_data & embedding_content & nodes & edges
                    & ? & ? & ? & ? & ? & ? & _ & _ & ->).
  exists export_result, project_data, embedding_content, nodes, edges.
  repeat split; try done; simpl; lia.
Qed.

(** X11.  A run never fails silently: when [ingest_project] raises, the last
    record of the log is the ERROR record of the failure, with the exception
    that is raised, and [errors] is higher than before the run. *)
Theorem ingest_project_failure_is_counted_and_logged world (path : string) (s : State)
    (e : exn) :
  fst (ingest_project world path s) = Raise e ->
  head (log (snd (ingest_project world path s))) = Some (ERROR, MsgIngestionFailed e)
  /\ errors (stats s) < errors (stats (snd (ingest_project world path s))).
Proof.
  intros Hraise. pose proof (ingest_project_ends world path s) as Hend.
  rewrite Hraise in Hend. destruct Hend as [[older ->] Herrors]. by split.
Qed.

(** X12.  No counter ever goes down in a run of [ingest_project], whether it
    returns or raises. *)
Theorem ingest_project_counters_never_decrease world (path : string) (s : State) :
  let s' := snd (ingest_project world path s) in
  nodes_created (stats s) <= nodes_created (stats s')
  /\ edges_created (stats s) <= edges_created (stats s')
  /\ embeddings_generated (stats s) <= embeddings_generated (stats s')
  /\ errors (stats s) <= errors (stats s').
Proof. apply grows_ingest_project. Qed.

(** X13.  A run is not atomic: on a document that has [nodes] but no
    [edges], [ingest_project] raises only after nodes were requested from
    the store and counted.  It raises [KeyError] for [edges] when every node
    is a dict, all nodes having been gone through; when one is not, it
    raises the [AttributeError] of the first such item, the node dicts
    before it having been gone through.  The counters keep what was done,
    with one more error for the run. *)
Theorem ingest_project_without_edges_key world (path : string) (s : State)
    (export_result : ExportResult) (project_data : ProjectData)
    (embedding_content : list ContentItem) (nodes : list json) :
  open_json world path = Ok export_result ->
  x_success export_result = Some true ->
  x_data export_result = Some project_data ->
  d_embedding_content project_data = Some embedding_content ->
  d_nodes project_data = Some nodes ->
  d_edges project_data = None ->
  let run := ingest_project world path s in
  let dicts := leading_dicts nodes in
  fst run = Raise (match first_non_dict nodes with
                   | None => KeyError "edges"
                   | Some item => no_attribute item "get"
                   end)
  /\ node_requests (emitted_by (ingest_project world path) s) = omap node_request_of dicts
  /\ nodes_created (stats (snd run))
     = nodes_created (stats s) + accepted node_request_of dicts
  /\ embeddings_generated (stats (snd run))
     = embeddings_generated (stats s) + Z.of_nat (leading_complete embedding_content)
  /\ errors (stats (snd run)) = errors (stats s) + rejected node_request_of dicts + 1
  /\ (forallb is_dict nodes = true ->
      dicts = nodes /\ fst run = Raise (KeyError "edges")).
Proof.
  intros Hopen Hsuccess Hdata Hcontent Hnodes Hedges. cbv zeta.
  set (e := match first_non_dict nodes with
            | None => KeyError "edges"
            | Some item => no_attribute item "get"
            end).
  assert (Hrun : exists new,
    ingest_project world path s =
      (Raise e,
       {| stats := incr_errors
                     (counters_add (accepted node_request_of (leading_dicts nodes)) 0
                        (Z.of_nat (leading_complete embedding_content))
                        (rejected node_request_of (leading_dicts nodes))
                        (set_start_time (time_time world (time_calls s)) (stats s)));
          log := new ++ log s;
          rand_calls := (rand_calls s + leading_complete embedding_content)%nat;
          time_calls := S (time_calls s) |})
    /\ node_requests new = omap node_request_of (leading_dicts nodes)).
  { rewrite ingest_project_unfold. cbv zeta.
    rewrite Hopen, Hsuccess, Hdata, initialize_schema_run, Hcontent. simpl negb. cbv iota.
    run_norm.
    match goal with |- context [_generate_embeddings ?c ?st] =>
      destruct (generate_embeddings_run c st) as (embeddings_map & record & -> & Hrecord)
    end.
    rewrite Hnodes. run_norm.
    match goal with |- context [_ingest_nodes ?n ?m ?st] =>
      destruct (ingest_nodes_run m n st) as (new3 & -> & Hreq & _) end.
    unfold loop_result, e. destruct (first_non_dict nodes) as [item|].
    - run_norm.
      exists ([(ERROR, MsgIngestionFailed (no_attribute item "get"))]
              ++ new3
              ++ [(INFO, MsgIngestingNodes); record; (INFO, MsgGeneratingEmbeddings)]
              ++ rev (schema_records (helix_query_init world))
              ++ [(INFO, MsgLoading path)]).
      split.
      + unfold run_failed. simpl. do 2 f_equal.
        * f_equal. rewrite counters_add_add. f_equal; lia.
        * simpl. f_equal. rewrite <- app_assoc. simpl. by rewrite <- app_assoc.
      + rewrite !node_requests_app, Hreq.
        rewrite (proj1 (schema_records_requests (helix_query_init world))).
        destruct Hrecord as [(_ & -> & _) | (_ & [key ->] & _)]; cbn;
          by rewrite app_nil_r.
    - rewrite Hedges. run_norm.
      exists ([(ERROR, MsgIngestionFailed (KeyError "edges")); (INFO, MsgIngestingEdges)]
              ++ new3
              ++ [(INFO, MsgIngestingNodes); record; (INFO, MsgGeneratingEmbeddings)]
              ++ rev (schema_records (helix_query_init world))
              ++ [(INFO, MsgLoading path)]).
      split.
      + unfold run_failed. simpl. do 2 f_equal.
        * f_equal. rewrite counters_add_add. f_equal; lia.
        * simpl. rewrite <- app_assoc. simpl. by rewrite <- app_assoc.
      + rewrite !node_requests_app, Hreq.
        rewrite (proj1 (schema_records_requests (helix_query_init world))).
        destruct Hrecord as [(_ & -> & _) | (_ & [key ->] & _)]; cbn;
          by rewrite app_nil_r. }
  destruct Hrun as (new & Hrun & Hreq).
  rewrite (emitted_by_new (ingest_project world path) s new) by (by rewrite Hrun).
  rewrite Hrun. simpl. repeat split; try done; try lia.
  - by apply leading_dicts_all, leading_dicts_forallb.
  - unfold e. by rewrite (proj1 (leading_dicts_forallb nodes)).
Qed.

(** X14.  [ingest_ae_project_from_json] makes a new instance for each call,
    so the statistics it returns are those of the one run, whatever was
    ingested before: the numbers of nodes and edges requested, of content
    items processed, and of nodes and edges skipped. *)
Theorem ingest_ae_project_from_json_reports_one_run world (path : string) (s : State)
    (g : GraphStats) :
  fst (ingest_ae_project_from_json world path s) = Ok g ->
  exists export_result project_data embedding_content nodes edges,
    open_json world path = Ok export_result
    /\ x_data export_result = Some project_data
    /\ d_embedding_content project_data = Some embedding_content
    /\ d_nodes project_data = Some nodes
    /\ d_edges project_data = Some edges
    /\ nodes_created g = accepted node_request_of nodes
    /\ edges_created g = accepted edge_request_of edges
    /\ embeddings_generated g = Z.of_nat (leading_complete embedding_content)
    /\ errors g = rejected node_request_of nodes + rejected edge_request_of edges.
Proof.
  unfold ingest_ae_project_from_json, new_instance, mbind, Py_bind, set_stats.
  cbv beta iota. intros Hok.
  match type of Hok with fst (ingest_project _ _ ?s0) = _ =>
    pose proof (ingest_project_ends world path s0) as Hend end.
  rewrite Hok in Hend.
  destruct Hend as (_ & export_result & project_data & embedding_content & nodes & edges
                    & ? & ? & ? & ? & ? & ? & _ & _ & ->).
  exists export_result, project_data, embedding_content, nodes, edges.
  repeat split; try done; simpl; lia.
Qed.




(** ** Errors counted and errors logged *)

Lemma counted_errors_app (new old : list (Level * Msg)) :
  counted_errors (new ++ old) = counted_errors new + counted_errors old.
Proof. unfold counted_errors. rewrite List.filter_app, length_app. lia. Qed.

Lemma audited_quiet {A} (m : Py State A) :
  (forall s, log (snd (m s)) = log s /\ errors (stats (snd (m s))) = errors (stats s)) ->
  audited m.
Proof.
  intros Hq s. destruct (Hq s) as [Hlog Herrors]. exists [].
  split; [done |]. rewrite Herrors. unfold counted_errors. simpl. lia.
Qed.

Lemma audited_ret {A} (a : A) : audited (mret a).
Proof. by apply audited_quiet. Qed.

Lemma audited_raise {A} e : audited (raise (A:=A) e).
Proof. by apply audited_quiet. Qed.

Lemma audited_lift {A} (r : Result A) : audited (lift r).
Proof. by apply audited_quiet. Qed.

Lemma audited_getitem {A} key (field : option A) : audited (getitem key field).
Proof. destruct field; by apply audited_quiet. Qed.

Lemma audited_get_stats : audited get_stats.
Proof. by apply audited_quiet. Qed.

Lemma audited_random_rand : audited random_rand.
Proof. by apply audited_quiet. Qed.

Lemma audited_time_now world : audited (time_now world).
Proof. by apply audited_quiet. Qed.

Lemma audited_set_stats (f : GraphStats -> GraphStats) :
  (forall g, errors (f g) = errors g) -> audited (set_stats f).
Proof. intros Hf. apply audited_quiet. intros s. split; [done | apply Hf]. Qed.

Lemma audited_logger level msg :
  is_counted_error (level, msg) = false -> audited (logger level msg).
Proof.
  intros Hmsg s. exists [(level, msg)]. split; [done |].
  unfold counted_errors. cbn [List.filter]. rewrite Hmsg. simpl. lia.
Qed.

(** An ERROR record and its increment, in the two orders of the source. *)
Lemma audited_log_then_count msg :
  is_counted_error (ERROR, msg) = true ->
  audited (logger ERROR msg;; set_stats incr_errors).
Proof.
  intros Hmsg s. exists [(ERROR, msg)]. split; [done |].
  unfold counted_errors. cbn [List.filter]. rewrite Hmsg. simpl. lia.
Qed.

Lemma audited_count_then_log {A} msg e :
  is_counted_error (ERROR, msg) = true ->
  audited (set_stats incr_errors;; logger ERROR msg;; raise (A:=A) e).
Proof.
  intros Hmsg s. exists [(ERROR, msg)]. split; [done |].
  unfold counted_errors. cbn [List.filter]. rewrite Hmsg. simpl. lia.
Qed.

Lemma audited_cont (s s1 s2 : State) new1 new2 :
  log s1 = new1 ++ log s ->
  errors (stats s1) = errors (stats s) + counted_errors new1 ->
  log s2 = new2 ++ log s1 ->
  errors (stats s2) = errors (stats s1) + counted_errors new2 ->
  exists new,
    log s2 = new ++ log s /\ errors (stats s2) = errors (stats s) + counted_errors new.
Proof.
  intros Hlog1 He1 Hlog2 He2. exists (new2 ++ new1).
  rewrite Hlog2, Hlog1, app_assoc, counted_errors_app. split; [done | lia].
Qed.

Lemma audited_bind {A B} (m : Py State A) (f : A -> Py State B) :
  audited m -> (forall a, audited (f a)) -> audited (m ≫= f).
Proof.
  intros Hm Hf s. unfold mbind, Py_bind.
  destruct (Hm s) as (new1 & Hlog1 & He1).
  destruct (m s) as [[a|e] s1]; simpl in *; [| by exists new1].
  destruct (Hf a s1) as (new2 & Hlog2 & He2). by eapply audited_cont.
Qed.

Lemma audited_try {A} (m : Py State A) (h : exn -> Py State A) :
  audited m -> (forall e, audited (h e)) -> audited (try_except m h).
Proof.
  intros Hm Hh s. unfold try_except.
  destruct (Hm s) as (new1 & Hlog1 & He1).
  destruct (m s) as [[a|e] s1]; simpl in *; [by exists new1 |].
  destruct (Hh e s1) as (new2 & Hlog2 & He2). by eapply audited_cont.
Qed.

Lemma audited_for_each {A} (items : list A) (body : A -> Py State unit) :
  (forall x, audited (body x)) -> audited (for_each items body).
Proof.
  intros Hbody. induction items as [|x items IH]; simpl.
  - apply audited_ret.
  - apply audited_bind; [apply Hbody | intros; apply IH].
Qed.

Lemma audited_for_fold {A B} (items : list A) (acc : B) (body : B -> A -> Py State B) :
  (forall acc x, audited (body acc x)) -> audited (for_fold items acc body).
Proof.
  intros Hbody. revert acc. induction items as [|x items IH]; intros acc; simpl.
  - apply audited_ret.
  - apply audited_bind; [apply Hbody | intros; apply IH].
Qed.

Ltac audit_step :=
  first
    [ apply audited_ret | apply audited_raise | apply audited_lift | apply audited_getitem
    | apply audited_get_stats | apply audited_random_rand | apply audited_time_now
    | apply audited_set_stats; reflexivity
    | apply audited_logger; reflexivity
    | apply audited_log_then_count; reflexivity
    | apply audited_count_then_log; reflexivity
    | apply audited_try; [| intros ?]
    | apply audited_bind; [| intros ?] ].

Lemma audited_initialize_schema world : audited (_initialize_schema world).
Proof.
  unfold _initialize_schema. apply audited_try; [| intros e; audit_step].
  apply audited_bind; [audit_step | intros response].
  apply audited_bind; [destruct response; audit_step | intros c].
  apply audited_bind; [audit_step | intros _].
  apply audited_bind; [| intros _]; apply audited_for_each; intros [? ?]; audit_step.
Qed.

Lemma audited_generate_embeddings items : audited (_generate_embeddings items).
Proof.
  unfold _generate_embeddings. apply audited_try; [| intros e; repeat audit_step].
  apply audited_bind; [| intros ?; repeat audit_step].
  apply audited_for_fold. intros acc c. unfold embed_content_item. repeat audit_step.
Qed.

Lemma audited_ingest_nodes nodes embeddings_map :
  audited (_ingest_nodes nodes embeddings_map).
Proof.
  apply audited_for_each. intros node. unfold ingest_node, _create_helix_node.
  apply audited_try; [| intros e; repeat audit_step].
  repeat audit_step; try (destruct (decide _); audit_step).
Qed.

Lemma audited_ingest_edges edges : audited (_ingest_edges edges).
Proof.
  apply audited_for_each. intros edge. unfold ingest_edge, _create_helix_edge.
  apply audited_try; [| intros e; repeat audit_step].
  repeat audit_step; try (destruct (decide _); audit_step).
Qed.

Lemma audited_compute_semantic_relationships t nodes embeddings_map :
  audited (compute_semantic_relationships_at t nodes embeddings_map).
Proof.
  unfold compute_semantic_relationships_at.
  apply audited_bind; [audit_step | intros _].
  apply audited_bind; [| intros ens].
  { apply audited_for_fold. intros acc node. unfold collect_embedded_node.
    apply audited_bind; [audit_step | intros node_id].
    destruct (embeddings_map !! _); repeat audit_step. }
  apply audited_bind; [| intros ?; audit_step].
  generalize 0. induction ens as [|node1 rest IH]; intros created; simpl.
  - audit_step.
  - apply audited_bind; [| intros ?; apply IH].
    apply audited_for_fold. intros acc node2. unfold similarity_pair, _create_helix_edge.
    apply audited_bind; [audit_step | intros should].
    destruct should; [| audit_step].
    apply audited_bind; [audit_step | intros similarity].
    destruct (f_gtb _ _); repeat audit_step.
Qed.

Lemma audited_ingest_project world path : audited (ingest_project world path).
Proof.
  unfold ingest_project.
  apply audited_bind; [audit_step | intros t].
  apply audited_bind; [audit_step | intros _].
  apply audited_try; [| intros e; apply audited_count_then_log; reflexivity].
  repeat (apply audited_bind;
    [ first [ apply audited_initialize_schema | apply audited_generate_embeddings
            | apply audited_ingest_nodes | apply audited_ingest_edges
            | apply audited_compute_semantic_relationships
            | destruct (negb _); apply audited_raise || apply audited_ret
            | audit_step ]
    | intros ? ]).
  audit_step.
Qed.

(** X28.  Errors counted are errors logged: a run of [ingest_project] raises
    [errors] by exactly the number of ERROR records it writes, the record of
    a failed embedding generation excepted (that failure is logged and not
    counted). *)
Theorem every_counted_error_is_logged world (path : string) (s : State) :
  errors (stats (snd (ingest_project world path s)))
  = errors (stats s) + counted_errors (emitted_by (ingest_project world path) s).
Proof.
  destruct (audited_ingest_project world path s) as (new & Hlog & Herrors).
  by rewrite (emitted_by_new _ _ _ Hlog).
Qed.

End IngestionFacts.

(** * Cosine similarity over the reals

    With exact arithmetic in place of floating point, [np.dot] the sum of
    the products and [np.linalg.norm] the Euclidean norm. *)
Section RealSimilarity.
Import Ingestion.

Lemma real_dot_comm (a b : list R) : RealNumpy.dot a b = RealNumpy.dot b a.
Proof.
  revert b. induction a as [|x a IH]; intros [|y b]; simpl; try reflexivity.
  rewrite IH. lra.
Qed.

(** X16.  Over the reals, [_cosine_similarity] is symmetric: the pass, which
    compares a pair of nodes once, in the order of the input, would find the
    same similarity in the other order. *)
Theorem cosine_similarity_real_symmetric (a b : list R) :
  _cosine_similarity (H:=RealNumpy.numpy) a b
  = _cosine_similarity (H:=RealNumpy.numpy) b a.
Proof.
  unfold _cosine_similarity. simpl.
  destruct (decide (length a = length b)) as [Hab|Hab],
           (decide (length b = length a)) as [Hba|Hba]; try done; try congruence.
  rewrite (real_dot_comm a b), (Rmult_comm (RealNumpy.norm a)).
  by destruct (Req_dec_T (RealNumpy.norm a) 0), (Req_dec_T (RealNumpy.norm b) 0).
Qed.

End RealSimilarity.

(** * The claims at sample inputs *)
Section IngestionSamples.
Import Floats.
Import Ingestion Samples.
#[local] Existing Instance Float64.numpy.
#[local] Existing Instance Interpreter.pystr.

Lemma real_order : NumpyOrder (H:=RealNumpy.numpy).
Proof.
  intros x t1 t2. simpl.
  destruct (Rle_dec t1 t2), (Rgt_dec x t2), (Rgt_dec x t1); try done. lra.
Qed.



(** C5 fails as stated: an effect and a keyframe are of no common class and
    the similarity pass leaves them alone, yet the run requests a
    [similar_name] edge between them, for the input edge of type
    [SIMILAR_NAME] that edge materialization copies. *)
Lemma similar_name_edge_between_unrelated_types :
  let run := ingest_project (world_of (export_of unrelated_pair)) "project.json" __init__ in
  is_ok (fst run) = true
  /\ node_requests (log (snd run))
     = [("ae_effect", JStr "effect_glow"); ("ae_keyframe", JStr "keyframe_1")]
  /\ edge_requests (log (snd run))
     = [("similar_name", JStr "effect_glow", JStr "keyframe_1")]
  /\ edges_created (stats (snd run)) = 1
  /\ errors (stats (snd run)) = 0
  /\ ~ same_similarity_class (JStr "Effect") (JStr "Keyframe").
Proof.
  cbv zeta. repeat split; try (vm_compute; reflexivity).
  intros [Heq | [Hboth | Hboth]]; [by vm_compute in Heq | |];
    destruct Hboth as (name1 & name2 & [= <-] & [= <-] & Hin & _);
    by apply list_elem_of_In in Hin; vm_compute in Hin; intuition discriminate.
Qed.

(** C6 at its failing input: one node dict without [id].  [_ingest_nodes]
    counts the failure, then the similarity pass reads [node['id']] outside
    any [try], the run counts a second error and raises. *)
Lemma run_halts_on_node_without_id :
  let run := ingest_project (world_of (export_of nameless_only)) "project.json" __init__ in
  fst run = Raise (KeyError "id")
  /\ nodes_created (stats (snd run)) = 0
  /\ errors (stats (snd run)) = 2
  /\ fst (_ingest_nodes [nameless] ∅ __init__) = Ok tt
  /\ errors (stats (snd (_ingest_nodes [nameless] ∅ __init__))) = 1.
Proof. vm_compute. repeat split; reflexivity. Qed.

(** C3 at thresholds 0.7 and 0.9, on two embedded layers. *)
Lemma similarity_threshold_monotone_witness :
  (length (similarity_edges (H:=RealNumpy.numpy) (9 / 10)%R [title_layer; copy_layer]
             two_embeddings __init__)
   <= length (similarity_edges (H:=RealNumpy.numpy) (7 / 10)%R [title_layer; copy_layer]
                two_embeddings __init__))%nat.
Proof.
  apply (@similarity_threshold_monotone RealNumpy.numpy Interpreter.pystr real_order).
  simpl. destruct (Rle_dec (7 / 10) (9 / 10)); [reflexivity | lra].
Defined.

(** C4 at the vectors (3, 4) and (4, 3), whose norms are not zero. *)
Lemma cosine_similarity_formula_witness :
  _cosine_similarity (H:=RealNumpy.numpy) v34 v43
  = Ok (RealNumpy.dot v34 v43 / (RealNumpy.norm v34 * RealNumpy.norm v43))%R.
Proof.
  assert (Hnorm : forall x y : R, (0 < x)%R -> (0 < y)%R ->
            f_eqb (Numpy:=RealNumpy.numpy) (RealNumpy.norm [x; y]) 0%R = false).
  { intros x y Hx Hy. simpl. unfold RealNumpy.norm. simpl.
    destruct (Req_dec_T _ _) as [Heq|]; [| reflexivity].
    apply sqrt_eq_0 in Heq; nra. }
  apply (proj1 (cosine_similarity_formula (H:=RealNumpy.numpy) v34 v43
                  (RealNumpy.dot v34 v43) eq_refl));
    apply Hnorm; lra.
Defined.

(** C10 on a list whose second entry lacks [content]: one embedding was
    generated and counted, none is returned. *)
Lemma generate_embeddings_discards_on_failure_witness :
  let run := _generate_embeddings ([title] ++ no_content :: []) __init__ in
  exists key,
    fst run = Ok ∅
    /\ embeddings_generated (stats (snd run))
       = embeddings_generated (stats __init__) + Z.of_nat (length [title])
    /\ log (snd run) = (ERROR, MsgEmbeddingFailed (KeyError key)) :: log __init__.
Proof.
  apply (generate_embeddings_discards_on_failure (H:=Float64.numpy) [title] no_content []).
  - repeat constructor. by eexists.
  - reflexivity.
Defined.

(** The scenario of two similar text layers, computed in double precision:
    one [similar_name] edge under the threshold 0.7 of the code, none under
    a threshold of 0.97. *)
Example two_similar_layers :
  similarity_edges (H:=Float64.numpy) f_0_7 [title_layer; copy_layer]
    two_embeddings64 __init__
  = [("similar_name", JStr "layer_title", JStr "layer_copy")]
  /\ similarity_edges (H:=Float64.numpy) 0x1.f0a3d70a3d70ap-1%float
       [title_layer; copy_layer] two_embeddings64 __init__
     = [].
Proof. split; vm_compute; reflexivity. Qed.

(** A zero vector has similarity zero with anything of its shape, and arrays
    of different shapes make [np.dot] raise. *)
Example cosine_similarity_edge_cases :
  _cosine_similarity (H:=Float64.numpy) [0; 0]%float [1; 2]%float = Ok 0%float
  /\ _cosine_similarity (H:=Float64.numpy) [1; 2]%float [1; 2; 3]%float
     = Raise (ValueError "shapes not aligned").
Proof. split; vm_compute; reflexivity. Qed.

(** X3 on the one content item [title]. *)
Lemma generate_embeddings_files_every_item_witness :
  Forall (fun c => is_Some (content_item_keys c)) [title]
  /\ exists embeddings_map,
       fst (_generate_embeddings [title] __init__) = Ok embeddings_map
       /\ (forall key, is_Some (embeddings_map !! key)
                       <-> exists c, c ∈ [title] /\ embed_key_of c = Some key)
       /\ (forall i c key,
             [title] !! i = Some c -> embed_key_of c = Some key ->
             (forall j c', (i < j)%nat -> [title] !! j = Some c' ->
                           embed_key_of c' <> Some key) ->
             embeddings_map !! key = embedding_of (rand_calls __init__ + i) c)
       /\ embeddings_generated (stats (snd (_generate_embeddings [title] __init__)))
          = embeddings_generated (stats __init__) + Z.of_nat (length [title])
       /\ (size embeddings_map <= length [title])%nat
       /\ log (snd (_generate_embeddings [title] __init__))
          = (INFO, MsgGenerated (size embeddings_map)) :: log __init__.
Proof.
  assert (Hall : Forall (fun c => is_Some (content_item_keys c)) [title])
    by (repeat constructor; by eexists).
  split; [exact Hall |].
  exact (generate_embeddings_files_every_item (H:=Float64.numpy) [title] __init__ Hall).
Defined.

(** X9 on an export that is not marked successful. *)
Lemma ingest_project_refuses_bad_document_witness :
  let world := world_of failed_export in
  let e := ValueError "Export failed: No project open" in
  let run := ingest_project world "project.json" __init__ in
  fst run = Raise e
  /\ emitted_by (ingest_project world "project.json") __init__
     = [(ERROR, MsgIngestionFailed e); (INFO, MsgLoading "project.json")]
  /\ stats (snd run)
     = incr_errors (set_start_time (time_time world (time_calls __init__))
                      (stats __init__))
  /\ rand_calls (snd run) = rand_calls __init__.
Proof.
  apply (ingest_project_refuses_bad_document (H:=Float64.numpy)
           (world_of failed_export) "project.json" __init__).
  right. exists failed_export. split; [reflexivity |].
  left. split; [discriminate | reflexivity].
Defined.

(** X10 on a document of one layer and one edge. *)
Lemma ingest_project_reports_what_it_did_witness :
  let world := world_of (export_of one_layer) in
  let g := stats (snd (ingest_project world "project.json" __init__)) in
  fst (ingest_project world "project.json" __init__) = Ok g
  /\ exists export_result project_data embedding_content nodes edges,
       open_json world "project.json" = Ok export_result
       /\ x_success export_result = Some true
       /\ x_data export_result = Some project_data
       /\ d_embedding_content project_data = Some embedding_content
       /\ d_nodes project_data = Some nodes
       /\ d_edges project_data = Some edges
       /\ nodes_created g = nodes_created (stats __init__) + accepted node_request_of nodes
       /\ edges_created g = edges_created (stats __init__) + accepted edge_request_of edges
       /\ embeddings_generated g
          = embeddings_generated (stats __init__)
            + Z.of_nat (leading_complete embedding_content)
       /\ errors g
          = errors (stats __init__) + rejected node_request_of nodes
            + rejected edge_request_of edges.
Proof.
  assert (Hrun :
    fst (ingest_project (world_of (export_of one_layer)) "project.json" __init__)
    = Ok (stats (snd (ingest_project (world_of (export_of one_layer))
                        "project.json" __init__))))
    by (vm_compute; reflexivity).
  split; [exact Hrun |].
  exact (ingest_project_reports_what_it_did (H:=Float64.numpy) _ _ _ _ Hrun).
Defined.

(** X11 on the document whose one node has no [id]. *)
Lemma ingest_project_failure_is_counted_and_logged_witness :
  let run := ingest_project (world_of (export_of nameless_only)) "project.json" __init__ in
  fst run = Raise (KeyError "id")
  /\ head (log (snd run)) = Some (ERROR, MsgIngestionFailed (KeyError "id"))
  /\ errors (stats __init__) < errors (stats (snd run)).
Proof.
  assert (Hrun :
    fst (ingest_project (world_of (export_of nameless_only)) "project.json" __init__)
    = Raise (KeyError "id")) by (vm_compute; reflexivity).
  split; [exact Hrun |].
  exact (ingest_project_failure_is_counted_and_logged (H:=Float64.numpy) _ _ _ _ Hrun).
Defined.

(** X13 on a document with one layer and no key [edges]. *)
Lemma ingest_project_without_edges_key_witness :
  let world := world_of (export_of no_edges) in
  let run := ingest_project world "project.json" __init__ in
  let dicts := leading_dicts [title_layer] in
  fst run = Raise (match first_non_dict [title_layer] with
                   | None => KeyError "edges"
                   | Some item => no_attribute item "get"
                   end)
  /\ node_requests (emitted_by (ingest_project world "project.json") __init__)
     = omap node_request_of dicts
  /\ nodes_created (stats (snd run))
     = nodes_created (stats __init__) + accepted node_request_of dicts
  /\ embeddings_generated (stats (snd run))
     = embeddings_generated (stats __init__) + Z.of_nat (leading_complete [title])
  /\ errors (stats (snd run))
     = errors (stats __init__) + rejected node_request_of dicts + 1
  /\ (forallb is_dict [title_layer] = true ->
      dicts = [title_layer] /\ fst run = Raise (KeyError "edges")).
Proof.
  apply (ingest_project_without_edges_key (H:=Float64.numpy)
           (world_of (export_of no_edges)) "project.json" __init__
           (export_of no_edges) no_edges [title] [title_layer]); reflexivity.
Defined.

(** X14 on a document of one layer and one edge, after an earlier run. *)
Lemma ingest_ae_project_from_json_reports_one_run_witness :
  let world := world_of (export_of one_layer) in
  let earlier := snd (ingest_project world "project.json" __init__) in
  let g := stats (snd (ingest_ae_project_from_json world "project.json" earlier)) in
  fst (ingest_ae_project_from_json world "project.json" earlier) = Ok g
  /\ exists export_result project_data embedding_content nodes edges,
       open_json world "project.json" = Ok export_result
       /\ x_data export_result = Some project_data
       /\ d_embedding_content project_data = Some embedding_content
       /\ d_nodes project_data = Some nodes
       /\ d_edges project_data = Some edges
       /\ nodes_created g = accepted node_request_of nodes
       /\ edges_created g = accepted edge_request_of edges
       /\ embeddings_generated g = Z.of_nat (leading_complete embedding_content)
       /\ errors g = rejected node_request_of nodes + rejected edge_request_of edges.
Proof.
  assert (Hrun :
    fst (ingest_ae_project_from_json (world_of (export_of one_layer)) "project.json"
           (snd (ingest_project (world_of (export_of one_layer)) "project.json" __init__)))
    = Ok (stats (snd (ingest_ae_project_from_json (world_of (export_of one_layer))
                        "project.json"
                        (snd (ingest_project (world_of (export_of one_layer))
                                "project.json" __init__))))))
    by (vm_compute; reflexivity).
  split; [exact Hrun |].
  exact (ingest_ae_project_from_json_reports_one_run (H:=Float64.numpy) _ _ _ _ Hrun).
Defined.


End IngestionSamples.

(** * Properties of the traversal tools *)
Section WalkerFacts.
Import Walker.
Variable world : World.

Lemma append_layer_info_run connection_id depth acc layer (s : State) :
  append_layer_info connection_id depth acc layer s
  = (match layer_info connection_id depth layer with
     | Ok info => Ok (acc ++ [info])
     | Raise e => Raise e
     end, s).
Proof.
  unfold append_layer_info, mbind, Py_bind, lift.
  by destruct (layer_info connection_id depth layer).
Qed.

Lemma layer_loop_run connection_id depth items acc (s : State) :
  for_fold items acc (append_layer_info connection_id depth) s
  = (match layer_infos connection_id depth items with
     | Ok infos => Ok (acc ++ infos)
     | Raise e => Raise e
     end, s).
Proof.
  revert acc. induction items as [|layer rest IH]; intros acc; simpl.
  - by rewrite app_nil_r.
  - unfold mbind, Py_bind. rewrite append_layer_info_run.
    destruct (layer_info connection_id depth layer) as [info|e]; [| reflexivity].
    rewrite IH. destruct (layer_infos connection_id depth rest); [| reflexivity].
    by rewrite <- app_assoc.
Qed.

Lemma layer_infos_Forall2 connection_id depth items infos :
  layer_infos connection_id depth items = Ok infos ->
  Forall2 (fun layer info => layer_info connection_id depth layer = Ok info) items infos.
Proof.
  revert infos. induction items as [|layer rest IH]; intros infos; simpl.
  - intros [= <-]. constructor.
  - destruct (layer_info connection_id depth layer) as [info|e] eqn:Hinfo; [| done].
    destruct (layer_infos connection_id depth rest) as [rest_infos|e]; [| done].
    intros [= <-]. constructor; [done | by apply IH].
Qed.

(** [get_connection] sends at most the one [init] query. *)
Lemma get_connection_queries (s : State) :
  (length (queries (snd (get_connection world s))) <= length (queries s) + 1)%nat.
Proof.
  unfold get_connection. destruct (current_connection_id s); try (simpl; lia).
  unfold mbind, Py_bind, query. simpl.
  destruct (client_query world HelixInit) as [[|c response]|e]; simpl; lia.
Qed.

(** What the tool does, case by case. *)
Lemma walk_composition_hierarchy_run composition_id depth (s : State) :
  walk_composition_hierarchy world composition_id depth s =
    let (r, s1) := get_connection world s in
    match r with
    | Raise e => failed "walk_composition_hierarchy" e s1
    | Ok connection_id =>
        let s2 := sent (layers_query connection_id) s1 in
        match response_items world connection_id with
        | Raise e => failed "walk_composition_hierarchy" e s2
        | Ok items =>
            match layer_infos connection_id depth items with
            | Raise e => failed "walk_composition_hierarchy" e s2
            | Ok infos =>
                (Ok (JObj [("composition", JStr composition_id);
                           ("layers", JArr infos);
                           ("depth", JInt depth)]), s2)
            end
        end
    end.
Proof.
  unfold walk_composition_hierarchy, try_except, response_items.
  unfold mbind at 1, Py_bind at 1.
  destruct (get_connection world s) as [[connection_id|e] s1]; [| reflexivity].
  unfold mbind at 1, Py_bind at 1, query at 1. fold (layers_query connection_id).
  destruct (client_query world _) as [[|r response]|e]; [reflexivity | | reflexivity].
  unfold mbind at 1, Py_bind at 1, lift at 1.
  destruct (loads world r) as [layers|e]; [| reflexivity].
  unfold mbind at 1, Py_bind at 1, lift at 1.
  destruct (py_iter layers) as [items|e]; [| reflexivity].
  unfold mbind at 1, Py_bind at 1. rewrite layer_loop_run.
  destruct (layer_infos connection_id depth items); reflexivity.
Qed.

Lemma layer_info_levels connection_id depth layer info :
  layer_info connection_id depth layer = Ok info ->
  (has_field "keyframes" info = true -> 3 <= depth)
  /\ (has_field "property_groups" info = true -> 2 <= depth).
Proof.
  unfold layer_info. destruct layer; try done.
  destruct (decide (2 <= depth)), (decide (3 <= depth));
    intros [= <-]; split; intros Hf; try lia; try (by vm_compute in Hf).
Qed.

Lemma deepest_level_bound connection_id depth items infos (composition : json) (d : json) :
  layer_infos connection_id depth items = Ok infos ->
  deepest_level (JObj [("composition", composition); ("layers", JArr infos); ("depth", d)])
  <= Z.max 1 depth.
Proof.
  intros Hinfos. apply layer_infos_Forall2 in Hinfos.
  unfold deepest_level.
  change (list_field "layers" (JObj [("composition", composition);
                                     ("layers", JArr infos); ("depth", d)]))
    with infos.
  destruct (existsb (has_field "keyframes") infos) eqn:Hk.
  { apply existsb_exists in Hk as (info & Hin & Hf).
    apply list_elem_of_In in Hin.
    destruct (Forall2_elem_of_right _ _ _ _ Hinfos Hin) as (layer & _ & Hl).
    apply layer_info_levels in Hl as [Hl _]. specialize (Hl Hf). lia. }
  destruct (existsb (has_field "property_groups") infos) eqn:Hp.
  { apply existsb_exists in Hp as (info & Hin & Hf).
    apply list_elem_of_In in Hin.
    destruct (Forall2_elem_of_right _ _ _ _ Hinfos Hin) as (layer & _ & Hl).
    apply layer_info_levels in Hl as [_ Hl]. specialize (Hl Hf). lia. }
  destruct infos; lia.
Qed.

(** Below depth 2 an entry has neither property groups nor keyframes. *)
Lemma layer_info_shallow connection_id depth layer info :
  layer_info connection_id depth layer = Ok info ->
  depth < 2 ->
  has_field "keyframes" info = false /\ has_field "property_groups" info = false.
Proof.
  intros Hinfo Hdepth. apply layer_info_levels in Hinfo as [Hk Hp].
  split.
  - destruct (has_field "keyframes" info); [specialize (Hk eq_refl); lia | done].
  - destruct (has_field "property_groups" info); [specialize (Hp eq_refl); lia | done].
Qed.

Lemma deepest_level_shallow connection_id depth items infos (composition : json)
    (d : json) :
  layer_infos connection_id depth items = Ok infos ->
  depth < 2 -> items <> [] ->
  deepest_level (JObj [("composition", composition); ("layers", JArr infos); ("depth", d)])
  = 1.
Proof.
  intros Hinfos Hdepth Hitems. apply layer_infos_Forall2 in Hinfos.
  unfold deepest_level.
  change (list_field "layers" (JObj [("composition", composition);
                                     ("layers", JArr infos); ("depth", d)]))
    with infos.
  destruct (existsb (has_field "keyframes") infos) eqn:Hk.
  { apply existsb_exists in Hk as (info & Hin & Hf).
    apply list_elem_of_In in Hin.
    destruct (Forall2_elem_of_right _ _ _ _ Hinfos Hin) as (layer & _ & Hl).
    apply (layer_info_shallow _ _ _ _ Hl) in Hdepth as [Hno _]. congruence. }
  destruct (existsb (has_field "property_groups") infos) eqn:Hp.
  { apply existsb_exists in Hp as (info & Hin & Hf).
    apply list_elem_of_In in Hin.
    destruct (Forall2_elem_of_right _ _ _ _ Hinfos Hin) as (layer & _ & Hl).
    apply (layer_info_shallow _ _ _ _ Hl) in Hdepth as [_ Hno]. congruence. }
  destruct Hinfos; done.
Qed.

Lemma layer_infos_total connection_id depth items :
  Forall (fun layer => is_ok (layer_info connection_id depth layer) = true) items ->
  exists infos, layer_infos connection_id depth items = Ok infos.
Proof.
  induction 1 as [|layer rest Hok _ [infos IH]]; simpl; [by eexists |].
  destruct (layer_info connection_id depth layer); [| done].
  rewrite IH. by eexists.
Qed.

(** The loop of [walk_composition_hierarchy] gets through a response of
    dicts, and stops at the first item that is not a dict. *)
Lemma layer_infos_dicts connection_id depth items :
  if forallb is_dict items
  then exists infos, layer_infos connection_id depth items = Ok infos
  else exists layer,
         layer ∈ items /\ is_dict layer = false
         /\ layer_infos connection_id depth items = Raise (no_attribute layer "get").
Proof.
  induction items as [|layer rest IH]; simpl; [by eexists |].
  destruct layer as [| | | | | |fields]; simpl;
    try (eexists; split; [by left | by split]).
  destruct (forallb is_dict rest).
  - destruct IH as [infos ->]. by eexists.
  - destruct IH as (layer & Hin & Hdict & ->).
    exists layer. split; [by right | by split].
Qed.

(** C7, as amended.  [walk_time_relationships] compares the time with no
    window and reads no layer from the graph.  Whatever the time and the
    composition, it reports the one simulated layer [layer_1] (in point 0,
    out point 5), in a document without the key [error], when a connection
    id is kept or the server answers [helix.init()] with a list that is not
    empty, whatever its first item is, [None] included; it returns an error
    document only when no connection id is kept and [client.query] raises or
    answers an empty list.  It sends no traversal query. *)
Theorem walk_time_relationships_reports_fixed_layer (time_seconds : Q)
    (composition_id : option string) (s : State) :
  let run := walk_time_relationships world time_seconds composition_id s in
  is_ok (fst run) = true
  /\ match current_connection_id s, client_query world HelixInit with
     | JNull, Raise e => document run = error_document e
     | JNull, Ok [] => document run = error_document (IndexError "list index out of range")
     | _, _ =>
         list_field "active_layers" (document run) = [simulated_layer]
         /\ has_field "error" (document run) = false
     end
  /\ (length (queries (snd run)) <= length (queries s) + 1)%nat.
Proof.
  pose proof (get_connection_queries s) as Hq.
  unfold walk_time_relationships, try_except, mbind, Py_bind, document.
  unfold get_connection in *.
  destruct (current_connection_id s); simpl in *;
    try (repeat split; [done .. | lia]).
  unfold mbind, Py_bind, query in *. simpl in *.
  destruct (client_query world HelixInit) as [[|c response]|e]; simpl in *;
    repeat split; done.
Qed.

(** C8, as amended.  [walk_composition_hierarchy] never goes deeper than the
    requested depth or than level 1, whichever is the larger: the layers are
    listed at every depth, also below 1.  It sends at most two queries
    whatever the graph, and builds one entry for each item of the server's
    response, in order, when every item is a dict: it keeps no set of
    visited nodes, so a node the response holds twice is listed twice.  When
    an item is not a dict it returns the error document of that item.  It
    always returns a document. *)
Theorem walk_composition_hierarchy_bounded (composition_id : string) (depth : Z)
    (s : State) :
  let run := walk_composition_hierarchy world composition_id depth s in
  is_ok (fst run) = true
  /\ (length (queries (snd run)) <= length (queries s) + 2)%nat
  /\ deepest_level (document run) <= Z.max 1 depth
  /\ forall connection_id items,
       fst (get_connection world s) = Ok connection_id ->
       response_items world connection_id = Ok items ->
       if forallb is_dict items
       then Forall2 (fun layer info => layer_info connection_id depth layer = Ok info)
                    items (list_field "layers" (document run))
            /\ (depth < 2 -> items <> [] -> deepest_level (document run) = 1)
       else exists layer,
              layer ∈ items /\ is_dict layer = false
              /\ document run = error_document (no_attribute layer "get").
Proof.
  pose proof (get_connection_queries s) as Hq.
  cbv zeta. rewrite walk_composition_hierarchy_run. unfold document.
  assert (Herr : forall e, deepest_level (error_document e) <= Z.max 1 depth)
    by (intros e; change (deepest_level (error_document e)) with 0; lia).
  destruct (get_connection world s) as [[connection_id|e] s1]; simpl in *.
  2:{ split; [done |]. split; [lia |]. split; [apply Herr | done]. }
  destruct (response_items world connection_id) as [items|e] eqn:Hitems; simpl.
  2:{ split; [done |]. split; [lia |]. split; [apply Herr |].
      intros c items [= <-]. by rewrite Hitems. }
  pose proof (layer_infos_dicts connection_id depth items) as Hloop.
  destruct (layer_infos connection_id depth items) as [infos|e] eqn:Hinfos; simpl.
  - split; [done |]. split; [lia |]. split; [by eapply deepest_level_bound |].
    intros c items' [= <-]. rewrite Hitems. intros [= <-].
    destruct (forallb is_dict items).
    + split; [by apply layer_infos_Forall2 |].
      intros Hdepth Hne. by eapply deepest_level_shallow.
    + by destruct Hloop as (layer & _ & _ & [=]).
  - split; [done |]. split; [lia |]. split; [apply Herr |].
    intros c items' [= <-]. rewrite Hitems. intros [= <-].
    destruct (forallb is_dict items).
    + by destruct Hloop as [infos [=]].
    + destruct Hloop as (layer & Hin & Hdict & [= ->]). by exists layer.
Qed.

End WalkerFacts.

(** * The traversal tools at sample inputs *)
Section WalkerSamples.
Import Walker.

(** C7 fails as stated: at time 10 the tool reports a layer whose window
    ends at 5. *)
Lemma layer_reported_outside_its_window :
  let run := walk_time_relationships (world_of [] JNull) 10 None initial in
  exists layer,
    layer ∈ list_field "active_layers" (document run)
    /\ number_field "in_point" layer = Some 0%Q
    /\ number_field "out_point" layer = Some 5%Q
    /\ ~ in_window 10 layer.
Proof.
  exists simulated_layer. repeat split.
  - vm_compute. left.
  - intros (in_point & out_point & _ & [= <-] & _ & Hout).
    vm_compute in Hout. by apply Hout.
Qed.

(** C8 fails as stated, twice over.  The response of the server holds the
    node [layer_title] twice and the requested depth is 0: the tool builds
    an entry for the node twice, as it keeps no set of visited nodes, and it
    lists the layers, one level down, below the requested depth. *)
Lemma layer_listed_twice_at_depth_zero :
  let entry := JObj [("id", JStr "layer_title"); ("name", JStr "Title");
                     ("type", JStr "TextLayer"); ("properties", JObj [])] in
  let run :=
    walk_composition_hierarchy
      (world_of [JStr "layers"] (JArr [main_layer; main_layer])) "comp_main" 0 initial in
  response_items (world_of [JStr "layers"] (JArr [main_layer; main_layer]))
    (JStr "connection-1") = Ok [main_layer; main_layer]
  /\ list_field "layers" (document run) = [entry; entry]
  /\ ~ NoDup (list_field "layers" (document run))
  /\ deepest_level (document run) = 1
  /\ (0 < deepest_level (document run)).
Proof.
  cbv zeta. repeat split; try (vm_compute; reflexivity).
  assert (Hlayers :
    list_field "layers"
      (document (walk_composition_hierarchy
                   (world_of [JStr "layers"] (JArr [main_layer; main_layer]))
                   "comp_main" 0 initial))
    = [JObj [("id", JStr "layer_title"); ("name", JStr "Title");
             ("type", JStr "TextLayer"); ("properties", JObj [])];
       JObj [("id", JStr "layer_title"); ("name", JStr "Title");
             ("type", JStr "TextLayer"); ("properties", JObj [])]])
    by (vm_compute; reflexivity).
  rewrite Hlayers. intros Hnodup. apply NoDup_cons in Hnodup as [Hnotin _].
  apply Hnotin. left.
Qed.

End WalkerSamples.

(** * Further properties of the traversal tools *)
Section WalkerFurther.
Import Walker.
Variable world : World.

(** The [try] common to the tools. *)
Lemma try_tool (tool : string) (body : Py State json) (s : State) :
  try_except body
    (fun e => logger ERROR (MsgError tool e);; mret (JObj [("error", JStr (exn_str e))])) s
  = match body s with
    | (Ok d, s') => (Ok d, s')
    | (Raise e, s') => failed tool e s'
    end.
Proof. unfold try_except. by destruct (body s) as [[d|e] s']. Qed.

(** [get_connection], case by case. *)
Lemma get_connection_run (s : State) :
  get_connection world s =
    match current_connection_id s with
    | JNull =>
        match client_query world HelixInit with
        | Ok (c :: _) =>
            (Ok c, {| current_connection_id := c;
                      log := (INFO, MsgInitialized c) :: log s;
                      queries := HelixInit :: queries s |})
        | Ok [] => (Raise (IndexError "list index out of range"), sent HelixInit s)
        | Raise e => (Raise e, sent HelixInit s)
        end
    | c => (Ok c, s)
    end.
Proof.
  unfold get_connection. destruct (current_connection_id s); try reflexivity.
  unfold mbind, Py_bind, query.
  by destruct (client_query world HelixInit) as [[|c response]|e].
Qed.

Lemma get_connection_cached (w : World) (s : State) :
  current_connection_id s <> JNull ->
  get_connection w s = (Ok (current_connection_id s), s).
Proof. intros Hc. unfold get_connection. by destruct (current_connection_id s). Qed.

(** [get_connection] raises in two cases only: no id is kept and
    [client.query] raises, or answers an empty list. *)
Lemma get_connection_raises (s : State) (e : exn) :
  fst (get_connection world s) = Raise e
  <-> current_connection_id s = JNull
      /\ (client_query world HelixInit = Raise e
          \/ client_query world HelixInit = Ok []
             /\ e = IndexError "list index out of range").
Proof.
  rewrite get_connection_run.
  destruct (current_connection_id s); simpl; try (split; [done | by intros [? _]]).
  destruct (client_query world HelixInit) as [[|c response]|e']; simpl.
  - split; [intros [= <-]; split; [done | by right] |].
    by intros [_ [? | [_ ->]]].
  - split; [done |]. by intros [_ [? | [? _]]].
  - split; [intros [= <-]; split; [done | by left] |].
    by intros [_ [[= ->] | [? _]]].
Qed.

Lemma append_effect_info_run connection_id include_properties acc effect (s : State) :
  append_effect_info connection_id include_properties acc effect s
  = (match effect_info connection_id include_properties effect with
     | Ok info => Ok (acc ++ [info])
     | Raise e => Raise e
     end, s).
Proof.
  unfold append_effect_info, mbind, Py_bind, lift.
  by destruct (effect_info connection_id include_properties effect).
Qed.

Lemma effect_loop_run connection_id include_properties items acc (s : State) :
  for_fold items acc (append_effect_info connection_id include_properties) s
  = (match effect_infos connection_id include_properties items with
     | Ok infos => Ok (acc ++ infos)
     | Raise e => Raise e
     end, s).
Proof.
  revert acc. induction items as [|effect rest IH]; intros acc; simpl.
  - by rewrite app_nil_r.
  - unfold mbind, Py_bind. rewrite append_effect_info_run.
    destruct (effect_info connection_id include_properties effect) as [info|e];
      [| reflexivity].
    rewrite IH. destruct (effect_infos connection_id include_properties rest);
      [| reflexivity].
    by rewrite <- app_assoc.
Qed.

Lemma effect_infos_Forall2 connection_id include_properties items infos :
  effect_infos connection_id include_properties items = Ok infos ->
  Forall2 (fun effect info => effect_info connection_id include_properties effect = Ok info)
          items infos.
Proof.
  revert infos. induction items as [|effect rest IH]; intros infos; simpl.
  - intros [= <-]. constructor.
  - destruct (effect_info connection_id include_properties effect) as [info|e] eqn:Hinfo;
      [| done].
    destruct (effect_infos connection_id include_properties rest) as [rest_infos|e];
      [| done].
    intros [= <-]. constructor; [done | by apply IH].
Qed.

Lemma effect_infos_total connection_id include_properties items :
  Forall (fun effect =>
            is_ok (effect_info connection_id include_properties effect) = true) items
  <-> exists infos, effect_infos connection_id include_properties items = Ok infos.
Proof.
  split.
  - induction 1 as [|effect rest Hok _ [infos IH]]; simpl; [by eexists |].
    destruct (effect_info connection_id include_properties effect); [| done].
    rewrite IH. by eexists.
  - intros [infos Hinfos]. apply effect_infos_Forall2 in Hinfos.
    induction Hinfos as [|effect info rest infos Hinfo _ IH]; constructor; [| done].
    by rewrite Hinfo.
Qed.

(** What an entry says of its effect. *)
Lemma effect_info_entry connection_id include_properties effect info :
  effect_info connection_id include_properties effect = Ok info ->
  field "id" info = Some (default JNull (field "id" effect))
  /\ field "name" info = Some (default JNull (field "name" effect))
  /\ has_field "properties" info = include_properties.
Proof.
  unfold effect_info. destruct effect as [| | | | | |fields]; try done.
  destruct (default (JObj []) (assoc_get "properties" fields)); try done.
  intros [= <-]. by destruct include_properties.
Qed.

(** [walk_effects_chain], case by case. *)
Lemma walk_effects_chain_run layer_id include_properties (s : State) :
  walk_effects_chain world layer_id include_properties s =
    let (r, s1) := get_connection world s in
    match r with
    | Raise e => failed "walk_effects_chain" e s1
    | Ok connection_id =>
        let s2 := sent (effects_query connection_id) s1 in
        match loaded world (effects_query connection_id) with
        | Raise e => failed "walk_effects_chain" e s2
        | Ok effects =>
            match py_iter effects with
            | Raise e => failed "walk_effects_chain" e s2
            | Ok items =>
                match effect_infos connection_id include_properties items with
                | Raise e => failed "walk_effects_chain" e s2
                | Ok infos =>
                    (Ok (JObj [("layer_id", JStr layer_id); ("effects", JArr infos)]), s2)
                end
            end
        end
    end.
Proof.
  unfold walk_effects_chain. rewrite try_tool. unfold loaded.
  unfold mbind at 1, Py_bind at 1.
  destruct (get_connection world s) as [[connection_id|e] s1]; [| reflexivity].
  unfold mbind at 1, Py_bind at 1, query at 1. fold (effects_query connection_id).
  destruct (client_query world _) as [[|r response]|e]; [reflexivity | | reflexivity].
  unfold mbind at 1, Py_bind at 1, lift at 1.
  destruct (loads world r) as [effects|e]; [| reflexivity].
  unfold mbind at 1, Py_bind at 1, lift at 1.
  destruct (py_iter effects) as [items|e]; [| reflexivity].
  unfold mbind at 1, Py_bind at 1. rewrite effect_loop_run.
  destruct (effect_infos connection_id include_properties items); reflexivity.
Qed.

(** [walk_expression_dependencies], case by case. *)
Lemma walk_expression_dependencies_run property_id (s : State) :
  walk_expression_dependencies world property_id s =
    let (r, s1) := get_connection world s in
    match r with
    | Raise e => failed "walk_expression_dependencies" e s1
    | Ok connection_id =>
        let s2 := sent (expression_query connection_id) s1 in
        match loaded world (expression_query connection_id) with
        | Raise e => failed "walk_expression_dependencies" e s2
        | Ok expressions =>
            if truthy expressions then
              match py_index0 expressions with
              | Raise e => failed "walk_expression_dependencies" e s2
              | Ok expression =>
                  match expression_info connection_id expression with
                  | Raise e => failed "walk_expression_dependencies" e s2
                  | Ok (info, references) =>
                      (Ok (JObj [("property_id", JStr property_id);
                                 ("expression", info); ("references", references)]), s2)
                  end
              end
            else
              (Ok (JObj [("property_id", JStr property_id); ("expression", JNull);
                         ("references", JArr [])]), s2)
        end
    end.
Proof.
  unfold walk_expression_dependencies. rewrite try_tool. unfold loaded.
  unfold mbind at 1, Py_bind at 1.
  destruct (get_connection world s) as [[connection_id|e] s1]; [| reflexivity].
  unfold mbind at 1, Py_bind at 1, query at 1. fold (expression_query connection_id).
  assert (Hrest : forall expressions s2,
    match
      (if truthy expressions then
         expression ← lift (py_index0 expressions);
         '(info, references) ← lift (expression_info connection_id expression);
         mret (JObj [("property_id", JStr property_id); ("expression", info);
                     ("references", references)])
       else
         mret (JObj [("property_id", JStr property_id); ("expression", JNull);
                     ("references", JArr [])])) s2
    with
    | (Ok d, s') => (Ok d, s')
    | (Raise e, s') => failed "walk_expression_dependencies" e s'
    end =
    if truthy expressions then
      match py_index0 expressions with
      | Raise e => failed "walk_expression_dependencies" e s2
      | Ok expression =>
          match expression_info connection_id expression with
          | Raise e => failed "walk_expression_dependencies" e s2
          | Ok (info, references) =>
              (Ok (JObj [("property_id", JStr property_id);
                         ("expression", info); ("references", references)]), s2)
          end
      end
    else
      (Ok (JObj [("property_id", JStr property_id); ("expression", JNull);
                 ("references", JArr [])]), s2)).
  { intros expressions s2. destruct (truthy expressions); [| reflexivity].
    unfold mbind, Py_bind, lift.
    destruct (py_index0 expressions) as [expression|e]; [| reflexivity].
    by destruct (expression_info connection_id expression) as [[info references]|e]. }
  destruct (client_query world _) as [[|r response]|e];
    [exact (Hrest (JArr []) _) | | reflexivity].
  unfold mbind at 1, Py_bind at 1, lift at 1.
  destruct (loads world r) as [expressions|e]; [exact (Hrest expressions _) | reflexivity].
Qed.

(** ** Substrings *)

Lemma prefix_append (needle hay : string) :
  String.prefix needle hay = true <-> exists post, hay = needle +:+ post.
Proof.
  revert hay. induction needle as [|a needle IH]; intros [|b hay]; simpl.
  - split; [by exists "" | done].
  - split; [by exists (String b hay) | done].
  - split; [done | by intros [post [=]]].
  - destruct (Ascii.ascii_dec a b) as [-> | Hne].
    + rewrite IH. split; intros [post Hpost]; exists post; [by rewrite Hpost |].
      by injection Hpost.
    + split; [done |]. intros [post [= -> _]]. done.
Qed.

Lemma occurs_in_unfold (needle hay : string) :
  occurs_in needle hay
  = String.prefix needle hay
    || match hay with
       | EmptyString => false
       | String _ rest => occurs_in needle rest
       end.
Proof. by destruct hay. Qed.

Lemma occurs_in_append (needle hay : string) :
  occurs_in needle hay = true <-> exists pre post, hay = pre +:+ needle +:+ post.
Proof.
  split.
  - induction hay as [|c hay IH]; rewrite occurs_in_unfold; intros Hor;
      apply orb_true_iff in Hor as [Hp | Hin]; try done.
    + apply prefix_append in Hp as [post Hpost]. exists "", post. exact Hpost.
    + apply prefix_append in Hp as [post Hpost]. exists "", post. exact Hpost.
    + destruct (IH Hin) as (pre & post & ->). by exists (String c pre), post.
  - intros (pre & post & ->). induction pre as [|c pre IH].
    + rewrite occurs_in_unfold. apply orb_true_iff. left.
      apply prefix_append. by exists post.
    + rewrite occurs_in_unfold. apply orb_true_iff. right. exact IH.
Qed.

(** ** The further properties *)

(** X18.  The connection is made once: after [get_connection] has returned
    an id other than [None], the id is kept and every later call returns it
    without a query, whatever the server would answer.  When what it returns
    is [None] (the first item of the answer to [helix.init()] was [None]),
    the call has logged [None] as the connection, nothing is kept and the
    next call sends [helix.init()] again.  After an attempt that raised,
    nothing is kept, and the attempt left one [init] query and no record. *)
Theorem get_connection_is_cached (s : State) :
  let s1 := snd (get_connection world s) in
  match fst (get_connection world s) with
  | Ok c =>
      current_connection_id s1 = c
      /\ (c <> JNull -> forall world', get_connection world' s1 = (Ok c, s1))
      /\ (c = JNull ->
          current_connection_id s = JNull
          /\ (exists rest, client_query world HelixInit = Ok (JNull :: rest))
          /\ log s1 = (INFO, MsgInitialized JNull) :: log s
          /\ queries s1 = HelixInit :: queries s
          /\ forall world',
               queries (snd (get_connection world' s1)) = HelixInit :: queries s1)
  | Raise e =>
      current_connection_id s1 = JNull
      /\ queries s1 = HelixInit :: queries s /\ log s1 = log s
      /\ (client_query world HelixInit = Raise e
          \/ client_query world HelixInit = Ok []
             /\ e = IndexError "list index out of range")
  end.
Proof.
  cbv zeta. rewrite get_connection_run.
  destruct (current_connection_id s) eqn:Hc; simpl;
    try (split; [done |]; split; [| done]; intros _ world';
         rewrite get_connection_cached; simpl; rewrite Hc; done).
  destruct (client_query world HelixInit) as [[|c response]|e] eqn:Hq; simpl;
    [by repeat split; try right | | by repeat split; try left].
  split; [done |]. split.
  - intros Hne world'. by rewrite get_connection_cached.
  - intros ->. repeat split; try done; [by eexists |].
    intros world'. unfold get_connection, mbind, Py_bind, query. simpl.
    by destruct (client_query world' HelixInit) as [[|c' response']|e'].
Qed.

Lemma effect_info_well_formed connection_id include_properties effect :
  is_ok (effect_info connection_id include_properties effect) = well_formed_effect effect.
Proof.
  unfold effect_info, well_formed_effect, field.
  destruct effect as [| | | | | |fields]; try done. simpl.
  by destruct (default (JObj []) (assoc_get "properties" fields)).
Qed.

(** The end of a proof about a tool, once its run is known. *)
Ltac tool_done :=
  unfold document, failed, sent, error_document; simpl;
  split; [reflexivity |];
  split; [lia |];
  split; [first [left; split; reflexivity | right; eexists; split; reflexivity] |];
  intros ? [=]; subst; reflexivity.

(** X19.  A tool never raises: every call returns a document.  Either the
    document has no key [error] and the tool wrote nothing to the log, or
    the document is the error document of an exception and the log ends
    with an ERROR record of that exception under the name of the tool.  An
    exception of [get_connection] is reported in this way by every tool:
    [get_connection] raises exactly when no connection id is kept and
    [client.query] raises or answers [helix.init()] with an empty list (an
    answer whose first item is [None] is not such a case).  No call sends
    more than two queries. *)
Theorem every_tool_returns_a_document (request : Request) (s : State) :
  let run := serve world request s in
  is_ok (fst run) = true
  /\ (length (queries (snd run)) <= length (queries s) + 2)%nat
  /\ ((has_field "error" (document run) = false
       /\ log (snd run) = log (snd (get_connection world s)))
      \/ exists e,
           document run = error_document e
           /\ log (snd run)
              = (ERROR, MsgError (tool_of request) e) :: log (snd (get_connection world s)))
  /\ (forall e, fst (get_connection world s) = Raise e -> document run = error_document e)
  /\ (forall e, fst (get_connection world s) = Raise e
                <-> current_connection_id s = JNull
                    /\ (client_query world HelixInit = Raise e
                        \/ client_query world HelixInit = Ok []
                           /\ e = IndexError "list index out of range")).
Proof.
  cbv zeta.
  cut (is_ok (fst (serve world request s)) = true
       /\ (length (queries (snd (serve world request s))) <= length (queries s) + 2)%nat
       /\ ((has_field "error" (document (serve world request s)) = false
            /\ log (snd (serve world request s)) = log (snd (get_connection world s)))
           \/ exists e,
                document (serve world request s) = error_document e
                /\ log (snd (serve world request s))
                   = (ERROR, MsgError (tool_of request) e)
                     :: log (snd (get_connection world s)))
       /\ (forall e, fst (get_connection world s) = Raise e ->
                     document (serve world request s) = error_document e)).
  { intros (Hok & Hq & Hlog & Herr).
    split; [exact Hok |]. split; [exact Hq |]. split; [exact Hlog |].
    split; [exact Herr |]. apply get_connection_raises. }
  pose proof (get_connection_queries world s) as Hq.
  destruct request; unfold serve, tool_of.
  - rewrite walk_composition_hierarchy_run.
    destruct (get_connection world s) as [[connection_id|e] s1]; simpl in Hq;
      [| tool_done].
    destruct (response_items world connection_id) as [items|e]; [| tool_done].
    destruct (layer_infos connection_id depth items); tool_done.
  - unfold walk_dependencies. rewrite try_tool. unfold mbind, Py_bind.
    destruct (get_connection world s) as [[connection_id|e] s1]; simpl in Hq; tool_done.
  - rewrite walk_effects_chain_run.
    destruct (get_connection world s) as [[connection_id|e] s1]; simpl in Hq;
      [| tool_done].
    destruct (loaded world (effects_query connection_id)) as [effects|e]; [| tool_done].
    destruct (py_iter effects) as [items|e]; [| tool_done].
    destruct (effect_infos connection_id include_properties items); tool_done.
  - rewrite walk_expression_dependencies_run.
    destruct (get_connection world s) as [[connection_id|e] s1]; simpl in Hq;
      [| tool_done].
    destruct (loaded world (expression_query connection_id)) as [expressions|e];
      [| tool_done].
    destruct (truthy expressions); [| tool_done].
    destruct (py_index0 expressions) as [expression|e]; [| tool_done].
    destruct (expression_info connection_id expression) as [[info references]|e];
      tool_done.
  - unfold walk_time_relationships. rewrite try_tool. unfold mbind, Py_bind.
    destruct (get_connection world s) as [[connection_id|e] s1]; simpl in Hq; tool_done.
  - unfold find_similar_setups. rewrite try_tool. unfold mbind, Py_bind.
    destruct (get_connection world s) as [[connection_id|e] s1]; simpl in Hq; tool_done.
  - unfold discover_unused_elements. rewrite try_tool. unfold mbind, Py_bind.
    destruct (get_connection world s) as [[connection_id|e] s1]; simpl in Hq; tool_done.
  - unfold trace_render_path. rewrite try_tool. unfold mbind, Py_bind.
    destruct (get_connection world s) as [[connection_id|e] s1]; simpl in Hq; tool_done.
  - unfold find_animation_patterns. rewrite try_tool. unfold mbind, Py_bind.
    destruct (get_connection world s) as [[connection_id|e] s1]; simpl in Hq; tool_done.
Qed.

(** X20.  When the server answers with a list of well-formed effects,
    [walk_effects_chain] lists one entry for each, in order, with the id and
    the name of the effect, and with the key [properties] exactly when
    [include_properties] is set; one malformed effect turns the whole answer
    into an error document. *)
Theorem walk_effects_chain_lists_every_effect (layer_id : string)
    (include_properties : bool) (s : State) (connection_id : json)
    (effects : list json) :
  fst (get_connection world s) = Ok connection_id ->
  loaded world (effects_query connection_id) = Ok (JArr effects) ->
  let doc := document (walk_effects_chain world layer_id include_properties s) in
  (forallb well_formed_effect effects = true ->
   field "layer_id" doc = Some (JStr layer_id)
   /\ Forall2 (fun effect info =>
                 field "id" info = Some (default JNull (field "id" effect))
                 /\ field "name" info = Some (default JNull (field "name" effect))
                 /\ has_field "properties" info = include_properties)
              effects (list_field "effects" doc))
  /\ (forallb well_formed_effect effects = false -> exists e, doc = error_document e).
Proof.
  intros Hconn Hloaded. cbv zeta. rewrite walk_effects_chain_run.
  destruct (get_connection world s) as [[c|e] s1]; simpl in Hconn; [| done].
  injection Hconn as ->. rewrite Hloaded. cbn [py_iter].
  assert (Hwf : forallb well_formed_effect effects = true
                <-> exists infos,
                      effect_infos connection_id include_properties effects = Ok infos).
  { rewrite <- effect_infos_total, forallb_forall, Forall_forall.
    split; intros Hall effect Hin.
    - rewrite effect_info_well_formed. by apply Hall, list_elem_of_In.
    - rewrite <- (effect_info_well_formed connection_id include_properties).
      by apply Hall, list_elem_of_In. }
  split.
  - intros Hall. apply Hwf in Hall as [infos Hinfos]. rewrite Hinfos.
    split; [reflexivity |].
    change (Forall2 (fun effect info =>
                       field "id" info = Some (default JNull (field "id" effect))
                       /\ field "name" info = Some (default JNull (field "name" effect))
                       /\ has_field "properties" info = include_properties)
                    effects infos).
    eapply Forall2_impl; [by apply effect_infos_Forall2 |].
    intros effect info. apply effect_info_entry.
  - intros Hnot.
    destruct (effect_infos connection_id include_properties effects) as [infos|e] eqn:Hinfos.
    + assert (Hall : forallb well_formed_effect effects = true)
        by (apply Hwf; by exists infos).
      congruence.
    + by exists e.
Qed.

(** X21.  The three traversal tools never tell the server where to start:
    for any two composition, layer or property ids they send the same
    queries, write the same records and report the same layers, effects,
    expression and references. *)
Theorem traversal_ignores_start_node (id1 id2 : string) (depth : Z)
    (include_properties : bool) (s : State) :
  (snd (walk_composition_hierarchy world id1 depth s)
   = snd (walk_composition_hierarchy world id2 depth s)
   /\ list_field "layers" (document (walk_composition_hierarchy world id1 depth s))
      = list_field "layers" (document (walk_composition_hierarchy world id2 depth s)))
  /\ (snd (walk_effects_chain world id1 include_properties s)
      = snd (walk_effects_chain world id2 include_properties s)
      /\ list_field "effects" (document (walk_effects_chain world id1 include_properties s))
         = list_field "effects"
             (document (walk_effects_chain world id2 include_properties s)))
  /\ (snd (walk_expression_dependencies world id1 s)
      = snd (walk_expression_dependencies world id2 s)
      /\ field "expression" (document (walk_expression_dependencies world id1 s))
         = field "expression" (document (walk_expression_dependencies world id2 s))
      /\ field "references" (document (walk_expression_dependencies world id1 s))
         = field "references" (document (walk_expression_dependencies world id2 s))).
Proof.
  rewrite !walk_composition_hierarchy_run, !walk_effects_chain_run,
    !walk_expression_dependencies_run.
  destruct (get_connection world s) as [[connection_id|e] s1]; [| done].
  split; [| split].
  - destruct (response_items world connection_id) as [items|e]; [| done].
    by destruct (layer_infos connection_id depth items).
  - destruct (loaded world (effects_query connection_id)) as [effects|e]; [| done].
    destruct (py_iter effects) as [items|e]; [| done].
    by destruct (effect_infos connection_id include_properties items).
  - destruct (loaded world (expression_query connection_id)) as [expressions|e];
      [| done].
    destruct (truthy expressions); [| done].
    destruct (py_index0 expressions) as [expression|e]; [| done].
    by destruct (expression_info connection_id expression) as [[info references]|e].
Qed.

(** X22.  [walk_expression_dependencies] reads the first expression of the
    answer only: when it is a dict whose [properties] hold a string
    [expression_text], the document reports its id, text and language and
    the references parsed from the text, whatever follows in the answer. *)
Theorem walk_expression_dependencies_reads_first (property_id : string) (s : State)
    (connection_id : json) (fields properties : list (string * json))
    (text : string) (rest : list json) :
  fst (get_connection world s) = Ok connection_id ->
  loaded world (expression_query connection_id) = Ok (JArr (JObj fields :: rest)) ->
  assoc_get "properties" fields = Some (JObj properties) ->
  assoc_get "expression_text" properties = Some (JStr text) ->
  exists references,
    _parse_expression_references connection_id (JStr text) = Ok references
    /\ document (walk_expression_dependencies world property_id s)
       = JObj [("property_id", JStr property_id);
               ("expression",
                JObj [("id", default JNull (assoc_get "id" fields));
                      ("text", JStr text);
                      ("language", default JNull (assoc_get "language" properties))]);
               ("references", references)].
Proof.
  intros Hconn Hloaded Hproperties Htext.
  rewrite walk_expression_dependencies_run.
  destruct (get_connection world s) as [[c|e] s1]; simpl in Hconn; [| done].
  injection Hconn as ->. rewrite Hloaded.
  change (truthy (JArr (JObj fields :: rest))) with true. cbv iota.
  cbn [py_index0 expression_info json_get]. rewrite Hproperties.
  cbn [default from_option Datatypes.id json_get]. rewrite Htext.
  cbn [default from_option Datatypes.id].
  unfold _parse_expression_references, py_in.
  eexists. split; reflexivity.
Qed.

(** X23.  [_parse_expression_references] on a string reports a layer
    reference exactly when the text contains [thisComp.layer] and an effect
    reference exactly when it contains [effect(]; it reports at most these
    two, the layer reference first. *)
Theorem parse_expression_references_finds_substrings (connection_id : json)
    (text : string) :
  exists references,
    _parse_expression_references connection_id (JStr text) = Ok (JArr references)
    /\ (layer_reference ∈ references
        <-> exists pre post, text = pre +:+ "thisComp.layer" +:+ post)
    /\ (effect_reference ∈ references
        <-> exists pre post, text = pre +:+ "effect(" +:+ post)
    /\ references `sublist_of` [layer_reference; effect_reference].
Proof.
  unfold _parse_expression_references, py_in.
  assert (Hneq : layer_reference <> effect_reference) by done.
  assert (Hneq' : effect_reference <> layer_reference) by done.
  destruct (occurs_in "thisComp.layer" text) eqn:Hl,
           (occurs_in "effect(" text) eqn:He;
    eexists; (split; [reflexivity |]);
    rewrite <- !occurs_in_append, Hl, He; simpl;
    rewrite ?elem_of_cons, ?elem_of_nil;
    (split; [| split]); try (split; [tauto || done | tauto || done]).
  - done.
  - apply sublist_skip, sublist_nil_l.
  - apply sublist_cons. done.
  - apply sublist_nil_l.
Qed.

(** X24.  [walk_dependencies] looks at the direction only: incoming
    dependencies are reported exactly for [incoming] and [both], outgoing
    ones exactly for [outgoing] and [both]; any other direction gives two
    empty lists and no error (the document of a call whose
    [get_connection] returned has no key [error]), and the depth has no
    effect. *)
Theorem walk_dependencies_follows_direction (node_id direction : string)
    (max_depth : Z) (s : State) :
  let doc := document (walk_dependencies world node_id direction max_depth s) in
  walk_dependencies world node_id direction max_depth s
  = walk_dependencies world node_id direction 0 s
  /\ match fst (get_connection world s) with
     | Raise e => doc = error_document e
     | Ok _ =>
         let dependencies := default JNull (field "dependencies" doc) in
         has_field "error" doc = false
         /\ (list_field "incoming" dependencies <> []
             <-> direction = "incoming" \/ direction = "both")
         /\ (list_field "outgoing" dependencies <> []
             <-> direction = "outgoing" \/ direction = "both")
     end.
Proof.
  cbv zeta. split; [reflexivity |].
  unfold walk_dependencies. rewrite try_tool. unfold mbind, Py_bind.
  destruct (get_connection world s) as [[connection_id|e] s1]; [| reflexivity].
  unfold document, mret, Py_ret. simpl.
  destruct (bool_decide (direction ∈ ["incoming"; "both"])) eqn:Hin,
           (bool_decide (direction ∈ ["outgoing"; "both"])) eqn:Hout;
    first [apply bool_decide_eq_true in Hin | apply bool_decide_eq_false in Hin];
    first [apply bool_decide_eq_true in Hout | apply bool_decide_eq_false in Hout];
    rewrite !elem_of_cons, elem_of_nil in Hin, Hout;
    unfold list_field, has_field, field; simpl;
    (split; [reflexivity |]); (split; split; first [done | tauto]).
Qed.

(** X25.  The tools whose helpers are simulated never consult the graph:
    once a connection is cached, such a tool sends no query, writes no
    record, leaves the state as it is and returns the same document
    whatever the server holds. *)
Theorem simulated_tools_never_query_the_graph (request : Request) (s : State)
    (world' : World) :
  simulated request = true ->
  current_connection_id s <> JNull ->
  serve world request s = serve world' request s
  /\ snd (serve world request s) = s
  /\ has_field "error" (document (serve world request s)) = false.
Proof.
  intros Hsim Hc.
  destruct request; try discriminate Hsim; unfold serve;
    unfold walk_dependencies, walk_time_relationships, find_similar_setups,
      discover_unused_elements, trace_render_path, find_animation_patterns;
    rewrite !try_tool; unfold mbind, Py_bind;
    rewrite !(get_connection_cached _ s Hc); repeat split; reflexivity.
Qed.

(** X29.  The resource [project_graph_summary] never raises either, but it
    reports a failure in the document only: unlike a tool it writes no ERROR
    record, so that the module is left as [get_connection] left it.  When
    [get_connection] returns, whatever it returns, the summary names the
    project it was asked for and has no key [error]; when it raises (no
    connection id is kept and [client.query] raises or answers an empty
    list) the document is the error document of the exception. *)
Theorem project_graph_summary_fails_quietly (project_id : string) (s : State) :
  let run := project_graph_summary world project_id s in
  is_ok (fst run) = true
  /\ snd run = snd (get_connection world s)
  /\ match fst (get_connection world s) with
     | Ok _ =>
         field "project_id" (document run) = Some (JStr project_id)
         /\ has_field "error" (document run) = false
     | Raise e =>
         document run = error_document e
         /\ current_connection_id s = JNull
         /\ (client_query world HelixInit = Raise e
             \/ client_query world HelixInit = Ok []
                /\ e = IndexError "list index out of range")
     end.
Proof.
  cbv zeta. pose proof (get_connection_raises s) as Hraises.
  unfold project_graph_summary, try_except, mbind, Py_bind.
  destruct (get_connection world s) as [[connection_id|e] s1]; [done |].
  repeat split; try done; by apply (Hraises e).
Qed.

(** What an entry of the hierarchy says of its layer. *)
Lemma layer_info_entry connection_id depth layer info :
  layer_info connection_id depth layer = Ok info ->
  field "id" info = Some (default JNull (field "id" layer))
  /\ field "name" info = Some (default JNull (field "name" layer))
  /\ field "type" info = Some (default JNull (field "type" layer))
  /\ field "properties" info = Some (default (JObj []) (field "properties" layer))
  /\ has_field "property_groups" info = bool_decide (2 <= depth)
  /\ has_field "keyframes" info = bool_decide (3 <= depth).
Proof.
  unfold layer_info. destruct layer as [| | | | | |fields]; try done.
  intros [= <-].
  destruct (decide (2 <= depth)) as [H2|H2], (decide (3 <= depth)) as [H3|H3];
    try lia;
    rewrite ?(bool_decide_eq_true_2 _ H2), ?(bool_decide_eq_true_2 _ H3),
      ?(bool_decide_eq_false_2 _ H2), ?(bool_decide_eq_false_2 _ H3);
    repeat split; reflexivity.
Qed.

(** X30.  When the server answers with a list of dicts,
    [walk_composition_hierarchy] lists one entry for each layer, in order,
    with the id, name, type and properties of the layer (null, or an empty
    dict, for a missing key); every entry has the key [property_groups]
    exactly when the depth is 2 or more, and [keyframes] exactly when it is 3
    or more. *)
Theorem walk_composition_hierarchy_lists_every_layer (composition_id : string)
    (depth : Z) (s : State) (connection_id : json) (layers : list json) :
  fst (get_connection world s) = Ok connection_id ->
  response_items world connection_id = Ok layers ->
  forallb is_dict layers = true ->
  let doc := document (walk_composition_hierarchy world composition_id depth s) in
  field "composition" doc = Some (JStr composition_id)
  /\ field "depth" doc = Some (JInt depth)
  /\ Forall2 (fun layer info =>
                field "id" info = Some (default JNull (field "id" layer))
                /\ field "name" info = Some (default JNull (field "name" layer))
                /\ field "type" info = Some (default JNull (field "type" layer))
                /\ field "properties" info
                   = Some (default (JObj []) (field "properties" layer))
                /\ has_field "property_groups" info = bool_decide (2 <= depth)
                /\ has_field "keyframes" info = bool_decide (3 <= depth))
             layers (list_field "layers" doc).
Proof.
  intros Hconn Hitems Hdicts. cbv zeta. rewrite walk_composition_hierarchy_run.
  destruct (get_connection world s) as [[c|e] s1]; simpl in Hconn; [| done].
  injection Hconn as ->. rewrite Hitems.
  destruct (layer_infos_total connection_id depth layers) as [infos Hinfos].
  { apply Forall_forall. intros layer Hin.
    rewrite forallb_forall in Hdicts. apply list_elem_of_In in Hin.
    specialize (Hdicts layer Hin). by destruct layer. }
  rewrite Hinfos. split; [reflexivity |]. split; [reflexivity |].
  change (list_field "layers"
            (document (Ok (JObj [("composition", JStr composition_id);
                                 ("layers", JArr infos);
                                 ("depth", JInt depth)]),
                       sent (layers_query connection_id) s1)))
    with infos.
  eapply Forall2_impl; [by apply layer_infos_Forall2 |].
  intros layer info. apply layer_info_entry.
Qed.

(** One call with a cached connection. *)
Lemma serve_keeps_connection (request : Request) (s : State) :
  current_connection_id s <> JNull ->
  current_connection_id (snd (serve world request s)) = current_connection_id s
  /\ inits (snd (serve world request s)) = inits s.
Proof.
  intros Hc. pose proof (get_connection_cached world s Hc) as Hconn.
  set (c := current_connection_id s) in *.
  destruct request; unfold serve.
  - rewrite walk_composition_hierarchy_run, Hconn.
    destruct (response_items world c) as [items|e]; [| done].
    by destruct (layer_infos c depth items).
  - unfold walk_dependencies. rewrite try_tool. unfold mbind, Py_bind. by rewrite Hconn.
  - rewrite walk_effects_chain_run, Hconn.
    destruct (loaded world (effects_query c)) as [effects|e]; [| done].
    destruct (py_iter effects) as [items|e]; [| done].
    by destruct (effect_infos c include_properties items).
  - rewrite walk_expression_dependencies_run, Hconn.
    destruct (loaded world (expression_query c)) as [expressions|e]; [| done].
    destruct (truthy expressions); [| done].
    destruct (py_index0 expressions) as [expression|e]; [| done].
    by destruct (expression_info c expression) as [[info references]|e].
  - unfold walk_time_relationships. rewrite try_tool. unfold mbind, Py_bind.
    by rewrite Hconn.
  - unfold find_similar_setups. rewrite try_tool. unfold mbind, Py_bind.
    by rewrite Hconn.
  - unfold discover_unused_elements. rewrite try_tool. unfold mbind, Py_bind.
    by rewrite Hconn.
  - unfold trace_render_path. rewrite try_tool. unfold mbind, Py_bind. by rewrite Hconn.
  - unfold find_animation_patterns. rewrite try_tool. unfold mbind, Py_bind.
    by rewrite Hconn.
Qed.

(** X27.  No tool drops or replaces the connection: once an id is cached,
    it is still the cached id after any sequence of calls, and none of the
    calls has sent an [init] query. *)
Theorem tools_keep_the_connection (requests : list Request) (s : State) :
  current_connection_id s <> JNull ->
  current_connection_id (serve_all world requests s) = current_connection_id s
  /\ inits (serve_all world requests s) = inits s.
Proof.
  revert s. induction requests as [|request requests IH]; intros s Hc; [done |].
  destruct (serve_keeps_connection request s Hc) as [Hc1 Hinits1].
  destruct (IH (snd (serve world request s))) as [Hc2 Hinits2]; [by rewrite Hc1 |].
  unfold serve_all in *. simpl. split; congruence.
Qed.

(** X31.  A request for a connection that failed goes unnoticed.  When no
    id is kept and the server answers [helix.init()] with a list whose first
    item is [None], [get_connection] raises nothing: it logs [None] as the
    connection and the tool goes on with it.  A tool whose helpers are
    simulated returns its document, without the key [error]; a traversal
    tool sends its query with [None] as connection id.  Nothing is kept, so
    that the next call asks for a connection again. *)
Theorem failed_connection_goes_unnoticed (request : Request) (s : State)
    (rest : list json) :
  current_connection_id s = JNull ->
  client_query world HelixInit = Ok (JNull :: rest) ->
  let run := serve world request s in
  is_ok (fst run) = true
  /\ current_connection_id (snd run) = JNull
  /\ (INFO, MsgInitialized JNull) ∈ log (snd run)
  /\ if simulated request
     then has_field "error" (document run) = false
          /\ log (snd run) = (INFO, MsgInitialized JNull) :: log s
          /\ queries (snd run) = HelixInit :: queries s
     else exists tool, queries (snd run) = CallTool JNull tool :: HelixInit :: queries s.
Proof.
  intros Hc Hq. cbv zeta.
  assert (Hconn :
    get_connection world s
    = (Ok JNull, {| current_connection_id := JNull;
                    log := (INFO, MsgInitialized JNull) :: log s;
                    queries := HelixInit :: queries s |}))
    by (by rewrite get_connection_run, Hc, Hq).
  assert (Hin : forall r rest', (INFO, MsgInitialized JNull)
                                ∈ r :: (INFO, MsgInitialized JNull) :: rest')
    by (intros; right; left).
  destruct request; unfold serve, simulated.
  - rewrite walk_composition_hierarchy_run, Hconn.
    destruct (response_items world JNull) as [items|e];
      [| by repeat split; [apply Hin | eexists]].
    destruct (layer_infos JNull depth items);
      repeat split; try done; try apply Hin; try (by left); by eexists.
  - unfold walk_dependencies. rewrite try_tool. unfold mbind, Py_bind. rewrite Hconn.
    repeat split; try reflexivity. by left.
  - rewrite walk_effects_chain_run, Hconn.
    destruct (loaded world (effects_query JNull)) as [effects|e];
      [| by repeat split; [apply Hin | eexists]].
    destruct (py_iter effects) as [items|e];
      [| by repeat split; [apply Hin | eexists]].
    destruct (effect_infos JNull include_properties items);
      repeat split; try done; try apply Hin; try (by left); by eexists.
  - rewrite walk_expression_dependencies_run, Hconn.
    destruct (loaded world (expression_query JNull)) as [expressions|e];
      [| by repeat split; [apply Hin | eexists]].
    destruct (truthy expressions);
      [| by repeat split; [left | eexists]].
    destruct (py_index0 expressions) as [expression|e];
      [| by repeat split; [apply Hin | eexists]].
    destruct (expression_info JNull expression) as [[info references]|e];
      repeat split; try done; try apply Hin; try (by left); by eexists.
  - unfold walk_time_relationships. rewrite try_tool. unfold mbind, Py_bind.
    rewrite Hconn. repeat split; try reflexivity. by left.
  - unfold find_similar_setups. rewrite try_tool. unfold mbind, Py_bind.
    rewrite Hconn. repeat split; try reflexivity. by left.
  - unfold discover_unused_elements. rewrite try_tool. unfold mbind, Py_bind.
    rewrite Hconn. repeat split; try reflexivity. by left.
  - unfold trace_render_path. rewrite try_tool. unfold mbind, Py_bind.
    rewrite Hconn. repeat split; try reflexivity. by left.
  - unfold find_animation_patterns. rewrite try_tool. unfold mbind, Py_bind.
    rewrite Hconn. repeat split; try reflexivity. by left.
Qed.

End WalkerFurther.

(** * The further properties of the tools at sample inputs *)
Section WalkerFurtherSamples.
Import Walker.

(** X20 on an answer of one blur effect, properties included. *)
Lemma walk_effects_chain_lists_every_effect_witness :
  let world := world_when true (JArr [blur_effect]) in
  let doc := document (walk_effects_chain world "layer_title" true initial) in
  (forallb well_formed_effect [blur_effect] = true ->
   field "layer_id" doc = Some (JStr "layer_title")
   /\ Forall2 (fun effect info =>
                 field "id" info = Some (default JNull (field "id" effect))
                 /\ field "name" info = Some (default JNull (field "name" effect))
                 /\ has_field "properties" info = true)
              [blur_effect] (list_field "effects" doc))
  /\ (forallb well_formed_effect [blur_effect] = false ->
      exists e, doc = error_document e).
Proof.
  apply (walk_effects_chain_lists_every_effect (world_when true (JArr [blur_effect]))
           "layer_title" true initial (JStr "connection-1") [blur_effect]);
    reflexivity.
Defined.

(** X22 on an answer of two expressions. *)
Lemma walk_expression_dependencies_reads_first_witness :
  let world := world_when true (JArr [wiggle_expression; JNull]) in
  exists references,
    _parse_expression_references (JStr "connection-1")
      (JStr "thisComp.layer(1).effect(2)(3) + wiggle(2, 10)")
    = Ok references
    /\ document (walk_expression_dependencies world "prop_position" initial)
       = JObj [("property_id", JStr "prop_position");
               ("expression",
                JObj [("id", JStr "expr_wiggle");
                      ("text", JStr "thisComp.layer(1).effect(2)(3) + wiggle(2, 10)");
                      ("language", JStr "javascript")]);
               ("references", references)].
Proof.
  apply (walk_expression_dependencies_reads_first
           (world_when true (JArr [wiggle_expression; JNull]))
           "prop_position" initial (JStr "connection-1")
           [("id", JStr "expr_wiggle");
            ("properties",
             JObj [("expression_text",
                    JStr "thisComp.layer(1).effect(2)(3) + wiggle(2, 10)");
                   ("language", JStr "javascript")])]
           [("expression_text", JStr "thisComp.layer(1).effect(2)(3) + wiggle(2, 10)");
            ("language", JStr "javascript")]
           "thisComp.layer(1).effect(2)(3) + wiggle(2, 10)" [JNull]);
    reflexivity.
Defined.

(** X25 for [trace_render_path], with a server that holds a layer and one
    that refuses everything. *)
Lemma simulated_tools_never_query_the_graph_witness :
  let request := TraceRenderPath "layer_title" in
  serve (world_when true (JArr [main_layer])) request connected
  = serve (world_when false JNull) request connected
  /\ snd (serve (world_when true (JArr [main_layer])) request connected) = connected
  /\ has_field "error"
       (document (serve (world_when true (JArr [main_layer])) request connected))
     = false.
Proof.
  apply (simulated_tools_never_query_the_graph (world_when true (JArr [main_layer]))
           (TraceRenderPath "layer_title") connected (world_when false JNull));
    [reflexivity | discriminate].
Defined.

(** X30 at depth 2 on an answer of one layer. *)
Lemma walk_composition_hierarchy_lists_every_layer_witness :
  let world := world_when true (JArr [main_layer]) in
  let doc := document (walk_composition_hierarchy world "comp_main" 2 initial) in
  field "composition" doc = Some (JStr "comp_main")
  /\ field "depth" doc = Some (JInt 2)
  /\ Forall2 (fun layer info =>
                field "id" info = Some (default JNull (field "id" layer))
                /\ field "name" info = Some (default JNull (field "name" layer))
                /\ field "type" info = Some (default JNull (field "type" layer))
                /\ field "properties" info
                   = Some (default (JObj []) (field "properties" layer))
                /\ has_field "property_groups" info = bool_decide (2 <= 2)
                /\ has_field "keyframes" info = bool_decide (3 <= 2))
             [main_layer] (list_field "layers" doc).
Proof.
  apply (walk_composition_hierarchy_lists_every_layer
           (world_when true (JArr [main_layer])) "comp_main" 2 initial
           (JStr "connection-1") [main_layer]);
    reflexivity.
Defined.

(** X27 on three calls, two of them traversals. *)
Lemma tools_keep_the_connection_witness :
  let world := world_when true (JArr [blur_effect]) in
  let requests := [WalkEffectsChain "layer_title" true; TraceRenderPath "layer_title";
                   WalkCompositionHierarchy "comp_main" 2] in
  current_connection_id (serve_all world requests connected)
  = current_connection_id connected
  /\ inits (serve_all world requests connected) = inits connected.
Proof.
  apply (tools_keep_the_connection (world_when true (JArr [blur_effect]))
           [WalkEffectsChain "layer_title" true; TraceRenderPath "layer_title";
            WalkCompositionHierarchy "comp_main" 2]
           connected).
  discriminate.
Defined.

(** X31 for [walk_time_relationships], with a server that refuses every
    request. *)
Lemma failed_connection_goes_unnoticed_witness :
  let run := serve world_refusing (WalkTimeRelationships 10 None) initial in
  is_ok (fst run) = true
  /\ current_connection_id (snd run) = JNull
  /\ (INFO, MsgInitialized JNull) ∈ log (snd run)
  /\ has_field "error" (document run) = false
  /\ log (snd run) = (INFO, MsgInitialized JNull) :: log initial
  /\ queries (snd run) = HelixInit :: queries initial.
Proof.
  apply (failed_connection_goes_unnoticed world_refusing (WalkTimeRelationships 10 None)
           initial []); reflexivity.
Defined.

(** The expression of the sample refers to a layer and to an effect, and a
    text without either gives no reference. *)
Example parse_expression_references_samples :
  _parse_expression_references (JStr "connection-1")
    (JStr "thisComp.layer(1).effect(2)(3) + wiggle(2, 10)")
  = Ok (JArr [layer_reference; effect_reference])
  /\ _parse_expression_references (JStr "connection-1") (JStr "wiggle(2, 10)")
     = Ok (JArr [])
  /\ _parse_expression_references (JStr "connection-1") (JInt 3)
     = Raise (TypeError "argument of type 'int' is not iterable").
Proof. repeat split; vm_compute; reflexivity. Qed.

End WalkerFurtherSamples.
